(** * vim-timetap-cli: the aggregation engine of [vimtimetap.py]

    A shallow embedding of the functions of [vimtimetap.py] that gather,
    filter and summarise the time data written by Vim TimeTap, and the
    properties of them that its specification states.

    Python values are represented as follows.
    - [str] is the [string] of the bytes of its UTF-8 encoding; the
      functions of [posixpath] work on the list of them.  Separators and
      dots are single bytes, so a path in UTF-8 is split at the same
      places as the text it encodes.  Where the program counts or matches
      characters ([len], the patterns of [re]) the bytes are taken
      together character by character.
    - [int] is [Z].
    - a [dict] from [str] is a [gmap string _].
    - a raised exception is the [Raise] case of [result]. *)

From Stdlib Require Import ZArith Ascii Lia.
From Stdlib Require String.
From stdpp Require Import base option list gmap strings sorting fin_maps.

Open Scope Z_scope.

(** ** Exceptions *)

Inductive exn : Type :=
  | AssertionError
  | ValueError
  | KeyError
  | TypeError
  | OverflowError
  | ReError.

Inductive result (A : Type) : Type :=
  | Ok (a : A)
  | Raise (e : exn).
Arguments Ok {A} a.
Arguments Raise {A} e.

#[global] Instance result_ret : MRet result := fun A a => Ok a.
#[global] Instance result_bind : MBind result := fun A B k r =>
  match r with
  | Ok a => k a
  | Raise e => Raise e
  end.

(** ** Text *)

Abbreviation chars := String.list_ascii_of_string.
Abbreviation text := String.string_of_list_ascii.

Definition sep : ascii := "/"%char.
Definition extsep : ascii := "."%char.

Module Str.

(** [p.rfind(c)]: the index of the last [c] in [p], or [-1]. *)
Fixpoint rfind_from (c : ascii) (p : list ascii) (i last : Z) : Z :=
  match p with
  | [] => last
  | x :: p' => rfind_from c p' (i + 1) (if decide (x = c) then i else last)
  end.

Definition rfind (c : ascii) (p : list ascii) : Z := rfind_from c p 0 (-1).

(** [p[:i]] and [p[i:]] for an index [0 <= i]. *)
Definition upto (i : Z) (p : list ascii) : list ascii := take (Z.to_nat i) p.
Definition from (i : Z) (p : list ascii) : list ascii := drop (Z.to_nat i) p.

(** [p.rstrip(c)] *)
Fixpoint rstrip (c : ascii) (p : list ascii) : list ascii :=
  match p with
  | [] => []
  | x :: p' =>
      match rstrip c p' with
      | [] => if decide (x = c) then [] else [x]
      | q => x :: q
      end
  end.

End Str.

(** ** [posixpath] *)

Module posixpath.

(** [os.path.basename] *)
Definition basename (p : list ascii) : list ascii :=
  let i := Str.rfind sep p + 1 in
  Str.from i p.

(** [os.path.split] *)
Definition split (p : list ascii) : list ascii * list ascii :=
  let i := Str.rfind sep p + 1 in
  let head := Str.upto i p in
  let tail := Str.from i p in
  let head :=
    if bool_decide (head <> [] /\ head <> replicate (length head) sep)
    then Str.rstrip sep head else head in
  (head, tail).

(** The loop of [genericpath._splitext] that skips the leading dots of the
    file name: [n] is [dotIndex - filenameIndex]. *)
Fixpoint skip_leading_dots (p : list ascii) (filenameIndex : Z) (n : nat) : bool :=
  match n with
  | O => false
  | S n' =>
      if bool_decide (take 1 (Str.from filenameIndex p) <> [extsep]) then true
      else skip_leading_dots p (filenameIndex + 1) n'
  end.

(** [os.path.splitext] *)
Definition splitext (p : list ascii) : list ascii * list ascii :=
  let sepIndex := Str.rfind sep p in
  let dotIndex := Str.rfind extsep p in
  if (dotIndex >? sepIndex)
     && skip_leading_dots p (sepIndex + 1) (Z.to_nat (dotIndex - (sepIndex + 1)))
  then (Str.upto dotIndex p, Str.from dotIndex p)
  else (p, []).

End posixpath.

(** ** File types *)

Definition _parse_filetype (path : string) : string :=
  let '(_, extension) := posixpath.splitext (chars path) in
  let extension :=
    if bool_decide (extension <> []) then "*"%char :: extension
    else posixpath.basename (chars path) in
  let extension :=
    if bool_decide (extension <> []) then extension else chars "OTHER" in
  text extension.

(** ** Dates

    [main] builds every [datetime] with [datetime(year=, month=, day=)] and
    moves it by whole days only, so the time of day is 00:00:00 throughout
    and a [datetime] is represented by its calendar date. *)

Module datetime.

Record t : Type := mk { year : Z; month : Z; day : Z }.

Definition MINYEAR : Z := 1.
Definition MAXYEAR : Z := 9999.

Definition _is_leap (year : Z) : bool :=
  (year mod 4 =? 0) && (negb (year mod 100 =? 0) || (year mod 400 =? 0)).

Definition _DAYS_IN_MONTH (month : Z) : Z :=
  match month with
  | 1 => 31 | 2 => 28 | 3 => 31 | 4 => 30 | 5 => 31 | 6 => 30
  | 7 => 31 | 8 => 31 | 9 => 30 | 10 => 31 | 11 => 30 | 12 => 31
  | _ => -1
  end.

Definition _DAYS_BEFORE_MONTH (month : Z) : Z :=
  match month with
  | 1 => 0 | 2 => 31 | 3 => 59 | 4 => 90 | 5 => 120 | 6 => 151
  | 7 => 181 | 8 => 212 | 9 => 243 | 10 => 273 | 11 => 304 | 12 => 334
  | _ => -1
  end.

Definition _days_in_month (year month : Z) : Z :=
  if (month =? 2) && _is_leap year then 29 else _DAYS_IN_MONTH month.

Definition _days_before_year (year : Z) : Z :=
  let y := year - 1 in
  y * 365 + y / 4 - y / 100 + y / 400.

Definition _days_before_month (year month : Z) : Z :=
  _DAYS_BEFORE_MONTH month + (if (month >? 2) && _is_leap year then 1 else 0).

(** The check of the constructor: a [datetime] that exists is [valid]. *)
Definition valid (d : t) : bool :=
  (MINYEAR <=? year d) && (year d <=? MAXYEAR)
  && (1 <=? month d) && (month d <=? 12)
  && (1 <=? day d) && (day d <=? _days_in_month (year d) (month d)).

(** [datetime(year=, month=, day=)] *)
Definition new (year month day : Z) : result t :=
  let d := mk year month day in
  if valid d then Ok d else Raise ValueError.

(** [d.toordinal()] *)
Definition toordinal (d : t) : Z :=
  _days_before_year (year d) + _days_before_month (year d) (month d) + day d.

(** [a < b] *)
Definition ltb (a b : t) : bool :=
  (year a <? year b)
  || ((year a =? year b)
      && ((month a <? month b) || ((month a =? month b) && (day a <? day b)))).

(** [d + timedelta(days=1)] *)
Definition add_day (d : t) : result t :=
  if day d <? _days_in_month (year d) (month d)
  then Ok (mk (year d) (month d) (day d + 1))
  else if month d <? 12 then Ok (mk (year d) (month d + 1) 1)
  else if year d <? MAXYEAR then Ok (mk (year d + 1) 1 1)
  else Raise OverflowError.

(** [(b - a).days] *)
Definition days_between (a b : t) : Z := toordinal b - toordinal a.

(** Decimal digits, as [strftime] writes the fields of a date. *)
Definition digit (n : Z) : ascii :=
  match n mod 10 with
  | 0 => "0" | 1 => "1" | 2 => "2" | 3 => "3" | 4 => "4"
  | 5 => "5" | 6 => "6" | 7 => "7" | 8 => "8" | _ => "9"
  end%char.

Definition pad2 (n : Z) : list ascii := [digit (n / 10); digit n].
Definition pad4 (n : Z) : list ascii :=
  [digit (n / 1000); digit (n / 100); digit (n / 10); digit n].

(** The decimal digits of an integer, after a minus sign when it is
    negative, without leading zeros: [str(n)], and the year as the C
    library writes it for [%Y].  A number has fewer digits than its value
    plus one, which bounds the loop. *)
Fixpoint digits_loop (fuel : nat) (n : Z) (acc : list ascii) : list ascii :=
  match fuel with
  | O => acc
  | S fuel' =>
      if n <? 10 then digit n :: acc
      else digits_loop fuel' (n / 10) (digit n :: acc)
  end.

Definition str (n : Z) : list ascii :=
  if n <? 0 then "-"%char :: digits_loop (S (Z.to_nat (- n))) (- n) []
  else digits_loop (S (Z.to_nat n)) n [].

Definition month_abbr (month : Z) : string :=
  match month with
  | 1 => "Jan" | 2 => "Feb" | 3 => "Mar" | 4 => "Apr" | 5 => "May"
  | 6 => "Jun" | 7 => "Jul" | 8 => "Aug" | 9 => "Sep" | 10 => "Oct"
  | 11 => "Nov" | _ => "Dec"
  end.

(** [d.strftime("%Y%m%d")].  [strftime] is the one of the C library,
    which writes the year of [%Y] as a number: a year below 1000 has
    fewer than four digits, and no zeros before them. *)
Definition strftime_Ymd (d : t) : string :=
  text (str (year d) ++ pad2 (month d) ++ pad2 (day d)).

(** [d.strftime("%Y %b %d")] *)
Definition strftime_Y_b_d (d : t) : string :=
  text (str (year d)) +:+ " " +:+ month_abbr (month d) +:+ " " +:+ text (pad2 (day d)).

(** [d.strftime("%x")].  The program never calls [locale.setlocale], so
    the format is the one of the C locale, [%m/%d/%y]: the year is
    written with its last two digits. *)
Definition strftime_x (d : t) : string :=
  text (pad2 (month d) ++ "/"%char :: pad2 (day d) ++ "/"%char :: pad2 (year d mod 100)).

End datetime.

Abbreviation digits_loop := datetime.digits_loop.
Abbreviation str := datetime.str.

Definition _equal_dates (date1 date2 : datetime.t) : bool :=
  bool_decide (datetime.strftime_x date1 = datetime.strftime_x date2).

(** The loop of [generated_database_filenames].  Every turn moves
    [start_date] one day on, and a date past 9999-12-31 raises, so the
    number of days from the first [start_date] to that last day bounds the
    number of turns; [fuel] counts them down and [None] is the loop still
    running when it is spent. *)
Fixpoint filenames_loop (fuel : nat) (start_date end_date : datetime.t)
    (database_filenames : list string) : option (result (list string)) :=
  if _equal_dates start_date end_date then
    Some (Ok (database_filenames ++ [datetime.strftime_Ymd start_date +:+ ".db"]))
  else
    let filename := datetime.strftime_Ymd start_date +:+ ".db" in
    match datetime.add_day start_date with
    | Raise e => Some (Raise e)
    | Ok next =>
        match fuel with
        | O => None
        | S fuel' => filenames_loop fuel' next end_date (database_filenames ++ [filename])
        end
    end.

Definition last_ordinal : Z := 3652059.

(** [generated_database_filenames(start_date, end_date)]; [today] is the
    date of [datetime.today()]. *)
Definition generated_database_filenames (today : datetime.t)
    (start_date end_date : option datetime.t) : option (result (list string)) :=
  match start_date with
  | None => Some (Ok ["full.db"])
  | Some start_date =>
      if match end_date with
         | Some end_date => datetime.ltb end_date start_date
         | None => false
         end
      then Some (Ok [])
      else
        let end_date := default today end_date in
        filenames_loop (Z.to_nat (last_ordinal - datetime.toordinal start_date))
          start_date end_date []
  end.

(** ** Keys *)

Inductive DatabaseDisplayKey : Type :=
  | DATE
  | PATH
  | TREE
  | FILENAME
  | FILETYPE.

#[global] Instance DatabaseDisplayKey_eq_dec : EqDecision DatabaseDisplayKey.
Proof. solve_decision. Defined.

(** [int(s)] for the text of a field of a file name.  Decimal digits are
    read; the signs, blanks and underscores that [int] accepts as well do
    not occur in the names of TimeTap files and are read as [ValueError]. *)
Fixpoint int_digits (acc : Z) (s : list ascii) : option Z :=
  match s with
  | [] => Some acc
  | c :: s' =>
      match Ascii.is_nat c with
      | Some v => int_digits (acc * 10 + Z.of_nat v) s'
      | None => None
      end
  end.

Definition int (s : list ascii) : result Z :=
  match s with
  | [] => Raise ValueError
  | _ => match int_digits 0 s with
         | Some n => Ok n
         | None => Raise ValueError
         end
  end.

Definition _parse_date (filename : string) : result string :=
  let name := chars filename in
  match
    file_year ← int (take 4 name);
    file_month ← int (take 2 (drop 4 name));
    file_day ← int (take 2 (drop 6 name));
    Ok (file_year, file_month, file_day)
  with
  | Raise _ =>
      if decide (filename = "full.db") then Ok "ALL" else Raise AssertionError
  | Ok (file_year, file_month, file_day) =>
      file_date ← datetime.new file_year file_month file_day;
      Ok (datetime.strftime_Y_b_d file_date)
  end.

(** ** The TimeTap directory

    A line of a database file is represented by what lines 289-294 make
    of it: the path and the total of its single entry, or the exception
    that decoding it raises. *)

Inductive line : Type :=
  | Entry (path : string) (total : Z)
  | Malformed (e : exn).

(** [TIMETAP_DIR]: the names [os.listdir] returns, and for each name the
    lines [open] and [read] give, [None] when opening it raises [IOError]. *)
Record directory : Type := {
  listdir : list string;
  contents : string -> option (list line)
}.

(** A [for] loop whose body may raise. *)
Fixpoint for_each {A S : Type} (body : S -> A -> result S) (items : list A) (s : S)
    : result S :=
  match items with
  | [] => Ok s
  | x :: items' => s' ← body s x; for_each body items' s'
  end.

(** ** The database dictionary *)

(** The key of a line under [key_type], lines 296-303. *)
Definition filetitle_of (key_type : DatabaseDisplayKey) (file_date path : string) : string :=
  match key_type with
  | DATE => file_date
  | PATH | TREE => path
  | FILENAME => text (posixpath.basename (chars path))
  | FILETYPE => _parse_filetype path
  end.

(** The body of the loop over the lines, lines 287-308. *)
Definition add_line (key_type : DatabaseDisplayKey) (file_date : string)
    (database_dict : gmap string Z) (l : line) : result (gmap string Z) :=
  match l with
  | Malformed e => Raise e
  | Entry path seconds =>
      let filetitle := filetitle_of key_type file_date path in
      match database_dict !! filetitle with
      | Some t => Ok (<[filetitle := t + seconds]> database_dict)
      | None => Ok (<[filetitle := seconds]> database_dict)
      end
  end.

Definition populate_database_dict (dir : directory) (database_filename : string)
    (database_dict : gmap string Z) (key_type : option DatabaseDisplayKey)
    : result (gmap string Z) :=
  let key_type := default FILETYPE key_type in
  match contents dir database_filename with
  | None => Ok database_dict
  | Some data =>
      file_date ← (if decide (key_type = DATE) then _parse_date database_filename
                   else Ok "");
      for_each (add_line key_type file_date) data database_dict
  end.

(** ** The loop of [main], lines 81-92 *)

Definition main_step (dir : directory) (key_type : DatabaseDisplayKey)
    (st : gmap string Z * list (string * Z)) (database_filename : string)
    : result (gmap string Z * list (string * Z)) :=
  let '(time_per_type, database) := st in
  time_per_type ← populate_database_dict dir database_filename time_per_type (Some key_type);
  if decide (key_type = DATE) then
    date ← _parse_date database_filename;
    match time_per_type !! date with
    | Some t => Ok (time_per_type, database ++ [(date, t)])
    | None => Ok (time_per_type, database)
    end
  else Ok (time_per_type, database).

Definition main_loop (dir : directory) (key_type : DatabaseDisplayKey)
    (database_filenames : list string)
    : result (gmap string Z * list (string * Z)) :=
  for_each (main_step dir key_type) database_filenames (∅, []).

(** ** Filtering *)

(** The part of [re] that [filter_database_dict] uses: [compile] is
    [re.compile], which raises on a pattern that is not a regular
    expression, and [matches p s] is [p.match(s) is not None], a match that
    starts at the beginning of [s] and may end anywhere. *)
Class Re : Type := {
  pattern : Type;
  compile : string -> result pattern;
  matches : pattern -> string -> bool
}.

(** [del database_dict[filetitle]] *)
Definition del (database_dict : gmap string Z) (filetitle : string)
    : result (gmap string Z) :=
  match database_dict !! filetitle with
  | Some _ => Ok (delete filetitle database_dict)
  | None => Raise KeyError
  end.

Definition filter_database_dict `{Re} (database_dict : gmap string Z) (regex : string)
    : result (gmap string Z) :=
  regex_engine ← compile regex;
  let filetitles_to_delete :=
    foldl (fun to_delete filetitle =>
             if matches regex_engine filetitle then to_delete
             else to_delete ++ [filetitle])
          [] (map_to_list database_dict).*1 in
  for_each del filetitles_to_delete database_dict.

(** ** The path tree *)

#[warnings="-register-all"]
Inductive TrieNode : Type :=
  mkTrieNode { value : Z; goto : gmap string TrieNode }.

(** The [while] loop of [_directories_in_path].  A turn with a [tail] that
    is not empty replaces [head] by a shorter one, so the length of the
    path bounds the number of turns; [None] is the loop still running when
    [fuel] is spent. *)
Fixpoint directories_loop (fuel : nat) (head tail : list ascii)
    (directories : list string) : option (list string * list ascii) :=
  match tail with
  | [] => Some (directories, head)
  | _ =>
      match fuel with
      | O => None
      | S fuel' =>
          let '(head', tail') := posixpath.split head in
          directories_loop fuel' head' tail' (directories ++ [text tail])
      end
  end.

Definition _directories_in_path (path : string) : option (list string) :=
  let '(head, tail) := posixpath.split (chars path) in
  '(directories, head) ← directories_loop (length (chars path)) head tail [];
  Some (reverse (directories ++ [text head])).

(** The inner loop of [_print_database_as_tree], lines 485-491: [node] has
    had [raw_seconds] added already, and the result is [node] with the
    nodes along [directories] below it visited or created. *)
Fixpoint walk (directories : list string) (raw_seconds : Z) (node : TrieNode)
    : TrieNode :=
  match directories with
  | [] => node
  | directory :: rest =>
      let child :=
        match goto node !! directory with
        | Some child => mkTrieNode (value child + raw_seconds) (goto child)
        | None => mkTrieNode raw_seconds ∅
        end in
      mkTrieNode (value node) (<[directory := walk rest raw_seconds child]> (goto node))
  end.

(** One turn of the outer loop, lines 482-491. *)
Definition insert_entry (path_trie : TrieNode) (entry : string * Z) : option TrieNode :=
  let '(file_path, raw_seconds) := entry in
  directories ← _directories_in_path file_path;
  Some (walk directories raw_seconds
          (mkTrieNode (value path_trie + raw_seconds) (goto path_trie))).

Fixpoint insert_entries (path_trie : TrieNode) (database : list (string * Z))
    : option TrieNode :=
  match database with
  | [] => Some path_trie
  | entry :: database' =>
      path_trie' ← insert_entry path_trie entry;
      insert_entries path_trie' database'
  end.

(** The tree that [_print_database_as_tree] builds, lines 479-491. *)
Definition build_path_trie (database : list (string * Z)) : option TrieNode :=
  insert_entries (mkTrieNode 0 ∅) database.

(** The node reached from [node] along [directories]. *)
Fixpoint node_at (node : TrieNode) (directories : list string) : option TrieNode :=
  match directories with
  | [] => Some node
  | directory :: rest => child ← goto node !! directory; node_at child rest
  end.

(** ** The consistency check *)

(** The variables of [check_database] from line 165 on; [printed] holds,
    for each pair of lines written in the loop of lines 183-186, the file
    name and the two times. *)
Record check_locals : Type := {
  by_date_time_per_file : gmap string Z;
  full_time_per_file : gmap string Z;
  joined_per_file : gmap string (Z * Z);
  total_seconds_difference : Z;
  printed : list (string * (Z * Z))
}.

(** Lines 167-170. *)
Definition join_by_date (s : check_locals) (item : string * Z) : check_locals :=
  let '(filename, time) := item in
  {| by_date_time_per_file := by_date_time_per_file s;
     full_time_per_file := full_time_per_file s;
     joined_per_file := <[filename := (time, 0)]> (joined_per_file s);
     total_seconds_difference := total_seconds_difference s;
     printed := printed s |}.

(** Lines 171-177. *)
Definition join_full (s : check_locals) (item : string * Z) : check_locals :=
  let '(filename, time) := item in
  {| by_date_time_per_file := by_date_time_per_file s;
     full_time_per_file := full_time_per_file s;
     joined_per_file :=
       match joined_per_file s !! filename with
       | Some times => <[filename := (times.1, time)]> (joined_per_file s)
       | None => <[filename := (0, time)]> (joined_per_file s)
       end;
     total_seconds_difference := total_seconds_difference s;
     printed := printed s |}.

(** Lines 183-186. *)
Definition print_entry (s : check_locals) (entry : string * (Z * Z)) : check_locals :=
  let '(filename, times) := entry in
  {| by_date_time_per_file := by_date_time_per_file s;
     full_time_per_file := full_time_per_file s;
     joined_per_file := joined_per_file s;
     total_seconds_difference :=
       total_seconds_difference s + Z.abs (times.2 - times.1);
     printed := printed s ++ [(filename, times)] |}.

(** The order of [sorted(..., key=lambda x: x[0])]. *)
Definition by_filename (x y : string * (Z * Z)) : Prop := String.le x.1 y.1.

#[global] Instance by_filename_dec : RelDecision by_filename.
Proof. intros x y. unfold by_filename. apply _. Defined.

(** Lines 165-188, from the two dictionaries that lines 155-163 build. *)
Definition compare_databases (by_date full : gmap string Z) : check_locals :=
  let s := {| by_date_time_per_file := by_date;
              full_time_per_file := full;
              joined_per_file := ∅;
              total_seconds_difference := 0;
              printed := [] |} in
  let s := foldl join_by_date s (map_to_list (by_date_time_per_file s)) in
  let s := foldl join_full s (map_to_list (full_time_per_file s)) in
  let inconsistent_entries :=
    filter (fun x : string * (Z * Z) => x.2.1 <> x.2.2)
           (map_to_list (joined_per_file s)) in
  foldl print_entry s (merge_sort by_filename inconsistent_entries).

Definition check_database (dir : directory) : result check_locals :=
  let key_type := PATH in
  by_date_time_per_file ←
    for_each (fun d filename =>
                if decide (filename <> "full.db")
                then populate_database_dict dir filename d (Some key_type)
                else Ok d)
             (listdir dir) ∅;
  full_time_per_file ← populate_database_dict dir "full.db" ∅ (Some key_type);
  Ok (compare_databases by_date_time_per_file full_time_per_file).

(** ** Times *)

Definition _seconds_to_hms (seconds : Z) : Z * Z * Z :=
  let minutes := seconds / 60 in
  let seconds := seconds mod 60 in
  let hours := minutes / 60 in
  let minutes := minutes mod 60 in
  (hours, minutes, seconds).

(** ** The rows of [main], lines 94-111 *)

(** The order of [sorted(..., key=lambda tup: tup[1], reverse=True)].
    Python keeps entries with equal seconds in the order of the
    dictionary, which a [gmap] does not record: the order among such
    entries is not modelled. *)
Definition by_seconds_descending (x y : string * Z) : Prop := y.2 <= x.2.

#[global] Instance by_seconds_descending_dec : RelDecision by_seconds_descending.
Proof. intros x y. unfold by_seconds_descending. apply _. Defined.

(** From the dictionary and the rows the loop has built to the [database]
    that is passed to [print_database]; [filter] is [args.filter]. *)
Definition main_database `{Re} (key_type : DatabaseDisplayKey) (filter : option string)
    (st : gmap string Z * list (string * Z)) : result (list (string * Z)) :=
  let '(time_per_type, database) := st in
  time_per_type ←
    match filter with
    | Some regex => filter_database_dict time_per_type regex
    | None => Ok time_per_type
    end;
  Ok (match key_type with
      | DATE => database
      | TREE => map_to_list time_per_type
      | _ => merge_sort by_seconds_descending (map_to_list time_per_type)
      end).

(** Lines 79-111: the loop and what follows it. *)
Definition main_rows `{Re} (dir : directory) (key_type : DatabaseDisplayKey)
    (filter : option string) (database_filenames : list string)
    : result (list (string * Z)) :=
  st ← main_loop dir key_type database_filenames;
  main_database key_type filter st.

(** The sum that [print_database] shows in its last row, lines 421-424. *)
Definition overall_seconds (database : list (string * Z)) : Z :=
  foldl (fun overall_seconds row => overall_seconds + row.2) 0 database.

(** ** The range of dates of [main], lines 50-77 *)

(** The end of [datetime._ord2ymd]: the month and the day of the [n]-th
    day of a year, counted from 0. *)
Definition _ord2md (n : Z) (leapyear : bool) : Z * Z :=
  let month := Z.shiftr (n + 50) 5 in
  let preceding :=
    datetime._DAYS_BEFORE_MONTH month + (if (month >? 2) && leapyear then 1 else 0) in
  let '(month, preceding) :=
    if preceding >? n
    then (month - 1,
          preceding - (datetime._DAYS_IN_MONTH (month - 1)
                       + (if (month - 1 =? 2) && leapyear then 1 else 0)))
    else (month, preceding) in
  (month, n - preceding + 1).

(** [datetime._ord2ymd], without its assertions. *)
Definition _ord2ymd (n : Z) : datetime.t :=
  let n := n - 1 in
  let n400 := n / 146097 in
  let n := n mod 146097 in
  let year := n400 * 400 + 1 in
  let n100 := n / 36524 in
  let n := n mod 36524 in
  let n4 := n / 1461 in
  let n := n mod 1461 in
  let n1 := n / 365 in
  let n := n mod 365 in
  let year := year + (n100 * 100 + n4 * 4 + n1) in
  if (n1 =? 4) || (n100 =? 4) then datetime.mk (year - 1) 12 31
  else
    let leapyear := (n1 =? 3) && (negb (n4 =? 24) || (n100 =? 3)) in
    let '(month, day) := _ord2md n leapyear in
    datetime.mk year month day.

(** [d - timedelta(days=days)]: the date [days] days before [d], and
    [OverflowError] when there is none (or when [days] is more than a
    [timedelta] holds, which is then before the first date as well). *)
Definition sub_days (d : datetime.t) (days : Z) : result datetime.t :=
  let ordinal := datetime.toordinal d - days in
  if (0 <? ordinal) && (ordinal <=? last_ordinal) then Ok (_ord2ymd ordinal)
  else Raise OverflowError.

(** The arguments of the command line that set the range. *)
Record range_args : Type := {
  units_past : Z;
  all : bool;
  exclude : bool;
  end_year : Z;
  end_month : Z;
  end_day : Z;
  years : Z;
  months : Z;
  weeks : Z
}.

(** How lines 50-77 end: with a range, in the handler of line 57 for an
    end date that is no date, with the error of line 77, or with the
    [OverflowError] of a date before the first one. *)
Inductive range_outcome : Type :=
  | Range (start_date : option datetime.t) (end_date : datetime.t)
  | InvalidEndDate
  | EndPrecedesStart
  | DateOverflow.

Definition main_range (args : range_args) : range_outcome :=
  let units_past := Z.abs (units_past args) in
  match datetime.new (end_year args) (end_month args) (end_day args) with
  | Raise _ => InvalidEndDate
  | Ok end_date =>
      let unit_size := Z.max 1 (years args + months args + weeks args) in
      match
        (if all args || (units_past =? 0) then Ok None
         else start_date ← sub_days end_date (unit_size * units_past - 1);
              Ok (Some start_date))
      with
      | Raise _ => DateOverflow
      | Ok start_date =>
          match
            (match start_date with
             | Some start =>
                 if exclude args then
                   end_date ← sub_days end_date 1;
                   Ok (if datetime.ltb end_date start then Some end_date else Some start,
                       end_date)
                 else Ok (start_date, end_date)
             | None => Ok (start_date, end_date)
             end)
          with
          | Raise _ => DateOverflow
          | Ok (start_date, end_date) =>
              match start_date with
              | Some start =>
                  if datetime.ltb end_date start then EndPrecedesStart
                  else Range start_date end_date
              | None => Range start_date end_date
              end
          end
      end
  end.

(** ** The table of [print_database] *)

(** [len(s)] of a [str]: the number of its characters.  A string is held
    as the bytes of its UTF-8 encoding, in which a character is one byte
    that is no continuation byte (a byte [10xxxxxx]) and the continuation
    bytes that follow it: [len] counts the bytes that start a character. *)
Definition is_continuation (c : ascii) : bool :=
  let 'Ascii _ _ _ _ _ _ b6 b7 := c in b7 && negb b6.

Fixpoint len (s : list ascii) : nat :=
  match s with
  | [] => 0
  | c :: s' => if is_continuation c then len s' else S (len s')
  end.

(** [" " * n] *)
Definition spaces (n : Z) : list ascii := replicate (Z.to_nat n) " "%char.

(** [format] with [{:>6}] and with [{:02}] of an integer. *)
Definition format_right_6 (n : Z) : list ascii :=
  spaces (6 - Z.of_nat (length (str n))) ++ str n.

Definition format_02 (n : Z) : list ascii :=
  if (0 <=? n) && (n <? 10) then "0"%char :: str n else str n.

(** ["{}{} {:>6}h {:02}m {:02}s".format(padding, filetitle, *_seconds_to_hms(raw_seconds))] *)
Definition format_row (padding filetitle : list ascii) (raw_seconds : Z) : list ascii :=
  let '(hours, minutes, seconds) := _seconds_to_hms raw_seconds in
  padding ++ filetitle ++ " "%char :: format_right_6 hours
  ++ chars "h " ++ format_02 minutes ++ chars "m " ++ format_02 seconds ++ chars "s".

Definition range_title (start_date end_date : datetime.t) : string :=
  let start_date_str := datetime.strftime_Y_b_d start_date in
  let end_date_str := text (datetime.pad2 (datetime.day end_date)) in
  let end_date_str :=
    if negb (datetime.month start_date =? datetime.month end_date)
       || negb (datetime.year start_date =? datetime.year end_date)
    then datetime.month_abbr (datetime.month end_date) +:+ " " +:+ end_date_str
    else end_date_str in
  let end_date_str :=
    if negb (datetime.year start_date =? datetime.year end_date)
    then text (str (datetime.year end_date)) +:+ " " +:+ end_date_str
    else end_date_str in
  start_date_str +:+ " to " +:+ end_date_str.

(** [_get_title(start_date, end_date)]; [today] is the date of
    [datetime.today()]. *)
Definition _get_title (today : datetime.t) (start_date end_date : option datetime.t)
    : result string :=
  match start_date with
  | None => Ok "All Time"
  | Some start_date =>
      match end_date with
      | Some end_date =>
          if _equal_dates start_date end_date then
            yesterday ← sub_days today 1;
            if _equal_dates end_date today then Ok "Today"
            else if _equal_dates end_date yesterday then Ok "Yesterday"
            else Ok (datetime.strftime_Y_b_d end_date)
          else Ok (range_title start_date end_date)
      | None => Ok (range_title start_date today)
      end
  end.

(** [max([len(filetitle) for filetitle, _ in database])], and 0 for the
    [ValueError] of an empty [database]. *)
Definition longest_filetitle (database : list (string * Z)) : Z :=
  match database with
  | [] => 0
  | row :: database' =>
      foldl (fun longest row' => Z.max longest (Z.of_nat (len (chars row'.1))))
            (Z.of_nat (len (chars row.1))) database'
  end.

(** [print_database(database, start_date, end_date)] without [tree]: the
    lines it prints. *)
Definition print_database (today : datetime.t) (database : list (string * Z))
    (start_date end_date : option datetime.t) : result (list string) :=
  title ← _get_title today start_date end_date;
  let title := chars title in
  let foottype := chars "SUM" in
  let max_type_len := longest_filetitle database in
  let max_type_len := Z.max max_type_len (Z.of_nat (len foottype)) in
  let max_entry_len := max_type_len + 16 in
  let text_width := Z.max (Z.of_nat (len title)) max_entry_len in
  let padding := spaces ((text_width - Z.of_nat (len title)) / 2) in
  let '(padding, text_width) :=
    if negb (Z.of_nat (len padding) mod 2 =? 0)
    then (padding ++ [" "%char], text_width + 1)
    else (padding, text_width) in
  let max_type_len := max_type_len + (text_width - max_entry_len) / 2 in
  let rows :=
    (fun row : string * Z =>
       format_row (spaces (max_type_len - Z.of_nat (len (chars row.1))))
                  (chars row.1) row.2) <$> database in
  Ok (text <$>
        [padding ++ title; replicate (Z.to_nat text_width) "="%char]
        ++ rows
        ++ [replicate (Z.to_nat text_width) "-"%char;
            format_row (spaces (max_type_len - Z.of_nat (len foottype))) foottype
                       (overall_seconds database);
            []]).

(** ** The tree of [_print_database_as_tree] *)

(** The format ["{}h {:02}m {:02}s "] of [_seconds_to_hms(seconds)]. *)
Definition format_tree_time (seconds : Z) : list ascii :=
  let '(hours, minutes, seconds) := _seconds_to_hms seconds in
  str hours ++ chars "h " ++ format_02 minutes ++ chars "m " ++ format_02 seconds
  ++ chars "s ".

(** ["- " * n] *)
Definition leader_of (n : Z) : list ascii :=
  concat (replicate (Z.to_nat n) (chars "- ")).

(** [_populate_database_tree_entries(database_trie, entries, indent,
    time_width)]: the list [entries] after the call.  A call on a child
    goes one node down the tree, so the height of the tree bounds the
    depth of the calls; [None] is a call still open when [fuel] is spent.
    [sorted] orders the keys by their characters. *)
Fixpoint _populate_database_tree_entries (fuel : nat) (database_trie : TrieNode)
    (entries : list string) (indent time_width : Z) : option (list string) :=
  match fuel with
  | O => None
  | S fuel' =>
      let tab_width := 2 in
      let leader := leader_of (indent / 2) in
      if (size (goto database_trie) =? 0)%nat then Some entries
      else
        fst <$>
        foldl (fun state directory =>
                 '(entries, time_width) ← state;
                 child ← goto database_trie !! directory;
                 let seconds := value child in
                 let time := format_tree_time seconds in
                 let time_width :=
                   if time_width =? 0 then Z.of_nat (length time) else time_width in
                 let entry := spaces (time_width - Z.of_nat (length time)) in
                 let entry := entry ++ time in
                 let entry := entry ++ leader in
                 let entry := entry ++ chars directory in
                 let entry :=
                   if negb (size (goto child) =? 0)%nat && negb (indent =? 0)
                   then entry ++ ["/"%char] else entry in
                 entries ← _populate_database_tree_entries fuel' child
                             (entries ++ [text entry]) (indent + tab_width) time_width;
                 Some (entries, time_width))
              (Some (entries, time_width))
              (merge_sort String.le (map_to_list (goto database_trie)).*1)
  end.

(** No node of the tree is farther from its root than the longest path has
    characters, and one more for the root directory. *)
Definition tree_height (database : list (string * Z)) : nat :=
  S (foldr (fun entry height => Nat.max (length (chars entry.1)) height) 0%nat
           database).

(** [_print_database_as_tree(database, start_date, end_date)]: the lines
    it prints. *)
Definition _print_database_as_tree (today : datetime.t) (database : list (string * Z))
    (start_date end_date : option datetime.t) : option (result (list string)) :=
  path_trie ← build_path_trie database;
  tree_entries ← _populate_database_tree_entries (S (tree_height database)) path_trie
                   [] 0 0;
  Some (title ← _get_title today start_date end_date;
        let tree_entries :=
          match tree_entries with
          | [] => tree_entries ++ ["0h 00m 00s /"]
          | _ => tree_entries
          end in
        Ok ([title; ""] ++ tree_entries ++ [""])).

(** ** A part of [re]

    The patterns made of plain characters, [.], [^], [$], a special
    character after a backslash, groups in parentheses, [|], and [*], [+]
    or [?] after a character, a [.] or a group.  [re] has much more; a
    pattern that uses any of it is outside this part, as is a pattern with
    a character that is not ASCII. *)

Definition special_chars : list ascii := chars ".^$*+?{}[]\|()".

Inductive re_pattern : Type :=
  | Literal (c : ascii)
  | AnyChar
  | Start
  | End
  | Empty
  | Seq (r1 r2 : re_pattern)
  | Or (r1 r2 : re_pattern)
  | Repeat (r : re_pattern).

(** [*], [+] or [?] after what has just been read. *)
Definition repeated (atom : re_pattern) (rest : list ascii) : re_pattern * list ascii :=
  match rest with
  | q :: rest' =>
      if decide (q = "*"%char) then (Repeat atom, rest')
      else if decide (q = "+"%char) then (Seq atom (Repeat atom), rest')
      else if decide (q = "?"%char) then (Or atom Empty, rest')
      else (atom, rest)
  | [] => (atom, rest)
  end.

(** The reading of a pattern.  [parse_alt] reads alternatives up to the
    end or a closing parenthesis, [parse_seq] what stands side by side,
    [parse_atom] one character, escape or group, and tells whether [*],
    [+] or [?] may follow: after [^] and [$] the library has nothing to
    repeat.  A second one of [*], [+], [?] after the first has another
    meaning or none in [re]; here it is read as the start of the next
    atom, which it cannot be.  Every call reads on a shorter text or has
    less fuel; [None] is a pattern outside this part, or one that the
    library refuses. *)
Fixpoint parse_alt (fuel : nat) (s : list ascii) : option (re_pattern * list ascii) :=
  match fuel with
  | O => None
  | S fuel' =>
      '(r1, rest) ← parse_seq fuel' s;
      match rest with
      | c :: rest' =>
          if decide (c = "|"%char) then
            '(r2, rest'') ← parse_alt fuel' rest';
            Some (Or r1 r2, rest'')
          else Some (r1, rest)
      | [] => Some (r1, rest)
      end
  end
with parse_seq (fuel : nat) (s : list ascii) : option (re_pattern * list ascii) :=
  match fuel with
  | O => None
  | S fuel' =>
      match s with
      | [] => Some (Empty, [])
      | c :: s' =>
          if decide (c = "|"%char \/ c = ")"%char) then Some (Empty, s)
          else
            '(atom, rest, repeatable) ← parse_atom fuel' c s';
            let '(atom, rest) := if repeatable : bool then repeated atom rest
                                 else (atom, rest) in
            '(r, rest) ← parse_seq fuel' rest;
            Some (Seq atom r, rest)
      end
  end
with parse_atom (fuel : nat) (c : ascii) (s : list ascii)
    : option (re_pattern * list ascii * bool) :=
  match fuel with
  | O => None
  | S fuel' =>
      if decide (c = "("%char) then
        '(r, rest) ← parse_alt fuel' s;
        match rest with
        | c' :: rest' => if decide (c' = ")"%char) then Some (r, rest', true) else None
        | [] => None
        end
      else if decide (c = "."%char) then Some (AnyChar, s, true)
      else if decide (c = "^"%char) then Some (Start, s, false)
      else if decide (c = "$"%char) then Some (End, s, false)
      else if decide (c = "\"%char) then
        match s with
        | c' :: s' => if decide (c' ∈ special_chars) then Some (Literal c', s', true)
                      else None
        | [] => None
        end
      else if decide (c ∈ special_chars) then None
      else if Ascii.ascii_of_nat 127 <? c then None
      else Some (Literal c, s, true)
  end%char.

Definition parse (regex : list ascii) : option re_pattern :=
  match parse_alt (3 * length regex + 3) regex with
  | Some (r, []) => Some r
  | _ => None
  end.

(** The characters of a string held as the bytes of its UTF-8 encoding:
    every byte that is no continuation byte, with the continuation bytes
    that follow it. *)
Fixpoint characters (s : list ascii) : list (list ascii) :=
  match s with
  | [] => []
  | c :: s' =>
      let rest := characters s' in
      match s', rest with
      | c' :: _, character :: rest' =>
          if is_continuation c' then (c :: character) :: rest' else [c] :: rest
      | _, _ => [c] :: rest
      end
  end.

Definition newline : ascii := Ascii.ascii_of_nat 10.

(** [$] matches at the end of the string and before a newline that ends
    it. *)
Definition at_end (w : list (list ascii)) (i : nat) : Prop :=
  i = length w \/ (S i = length w /\ w !! i = Some [newline]).

#[global] Instance at_end_dec w i : Decision (at_end w i).
Proof. unfold at_end. apply _. Defined.

(** The places where a match of the pattern under [*] that starts at [i]
    may end, after any number of rounds.  A round that ends where it began
    reaches nothing new, so every round that counts moves on, and there
    are no more of them than characters. *)
Fixpoint star_ends (fuel : nat) (step : nat -> list nat) (i : nat) : list nat :=
  i :: match fuel with
       | O => []
       | S fuel' => filter (fun j => (i < j)%nat) (step i) ≫= star_ends fuel' step
       end.

(** The places where a match of [r] on the characters [w] that starts at
    [i] may end: [.] is any character but a newline, [^] the start of the
    string (no flag is given to [re.compile]). *)
Fixpoint ends (w : list (list ascii)) (r : re_pattern) (i : nat) : list nat :=
  match r with
  | Literal c => if decide (w !! i = Some [c]) then [S i] else []
  | AnyChar =>
      match w !! i with
      | Some character => if decide (character = [newline]) then [] else [S i]
      | None => []
      end
  | Start => if decide (i = 0%nat) then [i] else []
  | End => if decide (at_end w i) then [i] else []
  | Empty => [i]
  | Seq r1 r2 => ends w r1 i ≫= ends w r2
  | Or r1 r2 => ends w r1 i ++ ends w r2 i
  | Repeat r => star_ends (length w) (ends w r) i
  end.

(** [p.match(s) is not None]: a match that starts at the first character
    of [s], wherever it ends. *)
Definition re_match (r : re_pattern) (s : string) : bool :=
  match ends (characters (chars s)) r 0 with
  | [] => false
  | _ => true
  end.

(** The engine of this part of [re].  For a pattern outside it [compile]
    has no pattern to give, and gives what the library gives for a pattern
    it refuses; no property speaks of such a pattern. *)
Definition re_part : Re :=
  {| pattern := re_pattern;
     compile := fun regex => match parse (chars regex) with
                             | Some r => Ok r
                             | None => Raise ReError
                             end;
     matches := re_match |}.

(** ** What the properties speak of *)

(** The entries among the lines of a file. *)
Definition entries_of (data : list line) : list (string * Z) :=
  omap (fun l => match l with
                 | Entry path seconds => Some (path, seconds)
                 | Malformed _ => None
                 end) data.

(** The key under which [populate_database_dict] files a path read from
    [database_filename]. *)
Definition key_of (key_type : DatabaseDisplayKey) (database_filename path : string)
    : string :=
  filetitle_of key_type
    (match _parse_date database_filename with Ok date => date | Raise _ => "" end)
    path.

(** The seconds of the records of the scanned files whose key is
    [filetitle], in the order of the scan. *)
Definition seconds_of_file (dir : directory) (key_type : DatabaseDisplayKey)
    (filetitle database_filename : string) : list Z :=
  match contents dir database_filename with
  | None => []
  | Some data =>
      (filter (fun r : string * Z => key_of key_type database_filename r.1 = filetitle)
              (entries_of data)).*2
  end.

Definition seconds_of (dir : directory) (key_type : DatabaseDisplayKey)
    (filetitle : string) (database_filenames : list string) : list Z :=
  database_filenames ≫= seconds_of_file dir key_type filetitle.

Definition sum_Z (l : list Z) : Z := foldr Z.add 0 l.

(** The total of a key that stood at [before] after the records [secs]:
    no record leaves it as it was, also when it was absent. *)
Definition total_after (before : option Z) (secs : list Z) : option Z :=
  match before, secs with
  | None, [] => None
  | _, _ => Some (default 0 before + sum_Z secs)
  end.

(** The scan of a sequence of files into one dictionary, as the loops of
    [main] and [check_database] do it. *)
Definition accumulate (dir : directory) (key_type : DatabaseDisplayKey)
    (database_filenames : list string) (database_dict : gmap string Z)
    : result (gmap string Z) :=
  for_each (fun d database_filename =>
              populate_database_dict dir database_filename d (Some key_type))
           database_filenames database_dict.

(** An engine for the patterns that are plain text: a pattern without any
    of the special characters of [re] compiles to itself and matches the
    strings that start with it.  A pattern with a special character is
    outside this engine, which refuses it. *)

Definition plain_compile (regex : string) : result string :=
  if bool_decide (Forall (fun c => c ∉ special_chars) (chars regex))
  then Ok regex else Raise ReError.

Definition plain_matches (p s : string) : bool :=
  bool_decide (chars p `prefix_of` chars s).

Definition plain_re : Re :=
  {| pattern := string; compile := plain_compile; matches := plain_matches |}.

(** A directory to run the functions on. *)
Definition sample_dir : directory :=
  {| listdir := ["20171029.db"; "full.db"; "20171030.db"];
     contents := fun database_filename =>
       if decide (database_filename = "20171029.db")
       then Some [Entry "/tmp/a" 60; Entry "/tmp/b.py" 5; Entry "/tmp/a" 3]
       else if decide (database_filename = "20171030.db")
       then Some [Entry "/tmp/b.py" 7]
       else if decide (database_filename = "full.db")
       then Some [Entry "/tmp/a" 60; Entry "/tmp/c" 7]
       else None |}.

(** An entry passes through the node reached along [directories] when
    these are the first directories of its path. *)
Definition passes_through (directories : list string) (file_path : string) : bool :=
  match _directories_in_path file_path with
  | Some path_directories => bool_decide (directories `prefix_of` path_directories)
  | None => false
  end.

Definition seconds_through (directories : list string) (database : list (string * Z))
    : list Z :=
  (filter (fun entry : string * Z => passes_through directories entry.1) database).*2.

(** The last component of a path: what follows its last separator, the
    whole path when it has none. *)
Definition is_basename (p base : list ascii) : Prop :=
  (sep ∉ base) /\ (p = base \/ (exists dir, p = dir ++ sep :: base)).

(** The extension of a file name: the name from its last dot on, when a
    character that is not a dot comes before that dot. *)
Definition is_extension (base ext : list ascii) : Prop :=
  exists stem rest,
    base = stem ++ ext /\ ext = extsep :: rest /\ (extsep ∉ rest)
    /\ Exists (fun c => c <> extsep) stem.

(** The file type of a path, as [_parse_filetype] gives it. *)
Inductive filetype_of (p : list ascii) : list ascii -> Prop :=
  | filetype_extension base ext :
      is_basename p base -> is_extension base ext ->
      filetype_of p ("*"%char :: ext)
  | filetype_basename base :
      is_basename p base -> base <> [] -> (forall ext, ~ is_extension base ext) ->
      filetype_of p base
  | filetype_other :
      is_basename p [] -> filetype_of p (chars "OTHER").

(** The file type of a path as the specification words it: the extension
    when there is one, else the whole last component, with a leading
    star (read here as allowed but not required on the last component). *)
Definition filetype_as_specified (p result : list ascii) : Prop :=
  exists base,
    is_basename p base
    /\ ((exists ext, is_extension base ext /\ result = "*"%char :: ext)
        \/ ((forall ext, ~ is_extension base ext)
            /\ (result = base \/ result = "*"%char :: base))).

(** The name of the database of a day. *)
Definition database_filename_of (d : datetime.t) : string :=
  datetime.strftime_Ymd d +:+ ".db".

(** The totals of the records of a file are not negative. *)
Definition nonnegative_file (dir : directory) (database_filename : string) : Prop :=
  match contents dir database_filename with
  | Some data => Forall (fun r : string * Z => 0 <= r.2) (entries_of data)
  | None => True
  end.

(** The absolute path with the components [names]: [/] alone when there
    are none, and else each one after a separator. *)
Definition absolute_path (names : list (list ascii)) : list ascii :=
  match names with
  | [] => [sep]
  | _ => concat ((fun name => sep :: name) <$> names)
  end.

(** A component of a path: not empty and without a separator. *)
Definition is_name (name : list ascii) : Prop := name <> [] /\ (sep ∉ name).

(** A path of the kind TimeTap records: absolute, made of names. *)
Definition is_absolute_path (file_path : string) : Prop :=
  exists names, Forall is_name names /\ file_path = text (absolute_path names).

#[global] Instance datetime_eq_dec : EqDecision datetime.t.
Proof. solve_decision. Defined.

(** The row of a day in the date view: the date and the sum of the
    seconds of the records of the file of that day, when it has records. *)
Definition day_row (dir : directory) (d : datetime.t) : option (string * Z) :=
  match contents dir (database_filename_of d) with
  | Some data =>
      match entries_of data with
      | [] => None
      | entries => Some (datetime.strftime_Y_b_d d, sum_Z entries.*2)
      end
  | None => None
  end.

(** The seconds of all records of the scanned files. *)
Definition all_seconds (dir : directory) (database_filenames : list string) : list Z :=
  database_filenames ≫= fun database_filename =>
    match contents dir database_filename with
    | Some data => (entries_of data).*2
    | None => []
    end.

(** What the month and the day of the [n]-th day of a year must be. *)
Definition ord2md_ok (leapyear : bool) (n : Z) : bool :=
  let '(month, day) := _ord2md n leapyear in
  (1 <=? month) && (month <=? 12) && (1 <=? day)
  && (day <=? datetime._DAYS_IN_MONTH month
              + (if (month =? 2) && leapyear then 1 else 0))
  && (datetime._DAYS_BEFORE_MONTH month
      + (if (month >? 2) && leapyear then 1 else 0) + day =? n + 1).

(** The number of days the arguments ask for. *)
Definition days_asked (args : range_args) : Z :=
  let n := Z.max 1 (years args + months args + weeks args) * Z.abs (units_past args) in
  if exclude args then Z.max 1 (n - 1) else n.

(** The line of the tree view for the node at [path], [depth] nodes below
    the root, with [seconds] and with times [width] columns wide: the
    time, flush right, then one leader for each directory above the node
    and its name, and a slash after the name of a directory that is not
    the root directory. *)
Definition node_line (width : Z) (depth : nat) (path : list string) (seconds : Z)
    (is_directory : bool) (entry : string) : Prop :=
  exists directories directory,
    path = directories ++ [directory]
    /\ chars entry
       = spaces (width - Z.of_nat (length (format_tree_time seconds)))
         ++ format_tree_time seconds
         ++ leader_of (Z.of_nat (depth + length directories))
         ++ chars directory
         ++ (if is_directory && negb (depth + length directories =? 0)%nat
             then ["/"%char] else []).

(** An entry lies below the node reached along [directories] when these
    are the first directories of its path and its path has more. *)
Definition passes_below (directories : list string) (file_path : string) : bool :=
  match _directories_in_path file_path with
  | Some path_directories =>
      bool_decide (directories `prefix_of` path_directories)
      && negb (bool_decide (directories = path_directories))
  | None => false
  end.

(** The node at [path] is a directory when an entry lies below it. *)
Definition is_directory (database : list (string * Z)) (path : list string) : bool :=
  existsb (fun entry : string * Z => passes_below path entry.1) database.

(** A line of the tree view of [database]: the line of a node with the
    time of the entries that pass through it, which fits the column. *)
Definition tree_line (database : list (string * Z)) (width : Z) (entry : string)
    : Prop :=
  exists path,
    node_line width 0 path (sum_Z (seconds_through path database))
              (is_directory database path) entry
    /\ Z.of_nat (length (format_tree_time (sum_Z (seconds_through path database))))
       <= width.

(** The order of the lines of the tree: a directory comes before what is
    in it, and what is in one directory comes by name. *)
Inductive path_lt : list string -> list string -> Prop :=
  | path_lt_above directory path : path_lt [] (directory :: path)
  | path_lt_name directory1 directory2 path1 path2 :
      String.le directory1 directory2 -> directory1 <> directory2 ->
      path_lt (directory1 :: path1) (directory2 :: path2)
  | path_lt_below directory path1 path2 :
      path_lt path1 path2 -> path_lt (directory :: path1) (directory :: path2).

(** What a pattern matches: [span w r i j] when [r] matches the characters
    of [w] from the [i]-th up to the [j]-th, the first being the 0-th. *)
Inductive span (w : list (list ascii)) : re_pattern -> nat -> nat -> Prop :=
  | span_literal c i : w !! i = Some [c] -> span w (Literal c) i (S i)
  | span_any character i :
      w !! i = Some character -> character <> [newline] -> span w AnyChar i (S i)
  | span_start : span w Start 0 0
  | span_end i : at_end w i -> span w End i i
  | span_empty i : span w Empty i i
  | span_seq r1 r2 i j k : span w r1 i j -> span w r2 j k -> span w (Seq r1 r2) i k
  | span_or_l r1 r2 i j : span w r1 i j -> span w (Or r1 r2) i j
  | span_or_r r1 r2 i j : span w r2 i j -> span w (Or r1 r2) i j
  | span_repeat_none r i : span w (Repeat r) i i
  | span_repeat_more r i j k :
      span w r i j -> span w (Repeat r) j k -> span w (Repeat r) i k.

(** The width of a printed line: the number of its characters. *)
Definition text_len (s : string) : Z := Z.of_nat (len (chars s)).

(** * Properties *)

Example parse_filetype_py : _parse_filetype "/home/user/test.py" = "*.py".
Proof. reflexivity. Qed.

Example parse_filetype_crontab : _parse_filetype "/tmp/crontab.t1M3Tp/crontab" = "crontab".
Proof. reflexivity. Qed.

Example parse_filetype_bashrc : _parse_filetype "/home/user/.bashrc" = ".bashrc".
Proof. reflexivity. Qed.

Example parse_filetype_dir : _parse_filetype "/tmp/" = "OTHER".
Proof. reflexivity. Qed.

Example generated_doc_example :
  generated_database_filenames (datetime.mk 2026 11 3)
    (Some (datetime.mk 2017 10 29)) (Some (datetime.mk 2017 11 2))
  = Some (Ok ["20171029.db"; "20171030.db"; "20171031.db"; "20171101.db"; "20171102.db"]).
Proof. vm_compute. reflexivity. Qed.


(** ** Accumulation *)

Lemma for_each_cons {A S : Type} (body : S -> A -> result S) x items s :
  for_each body (x :: items) s = body s x ≫= for_each body items.
Proof. reflexivity. Qed.

Lemma total_after_snoc before secs s :
  total_after (total_after before secs) [s] = total_after before (secs ++ [s]).
Proof.
  unfold total_after, sum_Z.
  rewrite foldr_app. simpl.
  assert (Hsum : forall (l : list Z) a, foldr Z.add a l = foldr Z.add 0 l + a).
  { induction l as [|x l IH]; intros a; simpl; [lia|]. rewrite IH. lia. }
  rewrite (Hsum secs (s + 0)).
  destruct before as [t|], secs as [|x secs]; simpl; f_equal; lia.
Qed.

Lemma total_after_app before secs1 secs2 :
  total_after (total_after before secs1) secs2 = total_after before (secs1 ++ secs2).
Proof.
  revert secs1. induction secs2 as [|s secs2 IH] using rev_ind; intros secs1.
  - rewrite app_nil_r. unfold total_after. destruct before, secs1; simpl; f_equal; lia.
  - rewrite <- total_after_snoc, IH, total_after_snoc, app_assoc. reflexivity.
Qed.

Lemma add_line_lookup key_type file_date d d' path seconds k :
  add_line key_type file_date d (Entry path seconds) = Ok d' ->
  d' !! k =
    if decide (filetitle_of key_type file_date path = k)
    then total_after (d !! k) [seconds] else d !! k.
Proof.
  unfold add_line. intros Hd'.
  destruct (d !! filetitle_of key_type file_date path) as [t|] eqn:Ht;
    injection Hd' as <-; case_decide as Hk; subst;
    rewrite ?lookup_insert_eq, ?lookup_insert_ne by done; try done;
    rewrite Ht; unfold total_after, sum_Z; simpl; f_equal; lia.
Qed.

Lemma for_each_add_line_lookup key_type file_date data d d' k :
  for_each (add_line key_type file_date) data d = Ok d' ->
  d' !! k =
    total_after (d !! k)
      (filter (fun r : string * Z => filetitle_of key_type file_date r.1 = k)
              (entries_of data)).*2.
Proof.
  revert d. induction data as [|l data IH]; intros d; simpl.
  - intros [= <-]. unfold total_after. destruct (d !! k); simpl; f_equal; lia.
  - destruct l as [path seconds|e]; [|discriminate].
    destruct (add_line key_type file_date d (Entry path seconds)) as [d1|e] eqn:H1;
      [|discriminate].
    simpl. intros Hd'. rewrite (IH _ Hd'), (add_line_lookup _ _ _ _ _ _ k H1).
    unfold entries_of. simpl. rewrite filter_cons. simpl.
    case_decide; [|done].
    rewrite fmap_cons. simpl. apply (total_after_app _ [seconds]).
Qed.

Lemma populate_lookup dir database_filename d d' key_type k :
  populate_database_dict dir database_filename d (Some key_type) = Ok d' ->
  d' !! k = total_after (d !! k) (seconds_of_file dir key_type k database_filename).
Proof.
  unfold populate_database_dict, seconds_of_file, key_of. simpl.
  destruct (contents dir database_filename) as [data|].
  - case_decide as Hkey.
    + destruct (_parse_date database_filename) as [date|e]; [|discriminate].
      simpl. apply for_each_add_line_lookup.
    + simpl. intros Hd'. rewrite (for_each_add_line_lookup _ _ _ _ _ k Hd').
      do 3 f_equal. destruct key_type; done.
  - intros [= <-]. unfold total_after. destruct (d !! k); simpl; f_equal; lia.
Qed.

(** C1.  After a scan of any sequence of files under any key type, the
    seconds stored for a key are what stood there before plus the sum of
    the seconds of all records of the scanned files whose path is filed
    under that key (the key is absent when none is and it was absent
    before); and a record for a key that is present adds its seconds to the
    stored total. *)
Theorem accumulate_sums (dir : directory) (key_type : DatabaseDisplayKey)
    (database_filenames : list string) (d d' : gmap string Z) :
  accumulate dir key_type database_filenames d = Ok d' ->
  (forall k, d' !! k = total_after (d !! k) (seconds_of dir key_type k database_filenames))
  /\ (forall file_date dict path seconds t,
        dict !! filetitle_of key_type file_date path = Some t ->
        add_line key_type file_date dict (Entry path seconds)
        = Ok (<[filetitle_of key_type file_date path := t + seconds]> dict)).
Proof.
  intros Hacc. split.
  - intros k. revert d Hacc.
    unfold accumulate, seconds_of.
    induction database_filenames as [|f fs IH]; intros d; simpl.
    + intros [= <-]. unfold total_after. destruct (d !! k); simpl; f_equal; lia.
    + destruct (populate_database_dict dir f d (Some key_type)) as [d1|e] eqn:H1;
        [|discriminate].
      simpl. intros Hd'.
      rewrite (IH _ Hd'), (populate_lookup _ _ _ _ _ k H1).
      apply total_after_app.
  - intros file_date dict path seconds t Ht. unfold add_line. rewrite Ht. reflexivity.
Qed.

Lemma accumulate_sums_witness :
  accumulate sample_dir FILETYPE ["20171029.db"; "20171031.db"; "20171030.db"] ∅
    = Ok (<["a" := 63]> (<["*.py" := 12]> ∅))
  /\ (<["a" := 63]> (<["*.py" := 12]> ∅) : gmap string Z) !! "*.py"
     = total_after None [5; 7].
Proof.
  assert (H : accumulate sample_dir FILETYPE
                ["20171029.db"; "20171031.db"; "20171030.db"] ∅
              = Ok (<["a" := 63]> (<["*.py" := 12]> ∅))) by (vm_compute; reflexivity).
  split; [exact H|].
  exact (proj1 (accumulate_sums _ _ _ _ _ H) "*.py").
Defined.

(** C6.  Scanning a file that cannot be opened changes nothing: under every
    key type and from every dictionary, [populate_database_dict] returns
    without raising and the dictionary is the one it was given. *)
Theorem populate_absent_file (dir : directory) (database_filename : string)
    (database_dict : gmap string Z) (key_type : option DatabaseDisplayKey) :
  contents dir database_filename = None ->
  populate_database_dict dir database_filename database_dict key_type
  = Ok database_dict.
Proof. intros Habsent. unfold populate_database_dict. rewrite Habsent. reflexivity. Qed.

Lemma populate_absent_file_witness :
  contents sample_dir "20171031.db" = None
  /\ populate_database_dict sample_dir "20171031.db" {["*.py" := 12]} (Some DATE)
     = Ok {["*.py" := 12]}.
Proof.
  split; [reflexivity|].
  apply (populate_absent_file sample_dir "20171031.db"). reflexivity.
Defined.

(** ** Filtering *)

Section filtering.
Context `{Re}.

Lemma filetitles_to_delete_filter (p : pattern) (keys acc : list string) :
  foldl (fun to_delete filetitle =>
           if matches p filetitle then to_delete else to_delete ++ [filetitle])
        acc keys
  = acc ++ filter (fun k => ¬ matches p k) keys.
Proof.
  revert acc. induction keys as [|k keys IH]; intros acc; simpl.
  - by rewrite app_nil_r.
  - rewrite IH, filter_cons. destruct (matches p k); simpl; [done|].
    by rewrite <- app_assoc.
Qed.

Lemma for_each_del (l : list string) (d : gmap string Z) :
  NoDup l -> (forall k, k ∈ l -> is_Some (d !! k)) ->
  exists d', for_each del l d = Ok d'
             /\ forall k, d' !! k = if decide (k ∈ l) then None else d !! k.
Proof.
  revert d. induction l as [|x l IH]; intros d Hnodup Hin; simpl.
  - by exists d.
  - apply NoDup_cons in Hnodup as [Hx Hnodup].
    destruct (Hin x) as [t Ht]; [left|].
    replace (del d x) with (Ok (delete x d)) by (unfold del; by rewrite Ht).
    simpl.
    destruct (IH (delete x d) Hnodup) as (d' & Hd' & Hlookup).
    { intros k Hk. rewrite lookup_delete_ne by (intros ->; done). apply Hin. by right. }
    exists d'. split; [done|]. intros k. rewrite Hlookup.
    destruct (decide (k = x)) as [->|Hne].
    + rewrite lookup_delete_eq. repeat case_decide; try done; set_solver.
    + rewrite lookup_delete_ne by done.
      repeat case_decide; try done; set_solver.
Qed.

(** What [filter_database_dict] computes, for a pattern that compiles. *)
Lemma filter_database_dict_filter (d : gmap string Z) (regex : string) (p : pattern) :
  compile regex = Ok p ->
  filter_database_dict d regex
  = Ok (filter (fun kv : string * Z => matches p kv.1) d).
Proof.
  intros Hp. unfold filter_database_dict. rewrite Hp. simpl.
  rewrite filetitles_to_delete_filter. simpl.
  destruct (for_each_del (filter (fun k => ¬ matches p k) (map_to_list d).*1) d)
    as (d' & -> & Hlookup).
  - apply NoDup_filter, NoDup_fst_map_to_list.
  - intros k [_ Hk]%list_elem_of_filter.
    apply list_elem_of_fmap in Hk as ([k' t] & -> & Hk).
    apply elem_of_map_to_list in Hk. by exists t.
  - f_equal. apply map_eq. intros k. rewrite Hlookup, map_lookup_filter.
    destruct (d !! k) as [t|] eqn:Hk; simpl.
    + case_decide as Hdel.
      * apply list_elem_of_filter in Hdel as [Hno _].
        by rewrite option_guard_False.
      * rewrite option_guard_True; [done|]. simpl.
        destruct (matches p k) eqn:Hm; [done|]. exfalso. apply Hdel.
        apply list_elem_of_filter. split; [rewrite Hm; simpl; tauto|].
        apply list_elem_of_fmap. exists (k, t). split; [done|].
        by apply elem_of_map_to_list.
    + by case_decide.
Qed.

(** Whatever the engine, [filter_database_dict] returns for a pattern that
    compiles and keeps the keys, with their seconds, on which [match]
    succeeds. *)
Lemma filter_keeps_matched (d : gmap string Z) (regex : string) (p : pattern) :
  compile regex = Ok p ->
  exists d', filter_database_dict d regex = Ok d'
             /\ forall k t, d' !! k = Some t <-> d !! k = Some t /\ matches p k = true.
Proof.
  intros Hp. eexists. split; [by apply filter_database_dict_filter|].
  intros k t. rewrite map_lookup_filter_Some. simpl.
  split.
  - intros [Ht Hm]. split; [done|]. by destruct (matches p k).
  - intros [Ht Hm]. split; [done|]. by rewrite Hm.
Qed.

(** C7.  Filtering a filtered dictionary again with the same pattern gives
    the filtered dictionary. *)
Theorem filter_idempotent (d d' : gmap string Z) (regex : string) (p : pattern) :
  compile regex = Ok p ->
  filter_database_dict d regex = Ok d' ->
  filter_database_dict d' regex = Ok d'.
Proof.
  intros Hp. rewrite !(filter_database_dict_filter _ _ _ Hp). intros [= <-].
  f_equal. rewrite map_filter_filter. apply map_filter_ext. tauto.
Qed.

(** C10.  The filtered dictionary is the dictionary restricted to the keys
    it keeps: every key of it is a key of the dictionary with the same
    seconds, and nothing else is in it. *)
Theorem filter_restricts (d d' : gmap string Z) (regex : string) (p : pattern) :
  compile regex = Ok p ->
  filter_database_dict d regex = Ok d' ->
  d' ⊆ d
  /\ (forall k t, d' !! k = Some t -> d !! k = Some t)
  /\ d' = filter (fun kv : string * Z => kv.1 ∈ dom d') d.
Proof.
  intros Hp. rewrite (filter_database_dict_filter _ _ _ Hp). intros [= <-].
  split; [apply map_filter_subseteq|]. split.
  - intros k t. rewrite map_lookup_filter_Some. tauto.
  - apply map_eq. intros k. apply option_eq. intros t.
    rewrite !map_lookup_filter_Some. simpl. rewrite elem_of_dom.
    unfold is_Some. setoid_rewrite map_lookup_filter_Some. simpl.
    naive_solver.
Qed.

End filtering.

Lemma filter_idempotent_witness :
  @compile plain_re "/tmp" = Ok "/tmp"
  /\ @filter_database_dict plain_re {["/tmp/a" := 63; "/home/b" := 5]} "/tmp"
     = Ok {["/tmp/a" := 63]}
  /\ @filter_database_dict plain_re {["/tmp/a" := 63]} "/tmp" = Ok {["/tmp/a" := 63]}.
Proof.
  assert (Hp : @compile plain_re "/tmp" = Ok "/tmp") by reflexivity.
  assert (Hd : @filter_database_dict plain_re {["/tmp/a" := 63; "/home/b" := 5]} "/tmp"
               = Ok {["/tmp/a" := 63]}) by (vm_compute; reflexivity).
  split; [exact Hp|]. split; [exact Hd|].
  exact (@filter_idempotent plain_re _ _ _ _ Hp Hd).
Defined.

Lemma filter_restricts_witness :
  @compile plain_re "/tmp" = Ok "/tmp"
  /\ @filter_database_dict plain_re {["/tmp/a" := 63; "/home/b" := 5]} "/tmp"
     = Ok {["/tmp/a" := 63]}
  /\ ({["/tmp/a" := 63]} : gmap string Z) ⊆ {["/tmp/a" := 63; "/home/b" := 5]}.
Proof.
  assert (Hp : @compile plain_re "/tmp" = Ok "/tmp") by reflexivity.
  assert (Hd : @filter_database_dict plain_re {["/tmp/a" := 63; "/home/b" := 5]} "/tmp"
               = Ok {["/tmp/a" := 63]}) by (vm_compute; reflexivity).
  split; [exact Hp|]. split; [exact Hd|].
  exact (proj1 (@filter_restricts plain_re _ _ _ _ Hp Hd)).
Defined.


(** ** What a pattern matches *)

Lemma span_bounds (w : list (list ascii)) (r : re_pattern) (i j : nat) :
  span w r i j -> (i <= j)%nat /\ (j = i \/ (j <= length w)%nat).
Proof.
  induction 1 as [c i Hc|character i Hc _| |i _|i|r1 r2 i j k _ IH1 _ IH2
                 |r1 r2 i j _ IH|r1 r2 i j _ IH|r i|r i j k _ IH1 _ IH2];
    try apply lookup_lt_Some in Hc; lia.
Qed.

Lemma star_ends_sound (w : list (list ascii)) (r : re_pattern) (step : nat -> list nat) :
  (forall i j, j ∈ step i -> span w r i j) ->
  forall fuel i j, j ∈ star_ends fuel step i -> span w (Repeat r) i j.
Proof.
  intros Hstep. induction fuel as [|fuel IH]; intros i j; cbn [star_ends].
  - intros ->%list_elem_of_singleton. constructor.
  - intros [->|Hin]%elem_of_cons; [constructor|].
    apply list_elem_of_bind in Hin as (k & Hj & [_ Hk]%list_elem_of_filter).
    eapply span_repeat_more; [by apply Hstep|by apply IH].
Qed.

Lemma star_ends_complete (w : list (list ascii)) (r : re_pattern) (step : nat -> list nat) :
  (forall i j, span w r i j -> j ∈ step i) ->
  forall i j, span w (Repeat r) i j ->
  forall fuel, (length w - i <= fuel)%nat -> j ∈ star_ends fuel step i.
Proof.
  intros Hstep i j Hspan. remember (Repeat r) as repeat eqn:Hrepeat.
  induction Hspan as [| | | | | | | |r' i|r' i j k Hround _ _ IH]; try discriminate.
  - intros fuel _. destruct fuel; left.
  - injection Hrepeat as ->. intros fuel Hfuel.
    destruct (span_bounds _ _ _ _ Hround) as [Hle [->|Hin]]; [by apply IH|].
    destruct (decide (j = i)) as [->|Hne]; [by apply IH|].
    destruct fuel as [|fuel]; [lia|]. cbn [star_ends]. right.
    apply list_elem_of_bind. exists j. split; [apply IH; [done|lia]|].
    apply list_elem_of_filter. split; [lia|by apply Hstep].
Qed.

(** The places that [ends] finds are those where a match ends. *)
Lemma ends_span (w : list (list ascii)) (r : re_pattern) :
  forall i j, j ∈ ends w r i <-> span w r i j.
Proof.
  induction r as [c| | | | |r1 IH1 r2 IH2|r1 IH1 r2 IH2|r IH]; intros i j; cbn [ends].
  - case_decide as Hc.
    + rewrite list_elem_of_singleton. split; [intros ->; by constructor|by inversion 1].
    + split; [by intros ?%elem_of_nil|]. inversion 1. by subst.
  - destruct (w !! i) as [character|] eqn:Hc; [case_decide as Hnl|].
    + split; [by intros ?%elem_of_nil|]. inversion 1. congruence.
    + rewrite list_elem_of_singleton. split; [intros ->; by econstructor|by inversion 1].
    + split; [by intros ?%elem_of_nil|]. inversion 1. congruence.
  - case_decide as Hi.
    + rewrite list_elem_of_singleton. split; [intros ->; subst; constructor|by inversion 1].
    + split; [by intros ?%elem_of_nil|]. by inversion 1.
  - case_decide as Hi.
    + rewrite list_elem_of_singleton. split; [intros ->; by constructor|by inversion 1].
    + split; [by intros ?%elem_of_nil|]. inversion 1. by subst.
  - rewrite list_elem_of_singleton. split; [intros ->; constructor|by inversion 1].
  - rewrite list_elem_of_bind. split.
    + intros (k & Hj & Hk). apply IH1 in Hk. apply IH2 in Hj. by econstructor.
    + inversion 1 as [| | | | |? ? ? k ? H1 H2| | | |]; subst.
      exists k. split; [by apply IH2|by apply IH1].
  - rewrite elem_of_app, IH1, IH2. split.
    + intros [?|?]; [by apply span_or_l|by apply span_or_r].
    + inversion 1; subst; auto.
  - split.
    + apply star_ends_sound. intros i' j'. apply IH.
    + intros Hspan. eapply star_ends_complete; [|exact Hspan|lia].
      intros i' j'. apply IH.
Qed.

(** [match] succeeds when the pattern matches the key from its first
    character up to some place in it. *)
Lemma re_match_span (r : re_pattern) (s : string) :
  re_match r s = true <-> exists j, span (characters (chars s)) r 0 j.
Proof.
  unfold re_match. setoid_rewrite <- ends_span.
  destruct (ends (characters (chars s)) r 0) as [|j js].
  - split; [done|]. by intros [j ?%elem_of_nil].
  - split; [|done]. intros _. exists j. left.
Qed.

(** C5.  Whatever the engine, for a pattern that compiles
    [filter_database_dict] returns, and keeps a key of the dictionary, with
    its seconds, exactly when [match] succeeds on the key; it removes every
    other key.  For a pattern of the part of [re] that is modelled, [match]
    succeeds exactly when the pattern matches the characters of the key
    from the first one up to some place in the key, which need not be its
    end: those are the keys that are kept. *)
Theorem filter_keeps_matching_keys (d : gmap string Z) (regex : string) :
  (forall (engine : Re) (p : @pattern engine),
     @compile engine regex = Ok p ->
     exists d',
       @filter_database_dict engine d regex = Ok d'
       /\ forall k t,
            d' !! k = Some t <-> d !! k = Some t /\ @matches engine p k = true)
  /\ (forall r : re_pattern,
        parse (chars regex) = Some r ->
        exists d',
          @filter_database_dict re_part d regex = Ok d'
          /\ forall k t,
               d' !! k = Some t
               <-> d !! k = Some t /\ exists j, span (characters (chars k)) r 0 j).
Proof.
  split.
  - intros engine p Hcompile. by apply filter_keeps_matched.
  - intros r Hparse.
    assert (Hcompile : @compile re_part regex = Ok r) by (cbn; by rewrite Hparse).
    destruct (@filter_keeps_matched re_part d regex r Hcompile) as (d' & Hfilter & Hkeys).
    exists d'. split; [exact Hfilter|]. intros k t.
    rewrite <- re_match_span. apply Hkeys.
Qed.

Lemma filter_keeps_matching_keys_witness :
  exists r d',
    parse (chars "/tmp") = Some r
    /\ @filter_database_dict re_part
         {["/tmp/a" := 63; "/home/tmp" := 5; "/tm" := 1; "/tmp" := 2]} "/tmp" = Ok d'
    /\ d' = {["/tmp/a" := 63; "/tmp" := 2]}
    /\ forall k t,
         d' !! k = Some t
         <-> ({["/tmp/a" := 63; "/home/tmp" := 5; "/tm" := 1; "/tmp" := 2]}
                : gmap string Z) !! k = Some t
             /\ exists j, span (characters (chars k)) r 0 j.
Proof.
  assert (Hparse : exists r, parse (chars "/tmp") = Some r)
    by (eexists; vm_compute; reflexivity).
  destruct Hparse as [r Hparse].
  destruct (proj2 (filter_keeps_matching_keys
                     {["/tmp/a" := 63; "/home/tmp" := 5; "/tm" := 1; "/tmp" := 2]} "/tmp")
                  r Hparse)
    as (d' & Hfilter & Hkeys).
  exists r, d'. split; [exact Hparse|]. split; [exact Hfilter|]. split; [|exact Hkeys].
  assert (Hcomputed :
    @filter_database_dict re_part
      {["/tmp/a" := 63; "/home/tmp" := 5; "/tm" := 1; "/tmp" := 2]} "/tmp"
    = Ok {["/tmp/a" := 63; "/tmp" := 2]}) by (vm_compute; reflexivity).
  rewrite Hcomputed in Hfilter. by injection Hfilter.
Defined.

(** Patterns and keys on which [re] gives these answers. *)
Lemma re_match_examples :
  (fun '(regex, key) => (fun r => re_match r key) <$> parse (chars regex))
  <$> [("/tmp", "/tmp/a"); ("/tmp", "/home/tmp"); ("/tmp", "/tm");
       ("/tmp$", "/tmp/a"); ("/tmp$", "/tmp"); (".*\.py$", "/x/y.py");
       (".*\.py$", "/x/y.pyc"); (".*\.py", "/x/y.pyc"); ("^.$", "é");
       ("..", "é"); ("(a|b)*c", "ababc"); ("(a*)*b", "aaa"); ("a+b", "b");
       ("a?b", "b"); ("x*^a", "xa"); ("", "x"); ("a**", "a"); ("a*?", "a");
       ("[ab]", "a"); ("(a", "a")]
  = [Some true; Some false; Some false;
     Some false; Some true; Some true;
     Some false; Some true; Some true;
     Some false; Some true; Some false; Some false;
     Some true; Some false; Some true; None; None;
     None; None].
Proof. vm_compute. reflexivity. Qed.

(** ** Dates in file names *)

Lemma chars_app (a b : string) : chars (a +:+ b) = chars a ++ chars b.
Proof. induction a as [|c a IH]; simpl; [done|]. by rewrite IH. Qed.

Lemma chars_text (l : list ascii) : chars (text l) = l.
Proof. apply String.list_ascii_of_string_of_list_ascii. Qed.

Lemma is_nat_digit (n : Z) :
  Ascii.is_nat (datetime.digit n) = Some (Z.to_nat (n mod 10)).
Proof.
  unfold datetime.digit.
  assert (Hn : n mod 10 = 0 \/ n mod 10 = 1 \/ n mod 10 = 2 \/ n mod 10 = 3
               \/ n mod 10 = 4 \/ n mod 10 = 5 \/ n mod 10 = 6 \/ n mod 10 = 7
               \/ n mod 10 = 8 \/ n mod 10 = 9)
    by (pose proof (Z.mod_pos_bound n 10); lia).
  repeat destruct Hn as [Hn|Hn]; rewrite Hn; reflexivity.
Qed.

Lemma int_pad2 (n : Z) : 0 <= n < 100 -> int (datetime.pad2 n) = Ok n.
Proof.
  intros Hn. unfold int, datetime.pad2, int_digits.
  rewrite !is_nat_digit. f_equal.
  rewrite !Z2Nat.id by (apply Z.mod_pos_bound; lia).
  Z.div_mod_to_equations. lia.
Qed.

Lemma int_pad4 (n : Z) : 0 <= n < 10000 -> int (datetime.pad4 n) = Ok n.
Proof.
  intros Hn. unfold int, datetime.pad4, int_digits.
  rewrite !is_nat_digit. f_equal.
  rewrite !Z2Nat.id by (apply Z.mod_pos_bound; lia).
  Z.div_mod_to_equations. lia.
Qed.

Lemma valid_bounds (d : datetime.t) :
  datetime.valid d = true ->
  1 <= datetime.year d <= 9999 /\ 1 <= datetime.month d <= 12
  /\ 1 <= datetime.day d <= datetime._days_in_month (datetime.year d) (datetime.month d)
  /\ datetime._days_in_month (datetime.year d) (datetime.month d) <= 31.
Proof.
  unfold datetime.valid, datetime.MINYEAR, datetime.MAXYEAR. intros Hv.
  repeat (apply andb_true_iff in Hv as [Hv ?]).
  assert (Hm : 1 <= datetime.month d <= 12) by lia.
  repeat split; try lia.
  unfold datetime._days_in_month.
  destruct (_ && _); [lia|].
  assert (Hcases : datetime.month d = 1 \/ datetime.month d = 2 \/ datetime.month d = 3
            \/ datetime.month d = 4 \/ datetime.month d = 5 \/ datetime.month d = 6
            \/ datetime.month d = 7 \/ datetime.month d = 8 \/ datetime.month d = 9
            \/ datetime.month d = 10 \/ datetime.month d = 11 \/ datetime.month d = 12)
    by lia.
  repeat destruct Hcases as [Hcases|Hcases]; rewrite Hcases; simpl; lia.
Qed.

(** The digits of a year, by the number of them. *)
Lemma str_year (y : Z) :
  0 <= y < 10000 ->
  str y = if y <? 10 then [datetime.digit y]
          else if y <? 100 then [datetime.digit (y / 10); datetime.digit y]
          else if y <? 1000
               then [datetime.digit (y / 100); datetime.digit (y / 10); datetime.digit y]
          else datetime.pad4 y.
Proof.
  intros Hy. unfold datetime.str.
  replace (y <? 0) with false by (symmetry; apply Z.ltb_ge; lia).
  destruct (y <? 10) eqn:H10; [cbn [datetime.digits_loop]; by rewrite H10|].
  apply Z.ltb_ge in H10.
  destruct (Z.to_nat y) as [|fuel1] eqn:Hfuel1; [lia|].
  cbn [datetime.digits_loop].
  replace (y <? 10) with false by (symmetry; apply Z.ltb_ge; lia).
  destruct (y <? 100) eqn:H100.
  { apply Z.ltb_lt in H100.
    replace (y / 10 <? 10) with true
      by (symmetry; apply Z.ltb_lt, Z.div_lt_upper_bound; lia).
    reflexivity. }
  apply Z.ltb_ge in H100.
  replace (y / 10 <? 10) with false
    by (symmetry; apply Z.ltb_ge, Z.div_le_lower_bound; lia).
  destruct fuel1 as [|fuel2]; [lia|]. cbn [datetime.digits_loop].
  rewrite Z.div_div by lia. change (10 * 10) with 100.
  destruct (y <? 1000) eqn:H1000.
  { apply Z.ltb_lt in H1000.
    replace (y / 100 <? 10) with true
      by (symmetry; apply Z.ltb_lt, Z.div_lt_upper_bound; lia).
    reflexivity. }
  apply Z.ltb_ge in H1000.
  replace (y / 100 <? 10) with false
    by (symmetry; apply Z.ltb_ge, Z.div_le_lower_bound; lia).
  destruct fuel2 as [|fuel3]; [lia|]. cbn [datetime.digits_loop].
  rewrite Z.div_div by lia. change (100 * 10) with 1000.
  replace (y / 1000 <? 10) with true
    by (symmetry; apply Z.ltb_lt, Z.div_lt_upper_bound; lia).
  reflexivity.
Qed.

(** The name generated for a day from the year 1000 on is read back as
    that day. *)
Lemma parse_date_generated (d : datetime.t) :
  datetime.valid d = true -> 1000 <= datetime.year d ->
  _parse_date (datetime.strftime_Ymd d +:+ ".db") = Ok (datetime.strftime_Y_b_d d).
Proof.
  intros Hv Hyear. pose proof (valid_bounds d Hv) as (Hy & Hm & Hd & Hdim).
  unfold _parse_date, datetime.strftime_Ymd.
  rewrite chars_app, chars_text, str_year by lia.
  replace (datetime.year d <? 10) with false by (symmetry; apply Z.ltb_ge; lia).
  replace (datetime.year d <? 100) with false by (symmetry; apply Z.ltb_ge; lia).
  replace (datetime.year d <? 1000) with false by (symmetry; apply Z.ltb_ge; lia).
  change (take 4 _) with (datetime.pad4 (datetime.year d)).
  change (take 2 (drop 4 _)) with (datetime.pad2 (datetime.month d)).
  change (take 2 (drop 6 _)) with (datetime.pad2 (datetime.day d)).
  rewrite int_pad4, !int_pad2 by lia. simpl.
  unfold datetime.new. destruct d as [y m dd]; simpl in *. by rewrite Hv.
Qed.

Lemma int_before_dot (c : ascii) : int [c; "."%char] = Raise ValueError.
Proof. unfold int, int_digits. by destruct (Ascii.is_nat c). Qed.

Lemma int_dot_first (c : ascii) : int ["."%char; c] = Raise ValueError.
Proof. reflexivity. Qed.

(** The name generated for a day before the year 1000 has fewer than
    eight digits, so that the extension is read for the day, or for the
    month and the day: [int] raises [ValueError], the name is not
    [full.db], and the assertion fails. *)
Lemma parse_date_short_year (d : datetime.t) :
  datetime.valid d = true -> datetime.year d < 1000 ->
  _parse_date (datetime.strftime_Ymd d +:+ ".db") = Raise AssertionError.
Proof.
  intros Hv Hyear. pose proof (valid_bounds d Hv) as (Hy & Hm & Hd & Hdim).
  assert (Hname : datetime.strftime_Ymd d +:+ ".db" <> "full.db").
  { unfold datetime.strftime_Ymd. intros Heq%(f_equal chars).
    rewrite chars_app, chars_text, str_year in Heq by lia.
    apply (f_equal length) in Heq.
    repeat case_match; cbn in Heq; lia. }
  unfold _parse_date. rewrite decide_False by exact Hname.
  unfold datetime.strftime_Ymd.
  rewrite chars_app, chars_text, str_year by lia.
  unfold datetime.pad2.
  destruct (datetime.year d <? 10) eqn:H10; [|destruct (datetime.year d <? 100) eqn:H100];
    [| |replace (datetime.year d <? 1000) with true by (symmetry; apply Z.ltb_lt; lia)];
    cbn [app take drop chars]; rewrite ?int_before_dot, ?int_dot_first;
    repeat (destruct (int _) as [?|?]; cbn [mbind result_bind]); reflexivity.
Qed.

(** ** The rows of the date view *)

Lemma add_line_keeps_key key_type file_date d d' l k :
  add_line key_type file_date d l = Ok d' -> is_Some (d !! k) -> is_Some (d' !! k).
Proof.
  destruct l as [path seconds|e]; [|discriminate].
  intros Hd' Hk. rewrite (add_line_lookup _ _ _ _ _ _ k Hd').
  case_decide; [|done]. destruct Hk as [t ->]. by eexists.
Qed.

Lemma for_each_add_line_keeps_key key_type file_date data d d' k :
  for_each (add_line key_type file_date) data d = Ok d' ->
  is_Some (d !! k) -> is_Some (d' !! k).
Proof.
  revert d. induction data as [|l data IH]; intros d; simpl.
  - by intros [= <-].
  - destruct (add_line key_type file_date d l) as [d1|e] eqn:H1; [|discriminate].
    simpl. intros Hd' Hk. apply (IH d1 Hd'). by eapply add_line_keeps_key.
Qed.

Lemma populate_date_key dir database_filename d d' date :
  populate_database_dict dir database_filename d (Some DATE) = Ok d' ->
  _parse_date database_filename = Ok date ->
  d' !! date = None -> d' = d.
Proof.
  unfold populate_database_dict. simpl.
  destruct (contents dir database_filename) as [data|]; [|by intros [= <-]].
  intros Hd' Hdate. rewrite Hdate in Hd'. simpl in Hd'.
  destruct data as [|l data]; [by injection Hd' as <-|].
  simpl in Hd'.
  destruct (add_line DATE date d l) as [d1|e] eqn:H1; [|discriminate].
  simpl in Hd'. intros Hnone.
  assert (Hsome : is_Some (d' !! date)).
  { apply (for_each_add_line_keeps_key _ _ _ _ _ _ Hd').
    destruct l as [path seconds|e]; [|discriminate].
    rewrite (add_line_lookup _ _ _ _ _ _ date H1). simpl.
    rewrite decide_True by done. unfold total_after. by destruct (d !! date). }
  rewrite Hnone in Hsome. by destruct Hsome.
Qed.

(** C9.  In the date view, a day of the range whose date is not a key of
    the dictionary once its file has been scanned is passed over: the turn
    of the loop raises nothing, adds no row and leaves the dictionary as it
    was, so the turns for the other days go on from the same rows and
    totals as if the day had not been in the range.  The day is of the
    year 1000 or a later one: the name of an earlier day has no date key,
    [_parse_date] fails its assertion on it before any key is looked
    up. *)
Theorem missing_date_key_skipped (dir : directory) (day : datetime.t)
    (time_per_type time_per_type' : gmap string Z) (database : list (string * Z)) :
  datetime.valid day = true ->
  1000 <= datetime.year day ->
  populate_database_dict dir (datetime.strftime_Ymd day +:+ ".db") time_per_type (Some DATE)
  = Ok time_per_type' ->
  time_per_type' !! datetime.strftime_Y_b_d day = None ->
  main_step dir DATE (time_per_type, database) (datetime.strftime_Ymd day +:+ ".db")
  = Ok (time_per_type, database)
  /\ forall later_days,
       for_each (main_step dir DATE) ((datetime.strftime_Ymd day +:+ ".db") :: later_days)
                (time_per_type, database)
       = for_each (main_step dir DATE) later_days (time_per_type, database).
Proof.
  intros Hv Hyear Hpop Hnone.
  pose proof (parse_date_generated day Hv Hyear) as Hdate.
  assert (Hstep : main_step dir DATE (time_per_type, database)
                    (datetime.strftime_Ymd day +:+ ".db")
                  = Ok (time_per_type, database)).
  { unfold main_step. rewrite Hpop. simpl. rewrite Hdate. simpl. rewrite Hnone.
    by rewrite (populate_date_key _ _ _ _ _ Hpop Hdate Hnone). }
  split; [exact Hstep|].
  intros later_days. by rewrite for_each_cons, Hstep.
Qed.

Lemma missing_date_key_skipped_witness :
  main_step sample_dir DATE ({["2017 Oct 29" := 68]}, [("2017 Oct 29", 68)])
            (datetime.strftime_Ymd (datetime.mk 2017 10 31) +:+ ".db")
  = Ok ({["2017 Oct 29" := 68]}, [("2017 Oct 29", 68)]).
Proof.
  apply (missing_date_key_skipped sample_dir (datetime.mk 2017 10 31)
           {["2017 Oct 29" := 68]} {["2017 Oct 29" := 68]});
    [reflexivity|cbn; lia|vm_compute; reflexivity..].
Defined.

(** ** The path tree *)

Lemma rstrip_length c p : (length (Str.rstrip c p) <= length p)%nat.
Proof.
  induction p as [|x p IH]; simpl; [lia|].
  destruct (Str.rstrip c p); [case_decide|]; simpl in *; lia.
Qed.

Lemma split_length p head tail :
  posixpath.split p = (head, tail) -> (length head + length tail <= length p)%nat.
Proof.
  unfold posixpath.split, Str.upto, Str.from. intros [= <- <-].
  set (i := Z.to_nat (Str.rfind sep p + 1)).
  assert (length (take i p) + length (drop i p) <= length p)%nat
    by (rewrite length_take, length_drop; lia).
  pose proof (rstrip_length sep (take i p)).
  case_bool_decide; lia.
Qed.

Lemma directories_loop_total fuel head tail directories :
  (length head + length tail <= fuel)%nat ->
  is_Some (directories_loop fuel head tail directories).
Proof.
  revert head tail directories.
  induction fuel as [|fuel IH]; intros head tail directories Hlen;
    destruct tail as [|c tail]; cbn [directories_loop length] in *;
    try done; try lia.
  destruct (posixpath.split head) as [head' tail'] eqn:Hsplit.
  apply IH. apply split_length in Hsplit. lia.
Qed.

(** The loop of [_directories_in_path] ends: every path has directories. *)
Lemma directories_in_path_total path : is_Some (_directories_in_path path).
Proof.
  unfold _directories_in_path.
  destruct (posixpath.split (chars path)) as [head tail] eqn:Hsplit.
  destruct (directories_loop_total (length (chars path)) head tail [])
    as [[directories head'] ->]; [by apply split_length|].
  by eexists.
Qed.

Lemma walk_node_value raw_seconds directories : forall node prefix,
  value <$> node_at (walk directories raw_seconds node) prefix
  = match prefix with
    | [] => Some (value node)
    | _ => if bool_decide (prefix `prefix_of` directories)
           then Some (default 0 (value <$> node_at node prefix) + raw_seconds)
           else value <$> node_at node prefix
    end.
Proof.
  induction directories as [|directory rest IH]; intros node [|x prefix].
  - reflexivity.
  - rewrite bool_decide_eq_false_2 by apply prefix_nil_not. reflexivity.
  - reflexivity.
  - cbn [walk node_at goto].
    destruct (decide (x = directory)) as [->|Hne].
    + rewrite lookup_insert_eq. cbn [mbind option_bind]. rewrite IH.
      destruct prefix as [|y prefix].
      * rewrite bool_decide_eq_true_2 by (apply prefix_cons, prefix_nil).
        destruct (goto node !! directory); simpl; f_equal; lia.
      * rewrite (bool_decide_ext (directory :: y :: prefix `prefix_of` directory :: rest)
                   (y :: prefix `prefix_of` rest))
          by (split; [apply prefix_cons_inv_2|apply prefix_cons]).
        destruct (goto node !! directory) as [child|]; simpl; [done|].
        rewrite lookup_empty. simpl. by case_bool_decide.
    + rewrite lookup_insert_ne by done.
      rewrite bool_decide_eq_false_2; [done|].
      by intros ?%prefix_cons_inv_1.
Qed.

(** What one turn of the outer loop does to the value of every node. *)
Lemma insert_entry_value path_trie file_path raw_seconds :
  exists path_trie',
    insert_entry path_trie (file_path, raw_seconds) = Some path_trie'
    /\ forall directories,
         value <$> node_at path_trie' directories
         = if passes_through directories file_path
           then Some (default 0 (value <$> node_at path_trie directories) + raw_seconds)
           else value <$> node_at path_trie directories.
Proof.
  unfold insert_entry, passes_through.
  destruct (directories_in_path_total file_path) as [path_directories ->]. simpl.
  eexists. split; [done|]. intros directories.
  rewrite walk_node_value. destruct directories as [|x directories].
  - by rewrite bool_decide_eq_true_2 by apply prefix_nil.
  - done.
Qed.

Lemma insert_entries_value database : forall path_trie,
  exists path_trie',
    insert_entries path_trie database = Some path_trie'
    /\ forall directories,
         value <$> node_at path_trie' directories
         = total_after (value <$> node_at path_trie directories)
                       (seconds_through directories database).
Proof.
  induction database as [|[file_path raw_seconds] database IH]; intros path_trie.
  - exists path_trie. split; [done|]. intros directories.
    unfold total_after, seconds_through. simpl.
    destruct (value <$> _); simpl; f_equal; lia.
  - destruct (insert_entry_value path_trie file_path raw_seconds) as (t1 & Ht1 & Hv1).
    destruct (IH t1) as (t2 & Ht2 & Hv2).
    exists t2. split; [simpl in *; by rewrite Ht1|].
    intros directories. rewrite Hv2, Hv1.
    unfold seconds_through.
    destruct (passes_through directories file_path) eqn:Hpass.
    + rewrite filter_cons_True by (simpl; by rewrite Hpass).
      rewrite fmap_cons. generalize (filter (fun entry : string * Z =>
        passes_through directories entry.1) database).*2. intros secs.
      unfold total_after, sum_Z.
      destruct (value <$> _), secs; simpl; f_equal; lia.
    + rewrite filter_cons_False by (simpl; rewrite Hpass; tauto). done.
Qed.

Lemma seconds_through_root database : seconds_through [] database = database.*2.
Proof.
  unfold seconds_through. f_equal.
  induction database as [|[file_path raw_seconds] database IH]; [done|].
  rewrite filter_cons, IH. simpl. unfold passes_through.
  destruct (directories_in_path_total file_path) as [path_directories ->].
  by rewrite bool_decide_eq_true_2 by apply prefix_nil.
Qed.

(** C2.  The tree is built for every list of entries.  Each insertion adds
    the seconds of its entry to every node along the directories of its
    path, the root included, and to no other node; so in the finished tree
    the value of every node is the sum of the seconds of the entries that
    pass through it (a node exists exactly where some entry passes), and
    the value of the root is the sum of the seconds of all entries. *)
Theorem path_trie_values (database : list (string * Z)) :
  exists path_trie,
    build_path_trie database = Some path_trie
    /\ value path_trie = sum_Z database.*2
    /\ (forall directories,
          value <$> node_at path_trie directories
          = total_after (match directories with [] => Some 0 | _ => None end)
                        (seconds_through directories database))
    /\ (forall node file_path raw_seconds,
          exists node',
            insert_entry node (file_path, raw_seconds) = Some node'
            /\ forall directories,
                 value <$> node_at node' directories
                 = if passes_through directories file_path
                   then Some (default 0 (value <$> node_at node directories) + raw_seconds)
                   else value <$> node_at node directories).
Proof.
  destruct (insert_entries_value database (mkTrieNode 0 ∅)) as (path_trie & Hbuild & Hvalue).
  exists path_trie. split; [exact Hbuild|]. split; [|split].
  - specialize (Hvalue []). rewrite seconds_through_root in Hvalue.
    simpl in Hvalue. unfold total_after in Hvalue. simpl in Hvalue.
    destruct (database.*2); injection Hvalue as ->; simpl; lia.
  - intros directories. rewrite Hvalue. f_equal.
    destruct directories; simpl; [done|]. by rewrite lookup_empty.
  - intros node file_path raw_seconds. apply insert_entry_value.
Qed.

(** ** The consistency check *)

#[local] Instance by_filename_total : Total by_filename.
Proof. intros x y. apply String.le_total. Qed.

#[local] Instance by_filename_trans : Transitive by_filename.
Proof. intros x y z. unfold by_filename. apply (transitivity (R := String.le)). Qed.

Lemma join_by_date_fold (l : list (string * Z)) : forall s,
  by_date_time_per_file (foldl join_by_date s l) = by_date_time_per_file s
  /\ full_time_per_file (foldl join_by_date s l) = full_time_per_file s
  /\ total_seconds_difference (foldl join_by_date s l) = total_seconds_difference s
  /\ printed (foldl join_by_date s l) = printed s
  /\ (NoDup l.*1 ->
      forall k, joined_per_file (foldl join_by_date s l) !! k
                = match (list_to_map l : gmap string Z) !! k with
                  | Some time => Some (time, 0)
                  | None => joined_per_file s !! k
                  end).
Proof.
  induction l as [|[filename time] l IH]; intros s; [done|].
  destruct (IH (join_by_date s (filename, time))) as (H1 & H2 & H3 & H4 & H5).
  cbn [foldl]. rewrite H1, H2, H3, H4. repeat split; try done.
  intros [Hfresh Hnodup]%NoDup_cons k. rewrite (H5 Hnodup). cbn.
  destruct (decide (k = filename)) as [->|Hne].
  - rewrite (proj1 (not_elem_of_list_to_map _ _) Hfresh).
    by rewrite !lookup_insert_eq.
  - by rewrite !lookup_insert_ne.
Qed.

Lemma join_full_fold (l : list (string * Z)) : forall s,
  by_date_time_per_file (foldl join_full s l) = by_date_time_per_file s
  /\ full_time_per_file (foldl join_full s l) = full_time_per_file s
  /\ total_seconds_difference (foldl join_full s l) = total_seconds_difference s
  /\ printed (foldl join_full s l) = printed s
  /\ (NoDup l.*1 ->
      forall k, joined_per_file (foldl join_full s l) !! k
                = match (list_to_map l : gmap string Z) !! k with
                  | Some time => Some (default 0 (fst <$> joined_per_file s !! k), time)
                  | None => joined_per_file s !! k
                  end).
Proof.
  induction l as [|[filename time] l IH]; intros s; [done|].
  destruct (IH (join_full s (filename, time))) as (H1 & H2 & H3 & H4 & H5).
  cbn [foldl]. rewrite H1, H2, H3, H4. repeat split; try done.
  intros [Hfresh Hnodup]%NoDup_cons k. rewrite (H5 Hnodup). cbn.
  destruct (decide (k = filename)) as [->|Hne].
  - rewrite (proj1 (not_elem_of_list_to_map _ _) Hfresh).
    rewrite lookup_insert_eq.
    destruct (joined_per_file s !! filename) as [[a b]|]; by rewrite lookup_insert_eq.
  - rewrite (lookup_insert_ne (list_to_map l)) by done.
    destruct (joined_per_file s !! filename) as [[a b]|]; by rewrite lookup_insert_ne.
Qed.

Lemma print_entry_fold (l : list (string * (Z * Z))) : forall s,
  by_date_time_per_file (foldl print_entry s l) = by_date_time_per_file s
  /\ full_time_per_file (foldl print_entry s l) = full_time_per_file s
  /\ joined_per_file (foldl print_entry s l) = joined_per_file s
  /\ total_seconds_difference (foldl print_entry s l)
     = total_seconds_difference s
       + sum_Z ((fun x : string * (Z * Z) => Z.abs (x.2.2 - x.2.1)) <$> l)
  /\ printed (foldl print_entry s l) = printed s ++ l.
Proof.
  induction l as [|[filename times] l IH]; intros s.
  - cbn. rewrite app_nil_r. repeat split; try done. lia.
  - destruct (IH (print_entry s (filename, times))) as (H1 & H2 & H3 & H4 & H5).
    cbn [foldl]. rewrite H1, H2, H3, H4, H5. cbn. rewrite <- app_assoc.
    repeat split; try done. unfold sum_Z. lia.
Qed.

(** The joined dictionary of lines 166-177. *)
Lemma joined_lookup (by_date full : gmap string Z) (k : string) :
  joined_per_file
    (foldl join_full
       (foldl join_by_date
          {| by_date_time_per_file := by_date; full_time_per_file := full;
             joined_per_file := ∅; total_seconds_difference := 0; printed := [] |}
          (map_to_list by_date))
       (map_to_list full)) !! k
  = match by_date !! k, full !! k with
    | None, None => None
    | a, b => Some (default 0 a, default 0 b)
    end.
Proof.
  destruct (join_full_fold (map_to_list full)
              (foldl join_by_date
                 {| by_date_time_per_file := by_date; full_time_per_file := full;
                    joined_per_file := ∅; total_seconds_difference := 0; printed := [] |}
                 (map_to_list by_date))) as (_ & _ & _ & _ & ->);
    [|apply NoDup_fst_map_to_list].
  destruct (join_by_date_fold (map_to_list by_date)
              {| by_date_time_per_file := by_date; full_time_per_file := full;
                 joined_per_file := ∅; total_seconds_difference := 0; printed := [] |})
    as (_ & _ & _ & _ & ->); [|apply NoDup_fst_map_to_list].
  rewrite !list_to_map_to_list. cbn. rewrite lookup_empty.
  by destruct (by_date !! k), (full !! k).
Qed.

(** What lines 165-188 print and leave, for any two dictionaries. *)
Lemma compare_databases_report (by_date full : gmap string Z) :
  let s := compare_databases by_date full in
  (forall k a b,
     (k, (a, b)) ∈ printed s
     <-> (is_Some (by_date !! k) \/ is_Some (full !! k))
         /\ a = default 0 (by_date !! k) /\ b = default 0 (full !! k) /\ a <> b)
  /\ Sorted by_filename (printed s)
  /\ NoDup (printed s).*1
  /\ total_seconds_difference s
     = sum_Z ((fun x : string * (Z * Z) => Z.abs (x.2.2 - x.2.1)) <$> printed s)
  /\ by_date_time_per_file s = by_date
  /\ full_time_per_file s = full.
Proof.
  unfold compare_databases. cbn [by_date_time_per_file full_time_per_file].
  set (s0 := {| by_date_time_per_file := by_date; full_time_per_file := full;
                joined_per_file := ∅; total_seconds_difference := 0; printed := [] |}).
  destruct (join_by_date_fold (map_to_list by_date) s0) as (D1 & D2 & D3 & D4 & _).
  rewrite D2. cbn [s0 full_time_per_file].
  set (s2 := foldl join_full (foldl join_by_date s0 (map_to_list by_date))
                   (map_to_list full)).
  set (entries := merge_sort by_filename _).
  destruct (print_entry_fold entries s2) as (H1 & H2 & _ & H4 & H5).
  destruct (join_full_fold (map_to_list full)
              (foldl join_by_date s0 (map_to_list by_date))) as (F1 & F2 & F3 & F4 & _).
  fold s2 in F1, F2, F3, F4.
  assert (Hprinted : printed (foldl print_entry s2 entries) = entries)
    by (rewrite H5, F4, D4; done).
  rewrite Hprinted, H1, H2, H4, F1, F2, F3, D1, D2, D3. cbn.
  assert (Hperm : entries ≡ₚ filter (fun x : string * (Z * Z) => x.2.1 <> x.2.2)
                              (map_to_list (joined_per_file s2)))
    by apply merge_sort_Permutation.
  split; [|split; [|split; [|repeat split; lia]]].
  - intros k a b.
    rewrite Hperm, list_elem_of_filter, elem_of_map_to_list.
    unfold s2, s0. rewrite joined_lookup. cbn.
    destruct (by_date !! k), (full !! k); cbn; unfold is_Some; naive_solver.
  - apply Sorted_merge_sort. apply _.
  - rewrite Hperm. apply (NoDup_fmap_fst _).
    + intros k x y [_ Hx]%list_elem_of_filter [_ Hy]%list_elem_of_filter.
      apply elem_of_map_to_list in Hx, Hy. congruence.
    + apply NoDup_filter, NoDup_map_to_list.
Qed.

Lemma for_each_date_databases dir (names : list string) : forall d,
  for_each (fun d filename =>
              if decide (filename <> "full.db")
              then populate_database_dict dir filename d (Some PATH)
              else Ok d) names d
  = accumulate dir PATH (filter (fun filename => filename <> "full.db") names) d.
Proof.
  unfold accumulate. induction names as [|filename names IH]; intros d; [done|].
  rewrite filter_cons. cbn [for_each]. case_decide.
  - cbn [for_each]. destruct (populate_database_dict _ _ _ _); cbn; [apply IH|done].
  - cbn. apply IH.
Qed.

(** C4.  When the check runs to its end, the two dictionaries it compares
    are the scan by full path of all listed files but [full.db] and the
    scan of [full.db].  It prints an entry (key, time in the date
    databases, time in [full.db]) for exactly the keys of either
    dictionary whose two times differ, a key that one side lacks counting
    as zero there; the entries are sorted by key, one per key; the total
    is the sum of the absolute differences of the printed entries; and
    both dictionaries are at the end what the scans made them. *)
Theorem check_database_report (dir : directory) (s : check_locals) :
  check_database dir = Ok s ->
  exists by_date full,
    accumulate dir PATH (filter (fun filename => filename <> "full.db") (listdir dir)) ∅
      = Ok by_date
    /\ accumulate dir PATH ["full.db"] ∅ = Ok full
    /\ (forall k a b,
          (k, (a, b)) ∈ printed s
          <-> (is_Some (by_date !! k) \/ is_Some (full !! k))
              /\ a = default 0 (by_date !! k) /\ b = default 0 (full !! k) /\ a <> b)
    /\ Sorted by_filename (printed s)
    /\ NoDup (printed s).*1
    /\ total_seconds_difference s
       = sum_Z ((fun x : string * (Z * Z) => Z.abs (x.2.2 - x.2.1)) <$> printed s)
    /\ by_date_time_per_file s = by_date
    /\ full_time_per_file s = full.
Proof.
  unfold check_database. rewrite for_each_date_databases.
  destruct (accumulate dir PATH _ ∅) as [by_date|e] eqn:Hdate; [|discriminate].
  cbn [mbind result_bind].
  destruct (populate_database_dict dir "full.db" ∅ (Some PATH)) as [full|e] eqn:Hfull;
    [|discriminate].
  cbn [mbind result_bind]. intros [= <-].
  exists by_date, full. split; [done|]. split.
  { unfold accumulate. cbn [for_each]. by rewrite Hfull. }
  apply compare_databases_report.
Qed.

Lemma check_database_report_witness :
  exists s, check_database sample_dir = Ok s
    /\ exists by_date full,
         accumulate sample_dir PATH
           (filter (fun filename => filename <> "full.db") (listdir sample_dir)) ∅
           = Ok by_date
         /\ accumulate sample_dir PATH ["full.db"] ∅ = Ok full
         /\ (forall k a b,
               (k, (a, b)) ∈ printed s
               <-> (is_Some (by_date !! k) \/ is_Some (full !! k))
                   /\ a = default 0 (by_date !! k) /\ b = default 0 (full !! k)
                   /\ a <> b)
         /\ Sorted by_filename (printed s)
         /\ NoDup (printed s).*1
         /\ total_seconds_difference s
            = sum_Z ((fun x : string * (Z * Z) => Z.abs (x.2.2 - x.2.1)) <$> printed s)
         /\ by_date_time_per_file s = by_date
         /\ full_time_per_file s = full.
Proof.
  assert (Hs : exists s, check_database sample_dir = Ok s)
    by (vm_compute; eexists; reflexivity).
  destruct Hs as [s Hs]. exists s. split; [exact Hs|].
  exact (check_database_report sample_dir s Hs).
Defined.

Example check_database_sample :
  (fun s => (printed s, total_seconds_difference s)) <$> 
    (match check_database sample_dir with Ok s => Some s | Raise _ => None end)
  = Some ([("/tmp/a", (63, 60)); ("/tmp/b.py", (12, 0)); ("/tmp/c", (0, 7))], 22).
Proof. vm_compute. reflexivity. Qed.

(** ** File types *)

Lemma rfind_from_app c l1 l2 i last :
  Str.rfind_from c (l1 ++ l2) i last
  = Str.rfind_from c l2 (i + Z.of_nat (length l1)) (Str.rfind_from c l1 i last).
Proof.
  revert i last. induction l1 as [|x l1 IH]; intros i last; cbn [Str.rfind_from app length].
  - f_equal. lia.
  - rewrite IH. f_equal. lia.
Qed.

Lemma rfind_from_notin c p i last : c ∉ p -> Str.rfind_from c p i last = last.
Proof.
  revert i last. induction p as [|x p IH]; intros i last Hc; cbn [Str.rfind_from]; [done|].
  apply not_elem_of_cons in Hc as [Hne Hc].
  rewrite IH by done. by rewrite decide_False.
Qed.

Lemma rfind_from_bound c p i last :
  Str.rfind_from c p i last = last
  \/ i <= Str.rfind_from c p i last < i + Z.of_nat (length p).
Proof.
  revert i last. induction p as [|x p IH]; intros i last; cbn [Str.rfind_from length];
    [by left|].
  destruct (IH (i + 1) (if decide (x = c) then i else last)) as [->|?]; [|right; lia].
  case_decide; [right; lia|by left].
Qed.

Lemma rfind_last c p1 p2 :
  c ∉ p2 -> Str.rfind c (p1 ++ c :: p2) = Z.of_nat (length p1).
Proof.
  intros Hc. unfold Str.rfind. rewrite rfind_from_app. cbn [Str.rfind_from].
  rewrite rfind_from_notin by done. rewrite decide_True by done. lia.
Qed.

Lemma basename_nosep p : sep ∉ p -> posixpath.basename p = p.
Proof.
  intros Hp. unfold posixpath.basename, Str.rfind. by rewrite rfind_from_notin.
Qed.

Lemma basename_app dir base :
  sep ∉ base -> posixpath.basename (dir ++ sep :: base) = base.
Proof.
  intros Hbase. unfold posixpath.basename, Str.from. rewrite rfind_last by done.
  rewrite cons_middle, app_assoc. apply drop_app_length'.
  rewrite length_app. simpl. lia.
Qed.

(** A path has one last component, the one [basename] returns. *)
Lemma is_basename_unique p base : is_basename p base -> base = posixpath.basename p.
Proof.
  intros [Hsep [->|[dir ->]]]; [by rewrite basename_nosep|by rewrite basename_app].
Qed.

Lemma basename_decompose p :
  exists pre,
    p = pre ++ posixpath.basename p
    /\ (sep ∉ posixpath.basename p)
    /\ Str.rfind sep p + 1 = Z.of_nat (length pre)
    /\ (pre = [] \/ (exists dir, pre = dir ++ [sep])).
Proof.
  destruct (decide (sep ∈ p)) as [Hin|Hnotin].
  - apply list_elem_of_split_r in Hin as (dir & base & -> & Hbase).
    exists (dir ++ [sep]). rewrite basename_app, rfind_last by done.
    rewrite <- app_assoc, length_app. simpl.
    repeat split; [done|lia|right; by exists dir].
  - exists []. rewrite basename_nosep by done. unfold Str.rfind.
    rewrite rfind_from_notin by done. repeat split; [done|by left].
Qed.

Lemma is_basename_basename p : is_basename p (posixpath.basename p).
Proof.
  destruct (basename_decompose p) as (pre & Hp & Hsep & _ & [->|[dir ->]]).
  - split; [done|]. by left.
  - split; [done|]. right. exists dir. by rewrite <- app_assoc in Hp.
Qed.

Lemma skip_leading_dots_Exists stem : forall pre rest,
  posixpath.skip_leading_dots (pre ++ stem ++ rest) (Z.of_nat (length pre)) (length stem)
  = bool_decide (Exists (fun c => c <> extsep) stem).
Proof.
  induction stem as [|x stem IH]; intros pre rest;
    cbn [posixpath.skip_leading_dots length].
  - rewrite bool_decide_eq_false_2; [done|]. by intros ?%Exists_nil.
  - unfold Str.from. rewrite Nat2Z.id, drop_app_length. cbn [app take].
    destruct (decide (x = extsep)) as [->|Hx].
    + rewrite bool_decide_eq_false_2 by (intros Hne; by apply Hne).
      replace (Z.of_nat (length pre) + 1) with (Z.of_nat (length (pre ++ [extsep])))
        by (rewrite length_app; simpl; lia).
      replace (pre ++ extsep :: stem ++ rest) with ((pre ++ [extsep]) ++ stem ++ rest)
        by (by rewrite <- app_assoc).
      rewrite IH. apply bool_decide_ext. rewrite Exists_cons. tauto.
    + rewrite bool_decide_eq_true_2 by congruence.
      symmetry. apply bool_decide_eq_true_2. by left.
Qed.

(** The second component of [splitext] is the extension of the last
    component of the path, and is empty when that has none. *)
Lemma splitext_extension p :
  is_extension (posixpath.basename p) (posixpath.splitext p).2
  \/ ((posixpath.splitext p).2 = []
      /\ forall ext, ~ is_extension (posixpath.basename p) ext).
Proof.
  destruct (basename_decompose p) as (pre & Hp & Hsep & Hindex & _).
  unfold posixpath.splitext.
  set (sepIndex := Str.rfind sep p) in *.
  set (base := posixpath.basename p) in *.
  clearbody sepIndex base. subst p.
  destruct (decide (extsep ∈ base)) as [Hin|Hnotin].
  - apply list_elem_of_split_r in Hin as (stem & rest & -> & Hrest).
    assert (Hdot : Str.rfind extsep (pre ++ stem ++ extsep :: rest)
                   = Z.of_nat (length (pre ++ stem))).
    { rewrite app_assoc. by apply rfind_last. }
    rewrite Hdot.
    replace (Z.of_nat (length (pre ++ stem)) >? sepIndex) with true
      by (symmetry; apply Z.gtb_lt; rewrite length_app; lia).
    replace (Z.to_nat (Z.of_nat (length (pre ++ stem)) - (sepIndex + 1)))
      with (length stem) by (rewrite length_app; lia).
    rewrite Hindex. cbn [andb].
    rewrite skip_leading_dots_Exists.
    case_bool_decide as Hstem; cbn [snd].
    + left. exists stem, rest.
      assert (Hext : Str.from (Z.of_nat (length (pre ++ stem)))
                       (pre ++ stem ++ extsep :: rest) = extsep :: rest).
      { unfold Str.from. rewrite Nat2Z.id, app_assoc. apply drop_app_length. }
      rewrite Hext. done.
    + right. split; [done|].
      intros ext (stem' & rest' & Hbase' & -> & Hrest' & Hstem').
      apply not_elem_of_app_cons_inv_r in Hbase' as (-> & _ & _); done.
  - right.
    assert (Hle : Str.rfind extsep (pre ++ base) <= sepIndex).
    { unfold Str.rfind. rewrite rfind_from_app.
      rewrite rfind_from_notin by done.
      destruct (rfind_from_bound extsep pre 0 (-1)) as [->|?]; lia. }
    replace (Str.rfind extsep (pre ++ base) >? sepIndex) with false
      by (symmetry; rewrite Z.gtb_ltb; apply Z.ltb_ge; lia).
    split; [done|].
    intros ext (stem' & rest' & Hbase' & -> & _). apply Hnotin.
    rewrite Hbase'. apply elem_of_app. right. left.
Qed.

Lemma is_extension_unique base ext1 ext2 :
  is_extension base ext1 -> is_extension base ext2 -> ext1 = ext2.
Proof.
  intros (stem1 & rest1 & H1 & -> & Hrest1 & _) (stem2 & rest2 & H2 & -> & Hrest2 & _).
  rewrite H1 in H2.
  apply not_elem_of_app_cons_inv_r in H2 as (_ & _ & ->); done.
Qed.

(** A path has one file type. *)
Lemma filetype_of_unique p r1 r2 : filetype_of p r1 -> filetype_of p r2 -> r1 = r2.
Proof.
  intros [base1 ext1 Hb1 He1|base1 Hb1 Hne1 Hno1|Hb1]
         [base2 ext2 Hb2 He2|base2 Hb2 Hne2 Hno2|Hb2];
    apply is_basename_unique in Hb1, Hb2; subst; try done.
  - f_equal. by eapply is_extension_unique.
  - by apply Hno2 in He1.
  - rewrite <- Hb2 in He1. destruct He1 as (stem & rest & Hstem & -> & _).
    by destruct stem.
  - by apply Hno1 in He2.
  - rewrite <- Hb1 in He2. destruct He2 as (stem & rest & Hstem & -> & _).
    by destruct stem.
Qed.

(** C8, as the code has it.  For every path the file type is a star
    followed by the extension of the last component when that has an
    extension; it is the last component itself, with no star put before
    it, when that has no extension and is not empty; and it is [OTHER] when
    the last component is empty. *)
Theorem parse_filetype_cases (path : string) :
  filetype_of (chars path) (chars (_parse_filetype path)).
Proof.
  unfold _parse_filetype.
  pose proof (is_basename_basename (chars path)) as Hbase.
  destruct (splitext_extension (chars path)) as [Hext|[Hnone Hno]];
    destruct (posixpath.splitext (chars path)) as [root extension]; cbn [snd] in *.
  - assert (Hne : extension <> []) by (destruct Hext as (? & ? & _ & -> & _); done).
    rewrite !(bool_decide_eq_true_2 (extension <> [])) by done.
    rewrite bool_decide_eq_true_2 by done. rewrite chars_text.
    by eapply filetype_extension.
  - subst extension.
    rewrite !(bool_decide_eq_false_2 (@nil ascii <> [])) by (intros Hne; by apply Hne).
    case_bool_decide as Hempty; rewrite chars_text.
    + by apply filetype_basename.
    + apply filetype_other. by rewrite <- Hempty.
Qed.

(** C8, as the specification words it, fails: the file type of a path that
    ends in a separator is [OTHER], which is neither an extension nor the
    last component of the path, with or without a star. *)
Lemma parse_filetype_not_as_specified :
  ~ filetype_as_specified (chars "/tmp/") (chars (_parse_filetype "/tmp/")).
Proof.
  intros (base & Hbase & Hcases).
  apply is_basename_unique in Hbase. cbv in Hbase. subst base.
  destruct Hcases as [(ext & (stem & rest & Hstem & -> & _) & _)|(_ & [Heq|Heq])].
  - by destruct stem.
  - discriminate Heq.
  - discriminate Heq.
Qed.

(** ** Days *)

Lemma days_before_year_succ (year : Z) :
  datetime._days_before_year (year + 1)
  = datetime._days_before_year year + 365 + (if datetime._is_leap year then 1 else 0).
Proof.
  unfold datetime._days_before_year, datetime._is_leap.
  replace (year + 1 - 1) with year by lia.
  destruct (Z.eqb_spec (year mod 4) 0), (Z.eqb_spec (year mod 100) 0),
    (Z.eqb_spec (year mod 400) 0); cbn [negb andb orb];
    Z.div_mod_to_equations; lia.
Qed.

Lemma days_before_year_mono (y1 y2 : Z) :
  y1 <= y2 -> datetime._days_before_year y1 <= datetime._days_before_year y2.
Proof.
  unfold datetime._days_before_year. intros Hle.
  Z.div_mod_to_equations. lia.
Qed.

Ltac month_cases m :=
  let H := fresh "Hmonth" in
  assert (H : m = 1 \/ m = 2 \/ m = 3 \/ m = 4 \/ m = 5 \/ m = 6 \/ m = 7
              \/ m = 8 \/ m = 9 \/ m = 10 \/ m = 11 \/ m = 12) by lia;
  repeat destruct H as [H|H]; subst m.

Lemma days_before_month_succ (year month : Z) :
  1 <= month < 12 ->
  datetime._days_before_month year (month + 1)
  = datetime._days_before_month year month + datetime._days_in_month year month.
Proof.
  intros Hm. unfold datetime._days_before_month, datetime._days_in_month.
  month_cases month; try lia; destruct (datetime._is_leap year); reflexivity.
Qed.

Lemma days_before_month_mono (year m1 m2 : Z) :
  1 <= m1 -> m1 < m2 <= 12 ->
  datetime._days_before_month year m1 + datetime._days_in_month year m1
  <= datetime._days_before_month year m2.
Proof.
  intros H1 H2. unfold datetime._days_before_month, datetime._days_in_month.
  month_cases m1; month_cases m2; try lia;
    destruct (datetime._is_leap year); cbn; lia.
Qed.

Lemma days_in_year (year month day : Z) :
  1 <= month <= 12 -> 1 <= day <= datetime._days_in_month year month ->
  1 <= datetime._days_before_month year month + day
    <= 365 + (if datetime._is_leap year then 1 else 0).
Proof.
  intros Hm. unfold datetime._days_before_month, datetime._days_in_month.
  month_cases month; destruct (datetime._is_leap year); cbn; lia.
Qed.

Lemma days_in_last_month (year : Z) :
  datetime._days_before_month year 12 + datetime._days_in_month year 12
  = 365 + (if datetime._is_leap year then 1 else 0).
Proof.
  unfold datetime._days_before_month, datetime._days_in_month.
  destruct (datetime._is_leap year); reflexivity.
Qed.

(** Later dates have greater ordinals. *)
Lemma toordinal_lt (a b : datetime.t) :
  datetime.valid a = true -> datetime.valid b = true ->
  datetime.ltb a b = true -> datetime.toordinal a < datetime.toordinal b.
Proof.
  intros Ha Hb. apply valid_bounds in Ha as (Hya & Hma & Hda & _).
  apply valid_bounds in Hb as (Hyb & Hmb & Hdb & _).
  unfold datetime.ltb, datetime.toordinal.
  destruct a as [ya ma da], b as [yb mb db]; cbn in *. intros Hlt.
  pose proof (days_in_year ya ma da Hma Hda).
  pose proof (days_in_year yb mb db Hmb Hdb).
  destruct (Z.ltb_spec ya yb) as [Hy|Hy].
  - pose proof (days_before_year_succ ya).
    pose proof (days_before_year_mono (ya + 1) yb). lia.
  - cbn in Hlt. apply andb_true_iff in Hlt as [Hyeq%Z.eqb_eq Hlt]. subst yb.
    destruct (Z.ltb_spec ma mb) as [Hm|Hm].
    + pose proof (days_before_month_mono ya ma mb). lia.
    + cbn in Hlt. apply andb_true_iff in Hlt as [Hmeq%Z.eqb_eq Hlt%Z.ltb_lt].
      subst mb. lia.
Qed.

Lemma toordinal_bound (d : datetime.t) :
  datetime.valid d = true -> 1 <= datetime.toordinal d <= last_ordinal.
Proof.
  intros Hv. apply valid_bounds in Hv as (Hy & Hm & Hd & _).
  unfold datetime.toordinal, last_ordinal.
  pose proof (days_in_year _ _ _ Hm Hd).
  pose proof (days_before_year_succ (datetime.year d)).
  pose proof (days_before_year_mono (datetime.year d + 1) 10000).
  pose proof (days_before_year_mono 1 (datetime.year d)).
  change (datetime._days_before_year 10000) with 3652059 in *.
  change (datetime._days_before_year 1) with 0 in *. lia.
Qed.

(** The day after a date that has one is the next date. *)
Lemma add_day_ok (d d' : datetime.t) :
  datetime.valid d = true -> datetime.add_day d = Ok d' ->
  datetime.valid d' = true
  /\ datetime.toordinal d' = datetime.toordinal d + 1
  /\ datetime.year d <= datetime.year d'.
Proof.
  intros Hv. pose proof (valid_bounds d Hv) as (Hy & Hm & Hd & Hdim).
  unfold datetime.add_day, datetime.toordinal, datetime.MAXYEAR.
  destruct d as [y m dd]; cbn in *.
  destruct (Z.ltb_spec dd (datetime._days_in_month y m)) as [Hlt|Hge].
  - intros [= <-]; cbn. split; [|lia].
    unfold datetime.valid, datetime.MINYEAR, datetime.MAXYEAR; cbn. lia.
  - destruct (Z.ltb_spec m 12) as [Hm12|Hm12].
    + intros [= <-]; cbn. rewrite days_before_month_succ by lia.
      split; [|lia].
      unfold datetime.valid, datetime.MINYEAR, datetime.MAXYEAR; cbn.
      assert (1 <= datetime._days_in_month y (m + 1)).
      { unfold datetime._days_in_month.
        month_cases m; try lia; destruct (datetime._is_leap y); by cbv. }
      lia.
    + destruct (Z.ltb_spec y 9999) as [Hy9|Hy9]; [|discriminate].
      intros [= <-]; cbn.
      assert (m = 12) by lia. subst m.
      pose proof (days_before_year_succ y). pose proof (days_in_last_month y).
      split; [|change (datetime._days_before_month (y + 1) 1) with 0; lia].
      unfold datetime.valid, datetime.MINYEAR, datetime.MAXYEAR; cbn.
      change (datetime._days_in_month (y + 1) 1) with 31. lia.
Qed.

(** Only the last date has no day after it. *)
Lemma add_day_raise (d : datetime.t) (e : exn) :
  datetime.valid d = true -> datetime.add_day d = Raise e ->
  datetime.toordinal d = last_ordinal.
Proof.
  intros Hv. pose proof (valid_bounds d Hv) as (Hy & Hm & Hd & Hdim).
  unfold datetime.add_day, datetime.toordinal, datetime.MAXYEAR, last_ordinal.
  destruct d as [y m dd]; cbn in *.
  destruct (Z.ltb_spec dd (datetime._days_in_month y m)); [discriminate|].
  destruct (Z.ltb_spec m 12); [discriminate|].
  destruct (Z.ltb_spec y 9999); [discriminate|]. intros _.
  assert (y = 9999) by lia. assert (m = 12) by lia. subst y m.
  change (datetime._days_in_month 9999 12) with 31 in *.
  assert (dd = 31) by lia. subst dd. reflexivity.
Qed.

(** ** The file names of a range *)

Lemma text_inj (l1 l2 : list ascii) : text l1 = text l2 -> l1 = l2.
Proof. intros H. apply (f_equal chars) in H. by rewrite !chars_text in H. Qed.

Lemma digit_inj (a b : Z) : datetime.digit a = datetime.digit b -> a mod 10 = b mod 10.
Proof.
  intros H. apply (f_equal Ascii.is_nat) in H. rewrite !is_nat_digit in H.
  injection H as H. apply Z2Nat.inj in H; [done|apply Z.mod_pos_bound; lia..].
Qed.

Lemma pad2_inj (a b : Z) :
  0 <= a < 100 -> 0 <= b < 100 -> datetime.pad2 a = datetime.pad2 b -> a = b.
Proof.
  intros Ha Hb [= H1%digit_inj H2%digit_inj]. Z.div_mod_to_equations. lia.
Qed.

(** What [_equal_dates] compares: the month, the day and the last two
    digits of the year. *)
Lemma equal_dates_true (a b : datetime.t) :
  datetime.valid a = true -> datetime.valid b = true ->
  _equal_dates a b = true ->
  datetime.month a = datetime.month b /\ datetime.day a = datetime.day b
  /\ datetime.year a mod 100 = datetime.year b mod 100.
Proof.
  intros Ha Hb. apply valid_bounds in Ha as (Hya & Hma & Hda & Hdima).
  apply valid_bounds in Hb as (Hyb & Hmb & Hdb & Hdimb).
  unfold _equal_dates, datetime.strftime_x. intros Heq%bool_decide_eq_true_1.
  apply text_inj in Heq.
  injection Heq as Hm1 Hm2 Hd1 Hd2 Hy1 Hy2.
  pose proof (Z.mod_pos_bound (datetime.year a) 100).
  pose proof (Z.mod_pos_bound (datetime.year b) 100).
  repeat split; apply pad2_inj; try lia; unfold datetime.pad2; congruence.
Qed.

Lemma ltb_trichotomy (a b : datetime.t) :
  datetime.ltb a b = false -> datetime.ltb b a = false -> a = b.
Proof.
  destruct a as [ya ma da], b as [yb mb db]. unfold datetime.ltb; cbn.
  intros H1 H2. assert (ya = yb /\ ma = mb /\ da = db) as (-> & -> & ->) by lia.
  done.
Qed.

Lemma ltb_year (a b : datetime.t) :
  datetime.ltb a b = false -> datetime.year b <= datetime.year a.
Proof. destruct a, b. unfold datetime.ltb; cbn. lia. Qed.

Lemma days_before_year_century (y1 y2 : Z) :
  y1 + 100 <= y2 -> 36524 <= datetime._days_before_year y2 - datetime._days_before_year y1.
Proof.
  unfold datetime._days_before_year. intros Hle. Z.div_mod_to_equations. lia.
Qed.

(** The same day of the year a hundred years or more later is at least
    36524 days later. *)
Lemma toordinal_century (a b : datetime.t) :
  datetime.month a = datetime.month b -> datetime.day a = datetime.day b ->
  datetime.year a + 100 <= datetime.year b ->
  36524 <= datetime.toordinal b - datetime.toordinal a.
Proof.
  unfold datetime.toordinal, datetime._days_before_month. intros <- <- Hyear.
  destruct (datetime.month a >? 2); cbn [andb].
  - pose proof (days_before_year_succ (datetime.year a)).
    pose proof (days_before_year_succ (datetime.year b)).
    pose proof (days_before_year_century (datetime.year a + 1) (datetime.year b + 1)).
    lia.
  - pose proof (days_before_year_century (datetime.year a) (datetime.year b)). lia.
Qed.

(** The loop ends: the fuel it is given is enough. *)
Lemma filenames_loop_total (end_date : datetime.t) (fuel : nat) :
  forall start_date database_filenames,
    datetime.valid start_date = true ->
    last_ordinal - datetime.toordinal start_date <= Z.of_nat fuel ->
    is_Some (filenames_loop fuel start_date end_date database_filenames).
Proof.
  induction fuel as [|fuel IH]; intros d acc Hv Hfuel; cbn [filenames_loop];
    destruct (_equal_dates d end_date); try done;
    destruct (datetime.add_day d) as [next|e] eqn:Hnext; try done;
    destruct (add_day_ok _ _ Hv Hnext) as (Hv' & Hord & _);
    pose proof (toordinal_bound next Hv').
  - lia.
  - apply IH; [done|lia].
Qed.

(** [generated_database_filenames] returns for every range. *)
Lemma generated_database_filenames_total (today : datetime.t)
    (start_date end_date : option datetime.t) :
  from_option (fun d => datetime.valid d = true) True start_date ->
  is_Some (generated_database_filenames today start_date end_date).
Proof.
  unfold generated_database_filenames.
  destruct start_date as [start_date|]; [|done]. cbn. intros Hv.
  destruct (match end_date with Some e => datetime.ltb e start_date | None => false end);
    [done|].
  apply filenames_loop_total; [done|].
  pose proof (toordinal_bound start_date Hv). lia.
Qed.

Lemma filenames_loop_days (end_date : datetime.t) :
  datetime.valid end_date = true ->
  forall (n fuel : nat) start_date database_filenames,
    datetime.valid start_date = true ->
    datetime.ltb end_date start_date = false ->
    datetime.toordinal end_date - datetime.toordinal start_date < 36524 ->
    datetime.toordinal end_date - datetime.toordinal start_date = Z.of_nat n ->
    (n <= fuel)%nat ->
    exists days,
      filenames_loop fuel start_date end_date database_filenames
      = Some (Ok (database_filenames ++ (database_filename_of <$> days)))
      /\ head days = Some start_date /\ last days = Some end_date
      /\ Forall (fun d => datetime.valid d = true) days
      /\ datetime.toordinal <$> days
         = seqZ (datetime.toordinal start_date) (Z.of_nat n + 1).
Proof.
  intros He. induction n as [|n IH]; intros fuel d acc Hv Hle Hyear Hord Hfuel.
  - assert (d = end_date) as ->.
    { apply ltb_trichotomy; [|done].
      destruct (datetime.ltb d end_date) eqn:Hlt; [|done].
      pose proof (toordinal_lt _ _ Hv He Hlt). lia. }
    exists [end_date].
    assert (Heq : _equal_dates end_date end_date = true) by by apply bool_decide_eq_true_2.
    destruct fuel; cbn [filenames_loop]; rewrite Heq; repeat split; try done.
    + by apply Forall_singleton.
    + by apply Forall_singleton.
  - assert (Hneq : _equal_dates d end_date = false).
    { destruct (_equal_dates d end_date) eqn:Heq; [|done].
      apply equal_dates_true in Heq as (Hm & Hd & Hy); [|done..].
      pose proof (ltb_year _ _ Hle).
      destruct (decide (datetime.year d = datetime.year end_date)) as [Hsame|Hdiff].
      - assert (d = end_date) as -> by (destruct d, end_date; cbn in *; congruence).
        lia.
      - pose proof (toordinal_century d end_date Hm Hd).
        assert (datetime.year d + 100 <= datetime.year end_date)
          by (Z.div_mod_to_equations; lia).
        lia. }
    pose proof (toordinal_bound end_date He).
    destruct (datetime.add_day d) as [next|e] eqn:Hnext;
      [|pose proof (add_day_raise _ _ Hv Hnext); lia].
    destruct (add_day_ok _ _ Hv Hnext) as (Hv' & Hord' & Hyear').
    destruct fuel as [|fuel]; [lia|].
    destruct (IH fuel next (acc ++ [database_filename_of d]) Hv')
      as (days & Hloop & Hhead & Hlast & Hvalid & Hords); try lia.
    { destruct (datetime.ltb end_date next) eqn:Hlt; [|done].
      pose proof (toordinal_lt _ _ He Hv' Hlt). lia. }
    exists (d :: days). cbn [filenames_loop]. rewrite Hneq, Hnext.
    unfold database_filename_of in *. rewrite Hloop, <- app_assoc.
    repeat split; try done.
    + destruct days; [done|]. by rewrite last_cons_cons.
    + by apply Forall_cons.
    + rewrite fmap_cons, Hords, (seqZ_cons _ (Z.of_nat (S n) + 1)) by lia.
      do 2 f_equal; lia.
Qed.

(** The three cases of [generated_database_filenames] for a range of
    less than 36524 days, the least number of days between a day and the
    same day a hundred years later: without a start date the full
    database alone, for an end date before the start date nothing, and
    else one name for each day from the start date to the end date, in
    order. *)
Theorem generated_filenames_within_century (today start_date end_date : datetime.t) :
  datetime.valid start_date = true -> datetime.valid end_date = true ->
  datetime.days_between start_date end_date < 36524 ->
  (forall any_end, generated_database_filenames today None any_end = Some (Ok ["full.db"]))
  /\ (datetime.ltb end_date start_date = true ->
      generated_database_filenames today (Some start_date) (Some end_date) = Some (Ok []))
  /\ (datetime.ltb end_date start_date = false ->
      exists days,
        generated_database_filenames today (Some start_date) (Some end_date)
        = Some (Ok (database_filename_of <$> days))
        /\ Z.of_nat (length days) = datetime.days_between start_date end_date + 1
        /\ head days = Some start_date /\ last days = Some end_date
        /\ Forall (fun d => datetime.valid d = true) days
        /\ datetime.toordinal <$> days
           = seqZ (datetime.toordinal start_date)
                  (datetime.days_between start_date end_date + 1)).
Proof.
  intros Hs He Hyear. split; [done|]. split.
  - intros Hlt. unfold generated_database_filenames. by rewrite Hlt.
  - intros Hle. unfold generated_database_filenames, datetime.days_between in *.
    rewrite Hle. cbn [default].
    pose proof (toordinal_bound end_date He).
    assert (Hord : 0 <= datetime.toordinal end_date - datetime.toordinal start_date).
    { destruct (datetime.ltb start_date end_date) eqn:Hlt.
      - pose proof (toordinal_lt _ _ Hs He Hlt). lia.
      - rewrite (ltb_trichotomy _ _ Hlt Hle). lia. }
    destruct (filenames_loop_days end_date He
                (Z.to_nat (datetime.toordinal end_date - datetime.toordinal start_date))
                (Z.to_nat (last_ordinal - datetime.toordinal start_date))
                start_date [] Hs Hle Hyear)
      as (days & Hloop & Hhead & Hlast & Hvalid & Hords); [lia..|].
    exists days. rewrite Z2Nat.id in Hords by lia.
    repeat split; try done.
    apply (f_equal length) in Hords. rewrite length_fmap, length_seqZ in Hords. lia.
Qed.

Lemma generated_filenames_within_century_witness :
  exists days,
    generated_database_filenames (datetime.mk 2026 11 3)
      (Some (datetime.mk 2017 10 29)) (Some (datetime.mk 2017 11 2))
    = Some (Ok (database_filename_of <$> days))
    /\ Z.of_nat (length days)
       = datetime.days_between (datetime.mk 2017 10 29) (datetime.mk 2017 11 2) + 1.
Proof.
  destruct (generated_filenames_within_century (datetime.mk 2026 11 3)
              (datetime.mk 2017 10 29) (datetime.mk 2017 11 2))
    as (_ & _ & Hdays); [reflexivity|reflexivity|reflexivity|].
  destruct (Hdays eq_refl) as (days & Hnames & Hlength & _).
  exists days. split; [exact Hnames|exact Hlength].
Defined.

(** C3, where the code departs from it.  [_equal_dates] compares dates as
    [%x] writes them, with two digits for the year, so the loop ends at
    the first day that agrees with the end date in month, day and those
    two digits.  From 1917-10-29 to 2017-10-29 that is the start date
    itself: one name is returned, for a range of 36526 days. *)
Theorem generated_filenames_century_apart (today : datetime.t) :
  datetime.valid (datetime.mk 1917 10 29) = true
  /\ datetime.valid (datetime.mk 2017 10 29) = true
  /\ datetime.ltb (datetime.mk 2017 10 29) (datetime.mk 1917 10 29) = false
  /\ datetime.days_between (datetime.mk 1917 10 29) (datetime.mk 2017 10 29) + 1 = 36526
  /\ datetime.strftime_x (datetime.mk 1917 10 29) = "10/29/17"
  /\ datetime.strftime_x (datetime.mk 2017 10 29) = "10/29/17"
  /\ generated_database_filenames today
       (Some (datetime.mk 1917 10 29)) (Some (datetime.mk 2017 10 29))
     = Some (Ok ["19171029.db"]).
Proof. repeat split; vm_compute; reflexivity. Qed.

(** The bound of 36524 days is the least one: from 2000-03-01 to
    2100-03-01 there are that many days, and one name is returned. *)
Example generated_filenames_shortest_century (today : datetime.t) :
  datetime.days_between (datetime.mk 2000 3 1) (datetime.mk 2100 3 1) = 36524
  /\ generated_database_filenames today
       (Some (datetime.mk 2000 3 1)) (Some (datetime.mk 2100 3 1))
     = Some (Ok ["20000301.db"]).
Proof. split; vm_compute; reflexivity. Qed.

(** ** The examples of the specification *)

Example compare_empty_databases :
  printed (compare_databases ∅ ∅) = []
  /\ total_seconds_difference (compare_databases ∅ ∅) = 0.
Proof. split; reflexivity. Qed.

Example path_trie_two_records :
  (path_trie ← build_path_trie [("/a/b", 10); ("/a/c", 20)];
   b ← node_at path_trie ["/"; "a"; "b"];
   c ← node_at path_trie ["/"; "a"; "c"];
   Some (value path_trie, value b, value c))
  = Some (30, 10, 20).
Proof. vm_compute. reflexivity. Qed.

Example accumulate_five_days :
  accumulate
    {| listdir := [];
       contents := fun database_filename =>
         if bool_decide (database_filename ∈
              ["20171029.db"; "20171030.db"; "20171031.db"; "20171101.db"; "20171102.db"])
         then Some [Entry "/tmp/a" 60] else None |}
    PATH
    ["20171029.db"; "20171030.db"; "20171031.db"; "20171101.db"; "20171102.db"] ∅
  = Ok {["/tmp/a" := 300]}.
Proof. vm_compute. reflexivity. Qed.

(** ** Hours, minutes and seconds *)

(** X1.  [_seconds_to_hms] splits a number of seconds into hours, minutes
    below 60 and seconds below 60 that add up to it, the hours being
    negative only for a negative number; and it is the only such split. *)
Theorem seconds_to_hms_split (seconds : Z) :
  let '(h, m, s) := _seconds_to_hms seconds in
  h * 3600 + m * 60 + s = seconds
  /\ 0 <= m < 60 /\ 0 <= s < 60 /\ (0 <= h <-> 0 <= seconds)
  /\ forall h' m' s',
       h' * 3600 + m' * 60 + s' = seconds -> 0 <= m' < 60 -> 0 <= s' < 60 ->
       (h', m', s') = (h, m, s).
Proof.
  unfold _seconds_to_hms. cbv zeta.
  repeat split; try (Z.div_mod_to_equations; lia).
  intros h' m' s' Hsum Hm Hs.
  assert (h' = seconds / 60 / 60 /\ m' = (seconds / 60) mod 60 /\ s' = seconds mod 60)
    as (-> & -> & ->) by (Z.div_mod_to_equations; lia).
  reflexivity.
Qed.

(** ** Names and keys of days *)

Lemma pad4_inj (a b : Z) :
  0 <= a < 10000 -> 0 <= b < 10000 -> datetime.pad4 a = datetime.pad4 b -> a = b.
Proof.
  intros Ha Hb [= H1%digit_inj H2%digit_inj H3%digit_inj H4%digit_inj].
  Z.div_mod_to_equations. lia.
Qed.

Lemma month_abbr_inj (m1 m2 : Z) (rest1 rest2 : list ascii) :
  1 <= m1 <= 12 -> 1 <= m2 <= 12 ->
  chars (datetime.month_abbr m1) ++ rest1 = chars (datetime.month_abbr m2) ++ rest2 ->
  m1 = m2 /\ rest1 = rest2.
Proof.
  intros H1 H2. month_cases m1; month_cases m2; cbn; intros Heq;
    first [discriminate Heq | by injection Heq].
Qed.

Lemma digits_loop_app (fuel : nat) : forall (n : Z) (acc : list ascii),
  digits_loop fuel n acc = digits_loop fuel n [] ++ acc.
Proof.
  induction fuel as [|fuel IH]; intros n acc; cbn [datetime.digits_loop]; [done|].
  destruct (n <? 10); [done|].
  rewrite (IH _ (datetime.digit n :: acc)), (IH _ [datetime.digit n]).
  by rewrite <- app_assoc.
Qed.

Lemma int_digits_app (xs ys : list ascii) : forall acc,
  int_digits acc (xs ++ ys) = int_digits acc xs ≫= fun acc' => int_digits acc' ys.
Proof.
  induction xs as [|c xs IH]; intros acc; cbn [app int_digits]; [done|].
  destruct (Ascii.is_nat c); [apply IH|done].
Qed.

(** [int] reads the digits of a number back as the number. *)
Lemma int_digits_loop (fuel : nat) : forall n,
  0 <= n < Z.of_nat fuel -> int_digits 0 (digits_loop fuel n []) = Some n.
Proof.
  induction fuel as [|fuel IH]; intros n Hn; [lia|].
  cbn [datetime.digits_loop]. destruct (n <? 10) eqn:Hlt.
  - apply Z.ltb_lt in Hlt. cbn [int_digits]. rewrite is_nat_digit. f_equal.
    rewrite Z2Nat.id by (apply Z.mod_pos_bound; lia).
    rewrite Z.mod_small by lia. lia.
  - apply Z.ltb_ge in Hlt.
    rewrite digits_loop_app, int_digits_app, IH.
    + cbn [mbind option_bind int_digits]. rewrite is_nat_digit. f_equal.
      rewrite Z2Nat.id by (apply Z.mod_pos_bound; lia).
      pose proof (Z.div_mod n 10 ltac:(lia)). lia.
    + split; [apply Z.div_pos; lia|apply Z.div_lt_upper_bound; lia].
Qed.

Lemma str_inj (a b : Z) : 0 <= a -> 0 <= b -> str a = str b -> a = b.
Proof.
  intros Ha Hb Heq. apply (f_equal (int_digits 0)) in Heq. unfold datetime.str in Heq.
  replace (a <? 0) with false in Heq by (symmetry; apply Z.ltb_ge; lia).
  replace (b <? 0) with false in Heq by (symmetry; apply Z.ltb_ge; lia).
  rewrite !int_digits_loop in Heq by lia. by injection Heq.
Qed.

Lemma month_abbr_length (m : Z) : length (chars (datetime.month_abbr m)) = 3%nat.
Proof.
  unfold datetime.month_abbr. repeat case_match; reflexivity.
Qed.

Lemma strftime_Y_b_d_inj (d1 d2 : datetime.t) :
  datetime.valid d1 = true -> datetime.valid d2 = true ->
  datetime.strftime_Y_b_d d1 = datetime.strftime_Y_b_d d2 -> d1 = d2.
Proof.
  intros (Hy1 & Hm1 & Hd1 & Hdim1)%valid_bounds (Hy2 & Hm2 & Hd2 & Hdim2)%valid_bounds.
  unfold datetime.strftime_Y_b_d. intros Heq%(f_equal chars).
  rewrite !chars_app, !chars_text in Heq.
  destruct d1 as [y1 m1 dd1], d2 as [y2 m2 dd2]; cbn [datetime.year datetime.month datetime.day] in *.
  apply app_inj_2 in Heq as [Hyear Heq].
  2: { rewrite !length_app, !month_abbr_length. reflexivity. }
  cbn [app chars] in Heq. injection Heq as Heq.
  apply month_abbr_inj in Heq as [-> Heq]; [|done..].
  injection Heq as Hd1' Hd2'.
  f_equal.
  - apply str_inj; [lia..|done].
  - apply pad2_inj; [lia..|]. unfold datetime.pad2. congruence.
Qed.

Lemma strftime_Ymd_inj (d1 d2 : datetime.t) :
  datetime.valid d1 = true -> datetime.valid d2 = true ->
  database_filename_of d1 = database_filename_of d2 -> d1 = d2.
Proof.
  intros (Hy1 & Hm1 & Hd1 & Hdim1)%valid_bounds (Hy2 & Hm2 & Hd2 & Hdim2)%valid_bounds.
  unfold database_filename_of, datetime.strftime_Ymd. intros Heq%(f_equal chars).
  rewrite !chars_app, !chars_text in Heq.
  destruct d1 as [y1 m1 dd1], d2 as [y2 m2 dd2]; cbn [datetime.year datetime.month datetime.day] in *.
  rewrite <- !app_assoc in Heq.
  apply app_inj_2 in Heq as [Hyear Heq]; [|reflexivity].
  unfold datetime.pad2 in Heq. cbn [app chars] in Heq.
  injection Heq as Hm1' Hm2' Hd1' Hd2'.
  f_equal.
  - apply str_inj; [lia..|done].
  - apply pad2_inj; [lia..|]. unfold datetime.pad2. congruence.
  - apply pad2_inj; [lia..|]. unfold datetime.pad2. congruence.
Qed.

(** X2.  The date [_parse_date] reads from the name generated for a day of
    the year 1000 or a later one is that day, written as year, month name
    and day.  On the name generated for an earlier day, which has fewer
    than eight digits, the assertion of [_parse_date] fails.  The key of a
    day is never [ALL], which is what the name [full.db] gives. *)
Theorem parse_date_round_trip (d : datetime.t) :
  datetime.valid d = true ->
  (1000 <= datetime.year d ->
   _parse_date (database_filename_of d) = Ok (datetime.strftime_Y_b_d d))
  /\ (datetime.year d < 1000 ->
      _parse_date (database_filename_of d) = Raise AssertionError)
  /\ datetime.strftime_Y_b_d d <> "ALL"
  /\ _parse_date "full.db" = Ok "ALL".
Proof.
  intros Hv. split; [by apply parse_date_generated|].
  split; [by apply parse_date_short_year|]. split; [|reflexivity].
  unfold datetime.strftime_Y_b_d. intros Heq%(f_equal chars).
  rewrite !chars_app, !chars_text in Heq. apply (f_equal length) in Heq.
  rewrite !length_app, month_abbr_length in Heq. cbn in Heq. lia.
Qed.

Lemma parse_date_round_trip_witness :
  _parse_date (database_filename_of (datetime.mk 2017 10 29)) = Ok "2017 Oct 29"
  /\ _parse_date (database_filename_of (datetime.mk 999 12 31)) = Raise AssertionError.
Proof.
  split.
  - apply (parse_date_round_trip (datetime.mk 2017 10 29)); [reflexivity|cbn; lia].
  - apply (parse_date_round_trip (datetime.mk 999 12 31)); [reflexivity|cbn; lia].
Defined.

(** X3.  Different days have different file names and different date
    keys, so no two days of a range share a file or a row. *)
Theorem day_names_and_keys_differ (d1 d2 : datetime.t) :
  datetime.valid d1 = true -> datetime.valid d2 = true -> d1 <> d2 ->
  database_filename_of d1 <> database_filename_of d2
  /\ datetime.strftime_Y_b_d d1 <> datetime.strftime_Y_b_d d2.
Proof.
  intros H1 H2 Hne. split; intros Heq; apply Hne.
  - by apply strftime_Ymd_inj.
  - by apply strftime_Y_b_d_inj.
Qed.

Lemma day_names_and_keys_differ_witness :
  database_filename_of (datetime.mk 2017 10 29) <> database_filename_of (datetime.mk 1917 10 29)
  /\ datetime.strftime_Y_b_d (datetime.mk 2017 10 29)
     <> datetime.strftime_Y_b_d (datetime.mk 1917 10 29).
Proof.
  apply (day_names_and_keys_differ (datetime.mk 2017 10 29) (datetime.mk 1917 10 29));
    [reflexivity|reflexivity|discriminate].
Defined.

(** ** The file names of any range *)

Lemma toordinal_inj (a b : datetime.t) :
  datetime.valid a = true -> datetime.valid b = true ->
  datetime.toordinal a = datetime.toordinal b -> a = b.
Proof.
  intros Ha Hb Heq. apply ltb_trichotomy.
  - destruct (datetime.ltb a b) eqn:Hlt; [|done].
    pose proof (toordinal_lt _ _ Ha Hb Hlt). lia.
  - destruct (datetime.ltb b a) eqn:Hlt; [|done].
    pose proof (toordinal_lt _ _ Hb Ha Hlt). lia.
Qed.

Lemma add_day_overflow (d : datetime.t) (e : exn) :
  datetime.add_day d = Raise e -> e = OverflowError.
Proof.
  unfold datetime.add_day. repeat case_match; congruence.
Qed.

Lemma filenames_loop_behaviour (end_date : datetime.t) (fuel : nat) :
  forall start_date database_filenames,
    datetime.valid start_date = true ->
    last_ordinal - datetime.toordinal start_date <= Z.of_nat fuel ->
    (exists earlier final,
        filenames_loop fuel start_date end_date database_filenames
        = Some (Ok (database_filenames ++ (database_filename_of <$> earlier ++ [final])))
        /\ head (earlier ++ [final]) = Some start_date
        /\ Forall (fun d => datetime.valid d = true) (earlier ++ [final])
        /\ datetime.toordinal <$> earlier ++ [final]
           = seqZ (datetime.toordinal start_date) (Z.of_nat (length earlier) + 1)
        /\ Forall (fun d => _equal_dates d end_date = false) earlier
        /\ _equal_dates final end_date = true)
    \/ (filenames_loop fuel start_date end_date database_filenames
        = Some (Raise OverflowError)
        /\ forall day, datetime.valid day = true ->
             datetime.toordinal start_date <= datetime.toordinal day ->
             _equal_dates day end_date = false).
Proof.
  induction fuel as [|fuel IH]; intros d acc Hv Hfuel; cbn [filenames_loop];
    destruct (_equal_dates d end_date) eqn:Heq.
  1,3: left; exists [], d; cbn; repeat split; try done;
       by apply Forall_singleton.
  - destruct (datetime.add_day d) as [next|e] eqn:Hnext.
    + destruct (add_day_ok _ _ Hv Hnext) as (Hv' & Hord & _).
      pose proof (toordinal_bound next Hv'). lia.
    + right. rewrite (add_day_overflow _ _ Hnext). split; [done|].
      intros day Hday Hle. pose proof (toordinal_bound day Hday).
      pose proof (add_day_raise _ _ Hv Hnext).
      by rewrite (toordinal_inj day d) by (try done; lia).
  - destruct (datetime.add_day d) as [next|e] eqn:Hnext.
    + destruct (add_day_ok _ _ Hv Hnext) as (Hv' & Hord & _).
      destruct (IH next (acc ++ [datetime.strftime_Ymd d +:+ ".db"]) Hv')
        as [(earlier & final & Hloop & Hhead & Hvalid & Hords & Hne & Hfinal)
           |[Hloop Hnone]]; [lia| |].
      * left. exists (d :: earlier), final. rewrite Hloop, <- app_assoc.
        repeat split; try done.
        -- by apply Forall_cons.
        -- cbn [app fmap list_fmap length]. rewrite (seqZ_cons _ (_ + 1)) by lia.
           change (list_fmap _ _ datetime.toordinal (earlier ++ [final]))
             with (datetime.toordinal <$> earlier ++ [final]).
           rewrite Hords. do 2 f_equal; lia.
        -- by apply Forall_cons.
      * right. split; [done|]. intros day Hday Hle.
        destruct (decide (datetime.toordinal day = datetime.toordinal d)) as [Hsame|Hlater].
        -- by rewrite (toordinal_inj day d).
        -- apply Hnone; [done|lia].
    + right. rewrite (add_day_overflow _ _ Hnext). split; [done|].
      intros day Hday Hle. pose proof (toordinal_bound day Hday).
      pose proof (add_day_raise _ _ Hv Hnext).
      by rewrite (toordinal_inj day d) by (try done; lia).
Qed.

(** X4.  For a start date and an end date that is not before it (or no
    end date, which stands for today), [generated_database_filenames]
    always returns.  It gives the names of the days from the start date
    on, one after the other, up to the first day that [_equal_dates] takes
    for the end date, which is a day with the month, the day of the month
    and the last two digits of the year of the end date; when no day up to
    9999-12-31 is one, it raises [OverflowError]. *)
Theorem generated_filenames_behaviour (today start_date : datetime.t)
    (end_date : option datetime.t) :
  datetime.valid start_date = true ->
  from_option (fun e => datetime.ltb e start_date = false) True end_date ->
  (exists earlier final,
      generated_database_filenames today (Some start_date) end_date
      = Some (Ok (database_filename_of <$> earlier ++ [final]))
      /\ head (earlier ++ [final]) = Some start_date
      /\ Forall (fun d => datetime.valid d = true) (earlier ++ [final])
      /\ datetime.toordinal <$> earlier ++ [final]
         = seqZ (datetime.toordinal start_date) (Z.of_nat (length earlier) + 1)
      /\ Forall (fun d => _equal_dates d (default today end_date) = false) earlier
      /\ _equal_dates final (default today end_date) = true)
  \/ (generated_database_filenames today (Some start_date) end_date
      = Some (Raise OverflowError)
      /\ forall day, datetime.valid day = true ->
           datetime.toordinal start_date <= datetime.toordinal day ->
           _equal_dates day (default today end_date) = false).
Proof.
  intros Hv Hend. unfold generated_database_filenames.
  replace (match end_date with Some e => datetime.ltb e start_date | None => false end)
    with false by (by destruct end_date).
  pose proof (toordinal_bound start_date Hv).
  apply (filenames_loop_behaviour (default today end_date) _ start_date []); [done|lia].
Qed.

Lemma generated_filenames_behaviour_witness :
  exists names,
    generated_database_filenames (datetime.mk 2017 11 2)
      (Some (datetime.mk 2017 10 29)) None = Some (Ok names)
    /\ length names = 5%nat.
Proof.
  destruct (generated_filenames_behaviour (datetime.mk 2017 11 2)
              (datetime.mk 2017 10 29) None eq_refl I)
    as [(earlier & final & Hnames & _)|[Hraise _]].
  - exists (database_filename_of <$> earlier ++ [final]). split; [exact Hnames|].
    assert (Hrun : generated_database_filenames (datetime.mk 2017 11 2)
                     (Some (datetime.mk 2017 10 29)) None
                   = Some (Ok ["20171029.db"; "20171030.db"; "20171031.db";
                               "20171101.db"; "20171102.db"]))
      by (vm_compute; reflexivity).
    rewrite Hrun in Hnames. injection Hnames as <-. reflexivity.
  - exfalso. vm_compute in Hraise. discriminate Hraise.
Defined.

(** ** Scans in any order *)

Lemma accumulate_lookup dir key_type database_filenames : forall d d' k,
  accumulate dir key_type database_filenames d = Ok d' ->
  d' !! k = total_after (d !! k) (seconds_of dir key_type k database_filenames).
Proof.
  unfold accumulate, seconds_of.
  induction database_filenames as [|f fs IH]; intros d d' k; cbn [for_each].
  - intros [= <-]. unfold total_after. destruct (d !! k); simpl; f_equal; lia.
  - destruct (populate_database_dict dir f d (Some key_type)) as [d1|e] eqn:H1;
      [|discriminate].
    cbn [mbind result_bind]. intros Hd'.
    rewrite (IH _ _ k Hd'), (populate_lookup _ _ _ _ _ k H1).
    apply total_after_app.
Qed.

Lemma for_each_add_line_any_dict key_type file_date data : forall d1 d2 d1',
  for_each (add_line key_type file_date) data d1 = Ok d1' ->
  exists d2', for_each (add_line key_type file_date) data d2 = Ok d2'.
Proof.
  induction data as [|l data IH]; intros d1 d2 d1'; cbn [for_each].
  - by exists d2.
  - destruct l as [path seconds|e]; [|discriminate].
    assert (Hok : forall d, exists d', add_line key_type file_date d (Entry path seconds)
                                     = Ok d').
    { intros d. unfold add_line. destruct (d !! _); by eexists. }
    destruct (Hok d1) as [d1'' ->], (Hok d2) as [d2'' ->].
    cbn [mbind result_bind]. apply IH.
Qed.

(** Whether a file can be scanned does not depend on the dictionary. *)
Lemma populate_any_dict dir database_filename key_type d1 d2 d1' :
  populate_database_dict dir database_filename d1 key_type = Ok d1' ->
  exists d2', populate_database_dict dir database_filename d2 key_type = Ok d2'.
Proof.
  unfold populate_database_dict.
  destruct (contents dir database_filename) as [data|]; [|by exists d2].
  destruct (if decide (default FILETYPE key_type = DATE) then _ else _) as [date|e];
    [|discriminate].
  cbn [mbind result_bind]. apply for_each_add_line_any_dict.
Qed.

Lemma accumulate_ok dir key_type database_filenames : forall d,
  (exists d', accumulate dir key_type database_filenames d = Ok d')
  <-> Forall (fun f => exists d', populate_database_dict dir f ∅ (Some key_type) = Ok d')
             database_filenames.
Proof.
  unfold accumulate.
  induction database_filenames as [|f fs IH]; intros d; cbn [for_each].
  - split; [by constructor|by exists d].
  - rewrite Forall_cons. split.
    + intros [d' Hd'].
      destruct (populate_database_dict dir f d (Some key_type)) as [d1|e] eqn:H1;
        [|discriminate].
      split; [by eapply populate_any_dict|]. apply (IH d1). by exists d'.
    + intros [[d0 H0] Hfs].
      destruct (populate_any_dict _ _ _ _ d _ H0) as [d1 ->].
      cbn [mbind result_bind]. by apply IH.
Qed.

Lemma sum_Z_Permutation (l1 l2 : list Z) : l1 ≡ₚ l2 -> sum_Z l1 = sum_Z l2.
Proof.
  unfold sum_Z. induction 1; cbn; lia.
Qed.

Lemma total_after_Permutation before (l1 l2 : list Z) :
  l1 ≡ₚ l2 -> total_after before l1 = total_after before l2.
Proof.
  intros Hperm. unfold total_after. rewrite (sum_Z_Permutation _ _ Hperm).
  destruct before, l1, l2; try done.
  - by apply Permutation_nil_cons in Hperm.
  - symmetry in Hperm. by apply Permutation_nil_cons in Hperm.
Qed.

Lemma accumulate_Permutation dir key_type (l1 l2 : list string) d d' :
  l1 ≡ₚ l2 ->
  accumulate dir key_type l1 d = Ok d' -> accumulate dir key_type l2 d = Ok d'.
Proof.
  intros Hperm H1.
  assert (H2 : exists d2, accumulate dir key_type l2 d = Ok d2).
  { apply accumulate_ok. rewrite <- Hperm. apply (accumulate_ok _ _ _ d). by exists d'. }
  destruct H2 as [d2 H2]. rewrite H2. f_equal. apply map_eq. intros k.
  rewrite (accumulate_lookup _ _ _ _ _ k H1), (accumulate_lookup _ _ _ _ _ k H2).
  apply total_after_Permutation. unfold seconds_of. by rewrite Hperm.
Qed.

(** X5.  The dictionary a scan builds does not depend on the order of the
    files: scanning the same files in another order succeeds as well and
    gives the same totals. *)
Theorem accumulate_any_order (dir : directory) (key_type : DatabaseDisplayKey)
    (files files' : list string) (d d' : gmap string Z) :
  files ≡ₚ files' ->
  accumulate dir key_type files d = Ok d' ->
  accumulate dir key_type files' d = Ok d'.
Proof. apply accumulate_Permutation. Qed.

Lemma accumulate_any_order_witness :
  accumulate sample_dir FILETYPE ["20171030.db"; "20171029.db"] ∅
  = Ok (<["a" := 63]> (<["*.py" := 12]> ∅)).
Proof.
  apply (accumulate_any_order sample_dir FILETYPE ["20171029.db"; "20171030.db"]).
  - apply Permutation_swap.
  - vm_compute. reflexivity.
Defined.

(** X6.  The report of the check does not depend on the order in which
    [os.listdir] gives the names of the directory. *)
Theorem check_database_any_listing (dir : directory) (names : list string)
    (s : check_locals) :
  listdir dir ≡ₚ names ->
  check_database dir = Ok s ->
  check_database {| listdir := names; contents := contents dir |} = Ok s.
Proof.
  intros Hperm. unfold check_database. rewrite !for_each_date_databases.
  cbn [listdir].
  destruct (accumulate dir PATH _ ∅) as [by_date|e] eqn:Hdate; [|discriminate].
  assert (Hdate' : accumulate {| listdir := names; contents := contents dir |} PATH
                     (filter (fun filename => filename <> "full.db") names) ∅
                   = Ok by_date).
  { apply (accumulate_Permutation _ _ _ _ _ _ (filter_Permutation _ _ _ Hperm)) in Hdate.
    exact Hdate. }
  rewrite Hdate'. done.
Qed.

Lemma check_database_any_listing_witness :
  exists s,
    check_database sample_dir = Ok s
    /\ check_database {| listdir := ["full.db"; "20171030.db"; "20171029.db"];
                         contents := contents sample_dir |} = Ok s.
Proof.
  assert (Hs : exists s, check_database sample_dir = Ok s)
    by (vm_compute; eexists; reflexivity).
  destruct Hs as [s Hs]. exists s. split; [exact Hs|].
  apply (check_database_any_listing sample_dir); [|exact Hs].
  cbn [sample_dir listdir].
  apply (Permutation_cons_append ["full.db"; "20171030.db"]).
Defined.

(** X7.  A scan never removes a key, and when the totals of the scanned
    records are not negative it never lowers a stored total. *)
Theorem accumulate_keeps_keys (dir : directory) (key_type : DatabaseDisplayKey)
    (files : list string) (d d' : gmap string Z) (k : string) (t : Z) :
  accumulate dir key_type files d = Ok d' ->
  d !! k = Some t ->
  exists t', d' !! k = Some t'
             /\ (Forall (nonnegative_file dir) files -> t <= t').
Proof.
  intros Hacc Hk. rewrite (accumulate_lookup _ _ _ _ _ k Hacc), Hk.
  unfold total_after. cbn [default]. eexists. split; [reflexivity|].
  intros Hnonneg.
  assert (Hsum : 0 <= sum_Z (seconds_of dir key_type k files)).
  { unfold seconds_of. clear Hacc. induction Hnonneg as [|f fs Hf _ IH]; [done|].
    cbn [mbind list_bind]. unfold sum_Z in *. rewrite foldr_app.
    assert (Hfold : forall (l : list Z) a, Forall (fun z => 0 <= z) l -> 0 <= a ->
                                          0 <= foldr Z.add a l).
    { induction 1; cbn; lia. }
    apply Hfold; [|exact IH].
    unfold seconds_of_file, nonnegative_file in *.
    destruct (contents dir f) as [data|]; [|constructor].
    apply Forall_fmap. apply Forall_forall. intros r [_ Hr]%list_elem_of_filter.
    by eapply Forall_forall in Hf. }
  unfold id. lia.
Qed.

Lemma accumulate_keeps_keys_witness :
  exists t', (<["a" := 63]> (<["*.py" := 12]> ∅) : gmap string Z) !! "*.py" = Some t'.
Proof.
  destruct (accumulate_keeps_keys sample_dir FILETYPE ["20171030.db"]
              (<["a" := 63]> (<["*.py" := 5]> ∅)) (<["a" := 63]> (<["*.py" := 12]> ∅))
              "*.py" 5) as (t' & Ht' & _).
  - vm_compute. reflexivity.
  - reflexivity.
  - exists t'. exact Ht'.
Defined.

(** ** The directories of an absolute path *)

Lemma rstrip_snoc_same c l : Str.rstrip c (l ++ [c]) = Str.rstrip c l.
Proof.
  induction l as [|x l IH]; cbn [app Str.rstrip].
  - by rewrite decide_True.
  - by rewrite IH.
Qed.

Lemma rstrip_snoc_other c l x : x <> c -> Str.rstrip c (l ++ [x]) = l ++ [x].
Proof.
  intros Hx. induction l as [|y l IH]; cbn [app Str.rstrip].
  - by rewrite decide_False.
  - rewrite IH. by destruct l.
Qed.

Lemma absolute_path_snoc names name :
  absolute_path (names ++ [name])
  = match names with [] => [] | _ => absolute_path names end ++ sep :: name.
Proof.
  assert (Hsnoc : forall l : list (list ascii),
            concat ((fun name => sep :: name) <$> l ++ [name])
            = concat ((fun name => sep :: name) <$> l) ++ sep :: name).
  { intros l. rewrite fmap_app, concat_app. cbn. by rewrite app_nil_r. }
  unfold absolute_path. destruct names as [|n names].
  - cbn. by rewrite app_nil_r.
  - rewrite <- Hsnoc. reflexivity.
Qed.

Lemma split_absolute_path names name :
  Forall is_name names -> is_name name ->
  posixpath.split (absolute_path (names ++ [name])) = (absolute_path names, name).
Proof.
  intros Hnames [Hne Hsep]. rewrite absolute_path_snoc.
  set (before := match names with [] => [] | _ => absolute_path names end).
  unfold posixpath.split, Str.upto, Str.from. rewrite rfind_last by done.
  replace (Z.to_nat (Z.of_nat (length before) + 1)) with (length (before ++ [sep]))
    by (rewrite length_app; cbn; lia).
  replace (before ++ sep :: name) with ((before ++ [sep]) ++ name)
    by (by rewrite <- app_assoc).
  rewrite take_app_length, drop_app_length.
  f_equal. destruct names as [|n names _] using rev_ind; [done|].
  subst before.
  replace (match names ++ [n] with [] => [] | _ => absolute_path (names ++ [n]) end)
    with (absolute_path (names ++ [n])) by (by destruct names).
  apply Forall_app in Hnames as [_ [Hn _]%Forall_cons].
  destruct Hn as [Hnne Hnsep].
  destruct n as [|x n _] using rev_ind; [done|].
  apply not_elem_of_app in Hnsep as [_ Hx%not_elem_of_cons]. destruct Hx as [Hx _].
  rewrite absolute_path_snoc.
  set (before := match names with [] => [] | _ => absolute_path names end).
  rewrite bool_decide_eq_true_2.
  - rewrite rstrip_snoc_same. rewrite app_comm_cons, app_assoc.
    by apply rstrip_snoc_other.
  - split; [by destruct before|].
    intros Hall.
    assert (Hin : x ∈ (before ++ sep :: n ++ [x]) ++ [sep]) by set_solver.
    rewrite Hall in Hin. apply elem_of_replicate in Hin as [Hin _]. done.
Qed.

Lemma directories_loop_absolute (names : list (list ascii)) :
  forall name fuel directories,
    Forall is_name names -> is_name name ->
    (length (absolute_path names) + length name <= fuel)%nat ->
    directories_loop fuel (absolute_path names) name directories
    = Some (directories ++ text name :: reverse (text <$> names), [sep]).
Proof.
  induction names as [|n names IH] using rev_ind;
    intros name fuel directories Hnames Hname Hfuel.
  - destruct Hname as [Hne _]. destruct name as [|c name]; [done|].
    destruct fuel as [|fuel]; [cbn in Hfuel; lia|].
    cbn [directories_loop]. change (posixpath.split (absolute_path [])) with ([sep], @nil ascii).
    by destruct fuel.
  - pose proof Hnames as Hnames'.
    apply Forall_app in Hnames as [Hnames [Hn _]%Forall_cons].
    pose proof Hname as [Hne _]. destruct name as [|c name]; [done|].
    destruct fuel as [|fuel]; [cbn in Hfuel; lia|].
    cbn [directories_loop]. rewrite split_absolute_path by done.
    rewrite IH; [|done..|].
    + rewrite fmap_app, reverse_app, <- app_assoc. done.
    + pose proof (split_length _ _ _ (split_absolute_path names n Hnames Hn)).
      cbn [length] in Hfuel. lia.
Qed.

Lemma directories_of_absolute_path (names : list (list ascii)) :
  Forall is_name names ->
  _directories_in_path (text (absolute_path names)) = Some ("/" :: (text <$> names)).
Proof.
  intros Hnames. unfold _directories_in_path. rewrite chars_text.
  destruct names as [|n names _] using rev_ind; [reflexivity|].
  apply Forall_app in Hnames as [Hnames [Hn _]%Forall_cons].
  pose proof (split_length _ _ _ (split_absolute_path names n Hnames Hn)).
  rewrite split_absolute_path by done.
  rewrite directories_loop_absolute by done. cbn [mbind option_bind].
  cbn [app]. rewrite reverse_cons, reverse_app, reverse_involutive, fmap_app.
  done.
Qed.

(** X8.  The directories of an absolute path whose components are names
    (not empty, without a separator) are the root [/] and then the
    components in order; for the root alone they are the root. *)
Theorem directories_in_absolute_path (names : list (list ascii)) :
  Forall is_name names ->
  _directories_in_path (text (absolute_path names)) = Some ("/" :: (text <$> names)).
Proof. apply directories_of_absolute_path. Qed.

Lemma directories_in_absolute_path_witness :
  _directories_in_path "/tmp/crontab.t1M3Tp/crontab"
  = Some ["/"; "tmp"; "crontab.t1M3Tp"; "crontab"].
Proof.
  apply (directories_in_absolute_path
           [chars "tmp"; chars "crontab.t1M3Tp"; chars "crontab"]).
  repeat constructor; try discriminate;
    apply (bool_decide_unpack _); vm_compute; exact I.
Defined.

(** ** Parents and children in the path tree *)

Lemma path_trie_node_value database path_trie directories node :
  build_path_trie database = Some path_trie ->
  node_at path_trie directories = Some node ->
  value node = sum_Z (seconds_through directories database).
Proof.
  unfold build_path_trie. intros Hbuild Hnode.
  destruct (insert_entries_value database (mkTrieNode 0 ∅)) as (t & Ht & Hvalue).
  rewrite Hbuild in Ht. injection Ht as <-.
  specialize (Hvalue directories). rewrite Hnode in Hvalue. cbn [fmap option_fmap option_map] in Hvalue.
  unfold total_after in Hvalue.
  destruct directories as [|x directories]; cbn in Hvalue.
  - injection Hvalue as Hvalue. lia.
  - rewrite lookup_empty in Hvalue. cbn in Hvalue.
    destruct (seconds_through (x :: directories) database); [done|].
    injection Hvalue as ->. unfold sum_Z. cbn. lia.
Qed.

Lemma sum_filter_mono (P1 P2 : string * Z -> Prop)
    `{!forall e, Decision (P1 e)} `{!forall e, Decision (P2 e)} (l : list (string * Z)) :
  (forall e, P1 e -> P2 e) -> Forall (fun e => 0 <= e.2) l ->
  0 <= sum_Z (filter P1 l).*2 <= sum_Z (filter P2 l).*2.
Proof.
  intros Himpl. unfold sum_Z. induction 1 as [|e l He _ IH]; [cbn; lia|].
  rewrite !filter_cons.
  destruct (decide (P1 e)) as [H1|H1], (decide (P2 e)) as [H2|H2];
    cbn [fmap list_fmap foldr]; try lia.
  by apply Himpl in H1.
Qed.

(** X9.  When no entry has a negative time, the value of a node of the
    path tree is not negative and not greater than the value of its
    parent: a directory never shows less time than something in it. *)
Theorem path_trie_child_below_parent (database : list (string * Z))
    (path_trie parent child : TrieNode) (directories : list string) (directory : string) :
  build_path_trie database = Some path_trie ->
  Forall (fun entry => 0 <= entry.2) database ->
  node_at path_trie directories = Some parent ->
  node_at path_trie (directories ++ [directory]) = Some child ->
  0 <= value child <= value parent.
Proof.
  intros Hbuild Hnonneg Hparent Hchild.
  rewrite (path_trie_node_value _ _ _ _ Hbuild Hparent),
    (path_trie_node_value _ _ _ _ Hbuild Hchild).
  unfold seconds_through. apply sum_filter_mono; [|done].
  intros [file_path raw_seconds]. cbn [fst]. unfold passes_through.
  destruct (_directories_in_path file_path) as [path_directories|]; [|done].
  intros Hprefix%Is_true_true%bool_decide_eq_true.
  apply Is_true_true, bool_decide_eq_true.
  etrans; [|exact Hprefix]. by apply prefix_app_r.
Qed.

Lemma path_trie_child_below_parent_witness :
  exists path_trie parent child,
    build_path_trie [("/a/b", 10); ("/a/c", 20)] = Some path_trie
    /\ node_at path_trie ["/"; "a"] = Some parent
    /\ node_at path_trie (["/"; "a"] ++ ["b"]) = Some child
    /\ 0 <= value child <= value parent.
Proof.
  assert (Ht : exists path_trie parent child,
             build_path_trie [("/a/b", 10); ("/a/c", 20)] = Some path_trie
             /\ node_at path_trie ["/"; "a"] = Some parent
             /\ node_at path_trie (["/"; "a"] ++ ["b"]) = Some child)
    by (vm_compute; do 3 eexists; repeat split; reflexivity).
  destruct Ht as (path_trie & parent & child & Hbuild & Hparent & Hchild).
  exists path_trie, parent, child.
  split; [exact Hbuild|]. split; [exact Hparent|]. split; [exact Hchild|].
  apply (path_trie_child_below_parent [("/a/b", 10); ("/a/c", 20)]
           path_trie parent child ["/"; "a"] "b" Hbuild); [|exact Hparent|exact Hchild].
  repeat constructor; discriminate.
Defined.

Lemma passes_through_absolute file_path directory :
  is_absolute_path file_path ->
  passes_through [directory] file_path = bool_decide (directory = "/").
Proof.
  intros (names & Hnames & ->). unfold passes_through.
  rewrite directories_of_absolute_path by done.
  apply bool_decide_ext. split.
  - by intros ?%prefix_cons_inv_1.
  - intros ->. apply prefix_cons, prefix_nil.
Qed.

(** X10.  When every entry has an absolute path made of names, the root of
    the path tree has no child but [/], and when there is an entry that
    child is there and carries the value of the root, the time of all
    entries. *)
Theorem path_trie_single_root (database : list (string * Z)) (path_trie : TrieNode) :
  Forall (fun entry => is_absolute_path entry.1) database ->
  build_path_trie database = Some path_trie ->
  (forall directory, directory <> "/" -> goto path_trie !! directory = None)
  /\ (database <> [] ->
      exists root, goto path_trie !! "/" = Some root
                   /\ value root = value path_trie
                   /\ value path_trie = sum_Z database.*2).
Proof.
  intros Habs Hbuild.
  assert (Hthrough : forall directory,
            seconds_through [directory] database
            = if bool_decide (directory = "/") then database.*2 else []).
  { clear Hbuild. intros directory. unfold seconds_through.
    destruct (decide (directory = "/")) as [->|Hne].
    - rewrite bool_decide_eq_true_2 by done. f_equal.
      induction Habs as [|[file_path raw_seconds] l Hentry _ IH]; [done|].
      rewrite filter_cons_True; [by rewrite IH|].
      cbn [fst]. rewrite passes_through_absolute by done.
      by rewrite bool_decide_eq_true_2.
    - rewrite bool_decide_eq_false_2 by done.
      replace (filter (fun entry : string * Z => passes_through [directory] entry.1)
                      database) with (@nil (string * Z)); [done|].
      induction Habs as [|[file_path raw_seconds] l Hentry _ IH]; [done|].
      rewrite filter_cons_False; [done|].
      cbn [fst]. rewrite passes_through_absolute by done.
      rewrite bool_decide_eq_false_2 by done. tauto. }
  destruct (insert_entries_value database (mkTrieNode 0 ∅)) as (t & Ht & Hvalue).
  unfold build_path_trie in Hbuild. rewrite Hbuild in Ht. injection Ht as <-.
  split.
  - intros directory Hne. specialize (Hvalue [directory]).
    rewrite Hthrough, bool_decide_eq_false_2 in Hvalue by done.
    cbn in Hvalue. rewrite lookup_empty in Hvalue. cbn in Hvalue.
    by destruct (goto path_trie !! directory).
  - intros Hdb. pose proof (Hvalue ["/"]) as Hroot. pose proof (Hvalue []) as Hall.
    rewrite Hthrough, bool_decide_eq_true_2 in Hroot by done.
    rewrite seconds_through_root in Hall.
    cbn in Hroot, Hall. rewrite lookup_empty in Hroot. cbn in Hroot.
    unfold total_after in Hroot, Hall. cbn in Hall.
    destruct (database.*2) as [|z secs] eqn:Hsecs; [by destruct database|].
    destruct (goto path_trie !! "/") as [root|] eqn:Hgoto; [|done].
    exists root. cbn in Hroot. injection Hroot as Hroot. injection Hall as Hall.
    unfold sum_Z in *. cbn in *. repeat split; lia.
Qed.

Lemma path_trie_single_root_witness :
  exists path_trie,
    build_path_trie [("/a/b", 10); ("/a/c", 20)] = Some path_trie
    /\ forall directory, directory <> "/" -> goto path_trie !! directory = None.
Proof.
  assert (Ht : exists path_trie,
             build_path_trie [("/a/b", 10); ("/a/c", 20)] = Some path_trie)
    by (vm_compute; eexists; reflexivity).
  destruct Ht as [path_trie Hbuild]. exists path_trie. split; [exact Hbuild|].
  apply (path_trie_single_root [("/a/b", 10); ("/a/c", 20)]); [|exact Hbuild].
  repeat constructor.
  - exists [chars "a"; chars "b"]. split; [|reflexivity].
    repeat constructor; try discriminate;
      apply (bool_decide_unpack _); vm_compute; exact I.
  - exists [chars "a"; chars "c"]. split; [|reflexivity].
    repeat constructor; try discriminate;
      apply (bool_decide_unpack _); vm_compute; exact I.
Defined.

(** ** The date view *)

Lemma seconds_of_file_date dir (d : datetime.t) (k : string) :
  datetime.valid d = true -> 1000 <= datetime.year d ->
  seconds_of_file dir DATE k (database_filename_of d)
  = if decide (k = datetime.strftime_Y_b_d d)
    then match contents dir (database_filename_of d) with
         | Some data => (entries_of data).*2
         | None => []
         end
    else [].
Proof.
  intros Hv Hyear. unfold seconds_of_file, key_of.
  rewrite (parse_date_generated d Hv Hyear : _parse_date (database_filename_of d) = _).
  cbn [filetitle_of].
  destruct (contents dir (database_filename_of d)) as [data|]; [|by case_decide].
  generalize (entries_of data). intros entries.
  case_decide as Hk.
  - f_equal. induction entries as [|r entries IH]; [done|].
    rewrite filter_cons_True by done. by rewrite IH.
  - replace (filter (fun _ : string * Z => datetime.strftime_Y_b_d d = k) entries)
      with (@nil (string * Z)); [done|].
    induction entries as [|r entries IH]; [done|].
    rewrite filter_cons_False by congruence. done.
Qed.

Lemma main_step_date dir (d0 d1 : gmap string Z) database database_filename date :
  populate_database_dict dir database_filename d0 (Some DATE) = Ok d1 ->
  _parse_date database_filename = Ok date ->
  main_step dir DATE (d0, database) database_filename
  = Ok (d1, match d1 !! date with
            | Some t => database ++ [(date, t)]
            | None => database
            end).
Proof.
  intros Hpop Hdate. unfold main_step. rewrite Hpop. cbn [mbind result_bind].
  rewrite decide_True by done. rewrite Hdate. cbn [mbind result_bind].
  by destruct (d1 !! date).
Qed.

(** The turn of the loop for a day before the year 1000 raises: when the
    scan of its file does not, [_parse_date] does on line 88. *)
Lemma main_step_short_year dir (day : datetime.t) (st : gmap string Z * list (string * Z)) :
  datetime.valid day = true -> datetime.year day < 1000 ->
  exists e, main_step dir DATE st (database_filename_of day) = Raise e.
Proof.
  intros Hv Hyear. destruct st as [d0 db0]. unfold main_step.
  destruct (populate_database_dict dir (database_filename_of day) d0 (Some DATE))
    as [d1|e]; [|by eexists].
  cbn [mbind result_bind]. rewrite decide_True by done.
  unfold database_filename_of. rewrite (parse_date_short_year day Hv Hyear).
  by eexists.
Qed.

Lemma date_rows_from dir (days : list datetime.t) :
  forall d0 db0 d db,
    Forall (fun day => datetime.valid day = true) days -> NoDup days ->
    (forall day, day ∈ days -> d0 !! datetime.strftime_Y_b_d day = None) ->
    for_each (main_step dir DATE) (database_filename_of <$> days) (d0, db0) = Ok (d, db) ->
    db = db0 ++ omap (day_row dir) days
    /\ Forall (fun day => 1000 <= datetime.year day) days.
Proof.
  induction days as [|day days IH]; intros d0 db0 d db Hvalid Hnodup Hfresh.
  - cbn. intros [= <- <-]. by rewrite app_nil_r.
  - apply Forall_cons in Hvalid as [Hv Hvalid].
    apply NoDup_cons in Hnodup as [Hnotin Hnodup].
    rewrite fmap_cons, for_each_cons.
    destruct (Z.lt_ge_cases (datetime.year day) 1000) as [Hshort|Hyear].
    { destruct (main_step_short_year dir day (d0, db0) Hv Hshort) as [e ->].
      discriminate. }
    destruct (populate_database_dict dir (database_filename_of day) d0 (Some DATE))
      as [d1|e] eqn:Hpop.
    2: { unfold main_step. rewrite Hpop. discriminate. }
    rewrite (main_step_date _ _ _ _ _ _ Hpop (parse_date_generated day Hv Hyear)).
    cbn [mbind result_bind]. intros Hrest.
    apply IH in Hrest as [Hrest Hyears]; [|done..|].
    + split; [|by constructor]. rewrite Hrest.
      change (omap (day_row dir) (day :: days))
        with (match day_row dir day with
              | Some row => row :: omap (day_row dir) days
              | None => omap (day_row dir) days
              end).
      generalize (omap (day_row dir) days). intros rows. unfold day_row.
      rewrite (populate_lookup _ _ _ _ _ (datetime.strftime_Y_b_d day) Hpop).
      rewrite Hfresh by left. rewrite seconds_of_file_date by done.
      rewrite decide_True by done.
      destruct (contents dir (database_filename_of day)) as [data|]; [|done].
      destruct (entries_of data) as [|r entries]; [done|].
      unfold total_after. rewrite fmap_cons. cbn [default].
      rewrite <- app_assoc. cbn [app]. by do 3 f_equal.
    + intros day' Hday'.
      rewrite (populate_lookup _ _ _ _ _ (datetime.strftime_Y_b_d day') Hpop).
      rewrite Hfresh by (by right). rewrite seconds_of_file_date by done.
      rewrite decide_False; [done|].
      intros Heq.
      apply strftime_Y_b_d_inj in Heq;
        [|exact (proj1 (Forall_forall _ _) Hvalid day' Hday')|done].
      by subst.
Qed.

(** X11.  When the loop of [main] comes to its end in the date view of a
    range of different days, raising nothing, the rows are, in the order
    of the days, one row for each day that has records, with the date of
    the day and the sum of the seconds of the records of its file; a day
    without a file or without records has no row.  Every day of such a
    range is of the year 1000 or a later one: on the name of an earlier
    day the loop raises, also when no file is there to scan. *)
Theorem date_view_rows (dir : directory) (days : list datetime.t)
    (time_per_type : gmap string Z) (database : list (string * Z)) :
  Forall (fun day => datetime.valid day = true) days -> NoDup days ->
  main_loop dir DATE (database_filename_of <$> days) = Ok (time_per_type, database) ->
  database = omap (day_row dir) days
  /\ Forall (fun day => 1000 <= datetime.year day) days.
Proof.
  intros Hvalid Hnodup Hloop.
  apply (date_rows_from dir days ∅ [] time_per_type database); try done.
Qed.

Lemma date_view_rows_witness :
  omap (day_row sample_dir)
       [datetime.mk 2017 10 29; datetime.mk 2017 10 30; datetime.mk 2017 10 31]
  = [("2017 Oct 29", 68); ("2017 Oct 30", 7)].
Proof.
  symmetry.
  apply (date_view_rows sample_dir
           [datetime.mk 2017 10 29; datetime.mk 2017 10 30; datetime.mk 2017 10 31]
           (<["2017 Oct 30" := 7]> (<["2017 Oct 29" := 68]> ∅))
           [("2017 Oct 29", 68); ("2017 Oct 30", 7)]).
  - repeat constructor.
  - apply (bool_decide_unpack _). vm_compute. exact I.
  - vm_compute. reflexivity.
Defined.

(** ** The rows of the views *)

#[local] Instance by_seconds_descending_total : Total by_seconds_descending.
Proof. intros x y. unfold by_seconds_descending. lia. Qed.

Lemma main_loop_accumulate dir key_type database_filenames :
  key_type <> DATE -> forall d database,
  for_each (main_step dir key_type) database_filenames (d, database)
  = d' ← accumulate dir key_type database_filenames d; Ok (d', database).
Proof.
  intros Hkey. unfold accumulate.
  assert (Hstep : forall d database f,
            main_step dir key_type (d, database) f
            = d1 ← populate_database_dict dir f d (Some key_type); Ok (d1, database)).
  { intros d database f. unfold main_step.
    destruct (populate_database_dict dir f d (Some key_type)); [|done].
    cbn [mbind result_bind]. by rewrite decide_False. }
  induction database_filenames as [|f fs IH]; intros d database; [done|].
  rewrite !for_each_cons, Hstep.
  destruct (populate_database_dict dir f d (Some key_type)) as [d1|e]; [|done].
  cbn [mbind result_bind]. apply IH.
Qed.

Section rows.
Context `{Re}.

(** X12.  In the date view the filter does not change the rows: they are
    built while the files are scanned, before the dictionary is filtered,
    so with any pattern that compiles the rows are those without a
    filter. *)
Theorem date_view_ignores_filter (dir : directory) (database_filenames : list string)
    (regex : string) (p : pattern) :
  compile regex = Ok p ->
  main_rows dir DATE (Some regex) database_filenames
  = main_rows dir DATE None database_filenames.
Proof.
  intros Hp. unfold main_rows.
  destruct (main_loop dir DATE database_filenames) as [[time_per_type database]|e];
    [|done].
  cbn [mbind result_bind main_database].
  by rewrite (filter_database_dict_filter _ _ _ Hp).
Qed.

(** X13.  In the views by path, file name and file type the rows are the
    entries of the dictionary, filtered when there is a filter, each once,
    in an order in which the seconds never increase. *)
Theorem ranked_rows_sorted (key_type : DatabaseDisplayKey) (filter : option string)
    (time_per_type : gmap string Z) (database rows : list (string * Z)) :
  key_type <> DATE -> key_type <> TREE ->
  main_database key_type filter (time_per_type, database) = Ok rows ->
  exists filtered,
    match filter with
    | Some regex => filter_database_dict time_per_type regex
    | None => Ok time_per_type
    end = Ok filtered
    /\ rows ≡ₚ map_to_list filtered
    /\ NoDup rows.*1
    /\ Sorted by_seconds_descending rows.
Proof.
  intros Hdate Htree. unfold main_database.
  destruct (match filter with Some _ => _ | None => _ end) as [filtered|e]; [|done].
  cbn [mbind result_bind]. intros [= <-]. exists filtered. split; [done|].
  assert (Hrows : merge_sort by_seconds_descending (map_to_list filtered)
                  ≡ₚ map_to_list filtered) by apply merge_sort_Permutation.
  destruct key_type; try done; (split; [exact Hrows|]; split;
    [rewrite Hrows; apply NoDup_fst_map_to_list|apply Sorted_merge_sort, _]).
Qed.

End rows.

Lemma date_view_ignores_filter_witness :
  @main_rows plain_re sample_dir DATE (Some "2018") ["20171029.db"; "20171030.db"]
  = @main_rows plain_re sample_dir DATE None ["20171029.db"; "20171030.db"].
Proof.
  apply (@date_view_ignores_filter plain_re sample_dir _ "2018" "2018"). reflexivity.
Defined.

Lemma ranked_rows_sorted_witness :
  exists rows,
    @main_database plain_re FILETYPE (Some "a") ({["*.py" := 12; "a" := 63; "ab" := 70]}, [])
    = Ok rows
    /\ Sorted by_seconds_descending rows.
Proof.
  assert (Hrows : exists rows,
             @main_database plain_re FILETYPE (Some "a")
               ({["*.py" := 12; "a" := 63; "ab" := 70]}, []) = Ok rows)
    by (vm_compute; eexists; reflexivity).
  destruct Hrows as [rows Hrows]. exists rows. split; [exact Hrows|].
  destruct (@ranked_rows_sorted plain_re FILETYPE (Some "a") _ _ _
              ltac:(discriminate) ltac:(discriminate) Hrows)
    as (filtered & _ & _ & _ & Hsorted).
  exact Hsorted.
Defined.

(** ** The sum of a view *)

Lemma overall_seconds_sum (database : list (string * Z)) :
  overall_seconds database = sum_Z database.*2.
Proof.
  unfold overall_seconds, sum_Z.
  assert (Hfold : forall (l : list (string * Z)) a,
            foldl (fun acc row => acc + row.2) a l = a + foldr Z.add 0 l.*2).
  { induction l as [|row l IH]; intros a; cbn; [lia|]. rewrite IH. lia. }
  rewrite Hfold. lia.
Qed.

Lemma dict_total_insert (d : gmap string Z) (k : string) (t : Z) :
  sum_Z (map_to_list (<[k := t]> d)).*2
  = sum_Z (map_to_list d).*2 - default 0 (d !! k) + t.
Proof.
  destruct (d !! k) as [t0|] eqn:Hk; cbn [default].
  - rewrite <- (insert_delete_eq d k t).
    rewrite <- (insert_delete_id d k t0 Hk) at 2.
    rewrite !(sum_Z_Permutation _ _ (fmap_Permutation snd _ _
               (map_to_list_insert _ _ _ (lookup_delete_eq d k)))).
    unfold sum_Z. cbn. lia.
  - rewrite (sum_Z_Permutation _ _ (fmap_Permutation snd _ _
               (map_to_list_insert _ _ _ Hk))).
    unfold sum_Z. cbn. lia.
Qed.

Lemma for_each_add_line_total key_type file_date data : forall d d',
  for_each (add_line key_type file_date) data d = Ok d' ->
  sum_Z (map_to_list d').*2 = sum_Z (map_to_list d).*2 + sum_Z (entries_of data).*2.
Proof.
  induction data as [|l data IH]; intros d d'; cbn [for_each].
  - intros [= <-]. change (sum_Z (entries_of []).*2) with 0. lia.
  - destruct l as [path seconds|e]; [|discriminate].
    destruct (add_line key_type file_date d (Entry path seconds)) as [d1|e] eqn:H1;
      [|discriminate].
    cbn [mbind result_bind]. intros Hd'. rewrite (IH _ _ Hd').
    assert (Hd1 : sum_Z (map_to_list d1).*2 = sum_Z (map_to_list d).*2 + seconds).
    { unfold add_line in H1.
      destruct (d !! filetitle_of key_type file_date path) as [t|] eqn:Hk;
        injection H1 as <-; rewrite dict_total_insert, Hk; cbn [default]; unfold id; lia. }
    rewrite Hd1.
    change (entries_of (Entry path seconds :: data))
      with ((path, seconds) :: entries_of data).
    rewrite fmap_cons. unfold sum_Z. cbn [foldr snd]. lia.
Qed.

Lemma sum_Z_app (l1 l2 : list Z) : sum_Z (l1 ++ l2) = sum_Z l1 + sum_Z l2.
Proof. unfold sum_Z. induction l1 as [|x l1 IH]; cbn; lia. Qed.

Lemma populate_total dir database_filename key_type d d' :
  populate_database_dict dir database_filename d (Some key_type) = Ok d' ->
  sum_Z (map_to_list d').*2
  = sum_Z (map_to_list d).*2
    + sum_Z match contents dir database_filename with
            | Some data => (entries_of data).*2
            | None => []
            end.
Proof.
  unfold populate_database_dict.
  destruct (contents dir database_filename) as [data|].
  - destruct (if decide (default FILETYPE (Some key_type) = DATE) then _ else _)
      as [date|e]; [|discriminate].
    cbn [mbind result_bind]. apply for_each_add_line_total.
  - intros [= <-]. change (sum_Z []) with 0. lia.
Qed.

Lemma accumulate_total dir key_type database_filenames : forall d d',
  accumulate dir key_type database_filenames d = Ok d' ->
  sum_Z (map_to_list d').*2
  = sum_Z (map_to_list d).*2 + sum_Z (all_seconds dir database_filenames).
Proof.
  unfold accumulate, all_seconds.
  induction database_filenames as [|f fs IH]; intros d d'; cbn [for_each].
  - intros [= <-]. change (sum_Z ([] ≫= _)) with 0. lia.
  - destruct (populate_database_dict dir f d (Some key_type)) as [d1|e] eqn:H1;
      [|discriminate].
    cbn [mbind result_bind]. intros Hd'.
    rewrite (IH _ _ Hd'), (populate_total _ _ _ _ _ H1), bind_cons, sum_Z_app. lia.
Qed.

(** X14.  Without a filter, in the views by path, tree, file name and file
    type, the seconds of the rows add up to the seconds of all records of
    the scanned files: the sum [print_database] shows is the time of
    everything that was read, under whatever keys it was filed. *)
Theorem overall_seconds_all_records `{Re} (dir : directory) (key_type : DatabaseDisplayKey)
    (database_filenames : list string) (rows : list (string * Z)) :
  key_type <> DATE ->
  main_rows dir key_type None database_filenames = Ok rows ->
  overall_seconds rows = sum_Z (all_seconds dir database_filenames).
Proof.
  intros Hdate. unfold main_rows, main_loop.
  rewrite main_loop_accumulate by done.
  destruct (accumulate dir key_type database_filenames ∅) as [d|e] eqn:Hacc;
    [|discriminate].
  cbn [mbind result_bind main_database]. intros [= <-].
  rewrite overall_seconds_sum.
  apply accumulate_total in Hacc. rewrite map_to_list_empty in Hacc.
  assert (Hrows : sum_Z (merge_sort by_seconds_descending (map_to_list d)).*2
                  = sum_Z (map_to_list d).*2).
  { apply sum_Z_Permutation, fmap_Permutation, merge_sort_Permutation. }
  destruct key_type; try done; rewrite ?Hrows, Hacc; unfold sum_Z; cbn; lia.
Qed.

Lemma overall_seconds_all_records_witness :
  exists rows,
    @main_rows plain_re sample_dir FILETYPE None ["20171029.db"; "20171030.db"] = Ok rows
    /\ overall_seconds rows = 75.
Proof.
  assert (Hrows : exists rows,
             @main_rows plain_re sample_dir FILETYPE None ["20171029.db"; "20171030.db"]
             = Ok rows)
    by (vm_compute; eexists; reflexivity).
  destruct Hrows as [rows Hrows]. exists rows. split; [exact Hrows|].
  rewrite (@overall_seconds_all_records plain_re sample_dir FILETYPE _ rows
             ltac:(discriminate) Hrows).
  reflexivity.
Defined.

(** ** Dates from ordinals *)

Lemma days_before_year_parts (n400 n100 n4 n1 : Z) :
  0 <= n400 -> 0 <= n100 <= 3 -> 0 <= n4 <= 24 -> 0 <= n1 <= 3 ->
  datetime._days_before_year (n400 * 400 + 1 + (n100 * 100 + n4 * 4 + n1))
  = 146097 * n400 + 36524 * n100 + 1461 * n4 + 365 * n1.
Proof.
  intros H400 H100 H4 H1. unfold datetime._days_before_year.
  Z.div_mod_to_equations. lia.
Qed.

Lemma is_leap_parts (n400 n100 n4 n1 : Z) :
  0 <= n400 -> 0 <= n100 <= 3 -> 0 <= n4 <= 24 -> 0 <= n1 <= 3 ->
  datetime._is_leap (n400 * 400 + 1 + (n100 * 100 + n4 * 4 + n1))
  = (n1 =? 3) && (negb (n4 =? 24) || (n100 =? 3)).
Proof.
  intros H400 H100 H4 H1. unfold datetime._is_leap.
  destruct (Z.eqb_spec n1 3), (Z.eqb_spec n4 24), (Z.eqb_spec n100 3);
    cbn [negb andb orb];
    repeat match goal with
           | |- context [?a =? ?b] => destruct (Z.eqb_spec a b)
           end; cbn [negb andb orb]; try reflexivity;
    exfalso; Z.div_mod_to_equations; lia.
Qed.

Lemma ord2md_spec (n : Z) (leapyear : bool) :
  0 <= n < 365 -> ord2md_ok leapyear n = true.
Proof.
  intros Hn.
  assert (Hall : forallb (fun l => forallb (ord2md_ok l) (seqZ 0 365)) [false; true] = true)
    by (vm_compute; reflexivity).
  cbn [forallb] in Hall. apply andb_true_iff in Hall as [Hfalse Htrue].
  apply andb_true_iff in Htrue as [Htrue _].
  assert (Hin : In n (seqZ 0 365)).
  { apply list_elem_of_In, elem_of_seqZ. lia. }
  destruct leapyear; [exact (proj1 (forallb_forall _ _) Htrue n Hin)
                     |exact (proj1 (forallb_forall _ _) Hfalse n Hin)].
Qed.

(** The date with a given ordinal exists and has that ordinal. *)
Lemma ord2ymd_toordinal (ordinal : Z) :
  1 <= ordinal <= last_ordinal ->
  datetime.valid (_ord2ymd ordinal) = true
  /\ datetime.toordinal (_ord2ymd ordinal) = ordinal.
Proof.
  unfold last_ordinal. intros Hord.
  assert (Hgoal : 1 <= datetime.year (_ord2ymd ordinal)
                  /\ 1 <= datetime.month (_ord2ymd ordinal) <= 12
                  /\ 1 <= datetime.day (_ord2ymd ordinal)
                       <= datetime._days_in_month (datetime.year (_ord2ymd ordinal))
                                                  (datetime.month (_ord2ymd ordinal))
                  /\ datetime.toordinal (_ord2ymd ordinal) = ordinal).
  { unfold _ord2ymd. cbv zeta.
    pose proof (Z.div_mod (ordinal - 1) 146097 ltac:(lia)) as E400.
    pose proof (Z.mod_pos_bound (ordinal - 1) 146097 ltac:(lia)) as B400.
    set (n400 := (ordinal - 1) / 146097) in *.
    set (r400 := (ordinal - 1) mod 146097) in *.
    pose proof (Z.div_mod r400 36524 ltac:(lia)) as E100.
    pose proof (Z.mod_pos_bound r400 36524 ltac:(lia)) as B100.
    set (n100 := r400 / 36524) in *. set (r100 := r400 mod 36524) in *.
    pose proof (Z.div_mod r100 1461 ltac:(lia)) as E4.
    pose proof (Z.mod_pos_bound r100 1461 ltac:(lia)) as B4.
    set (n4 := r100 / 1461) in *. set (r4 := r100 mod 1461) in *.
    pose proof (Z.div_mod r4 365 ltac:(lia)) as E1.
    pose proof (Z.mod_pos_bound r4 365 ltac:(lia)) as B1.
    set (n1 := r4 / 365) in *. set (r1 := r4 mod 365) in *.
    clearbody n400 r400 n100 r100 n4 r4 n1 r1.
    assert (0 <= n400) by lia. assert (0 <= n100 <= 4) by lia.
    assert (0 <= n4 <= 24) by lia. assert (0 <= n1 <= 4) by lia.
    destruct (Z.eqb_spec n1 4) as [Hn1|Hn1]; [|destruct (Z.eqb_spec n100 4) as [Hn100|Hn100]];
      cbn [orb].
    - cbn [datetime.year datetime.month datetime.day].
      unfold datetime.toordinal. cbn [datetime.year datetime.month datetime.day].
      assert (n100 <= 3) by lia. assert (n4 <= 23) by lia.
      pose proof (days_before_year_parts n400 n100 (n4 + 1) 0
                    ltac:(lia) ltac:(lia) ltac:(lia) ltac:(lia)) as Hdby.
      replace (n400 * 400 + 1 + (n100 * 100 + (n4 + 1) * 4 + 0))
        with (n400 * 400 + 1 + (n100 * 100 + n4 * 4 + n1) - 1 + 1) in Hdby by lia.
      rewrite days_before_year_succ in Hdby.
      pose proof (days_in_last_month (n400 * 400 + 1 + (n100 * 100 + n4 * 4 + n1) - 1))
        as Hlast.
      change (datetime._days_in_month _ 12) with 31 in *.
      lia.
    - cbn [datetime.year datetime.month datetime.day].
      unfold datetime.toordinal. cbn [datetime.year datetime.month datetime.day].
      pose proof (days_before_year_parts (n400 + 1) 0 0 0
                    ltac:(lia) ltac:(lia) ltac:(lia) ltac:(lia)) as Hdby.
      replace ((n400 + 1) * 400 + 1 + (0 * 100 + 0 * 4 + 0))
        with (n400 * 400 + 1 + (n100 * 100 + n4 * 4 + n1) - 1 + 1) in Hdby by lia.
      rewrite days_before_year_succ in Hdby.
      pose proof (days_in_last_month (n400 * 400 + 1 + (n100 * 100 + n4 * 4 + n1) - 1))
        as Hlast.
      change (datetime._days_in_month _ 12) with 31 in *.
      lia.
    - assert (Hb100 : 0 <= n100 <= 3) by lia. assert (Hb1 : 0 <= n1 <= 3) by lia.
      pose proof (days_before_year_parts n400 n100 n4 n1
                    ltac:(lia) Hb100 ltac:(lia) Hb1) as Hdby.
      pose proof (is_leap_parts n400 n100 n4 n1 ltac:(lia) Hb100 ltac:(lia) Hb1) as Hleap.
      rewrite <- Hleap.
      set (year := n400 * 400 + 1 + (n100 * 100 + n4 * 4 + n1)) in *.
      pose proof (ord2md_spec r1 (datetime._is_leap year) B1) as Hmd.
      unfold ord2md_ok in Hmd.
      destruct (_ord2md r1 (datetime._is_leap year)) as [month day].
      cbn [datetime.year datetime.month datetime.day].
      unfold datetime.toordinal, datetime._days_in_month, datetime._days_before_month.
      cbn [datetime.year datetime.month datetime.day].
      destruct ((month =? 2) && datetime._is_leap year) eqn:Hfeb;
        destruct ((month >? 2) && datetime._is_leap year) eqn:Hmar.
      + apply andb_true_iff in Hfeb as [?%Z.eqb_eq _].
        apply andb_true_iff in Hmar as [?%Z.gtb_lt _]. lia.
      + assert (month = 2) by (apply andb_true_iff in Hfeb as [?%Z.eqb_eq _]; done).
        subst month. change (datetime._DAYS_IN_MONTH 2) with 28 in Hmd.
        change (datetime._DAYS_BEFORE_MONTH 2) with 31 in *. lia.
      + lia.
      + lia. }
  destruct Hgoal as (Hy & Hm & Hd & Heq). split; [|exact Heq].
  unfold datetime.valid, datetime.MINYEAR, datetime.MAXYEAR.
  assert (datetime.year (_ord2ymd ordinal) <= 9999); [|lia].
  destruct (Z.le_gt_cases (datetime.year (_ord2ymd ordinal)) 9999) as [|Hbig]; [done|].
  pose proof (days_before_year_mono 10000 (datetime.year (_ord2ymd ordinal)) ltac:(lia)).
  change (datetime._days_before_year 10000) with 3652059 in *.
  pose proof (days_in_year _ _ _ Hm Hd). unfold datetime.toordinal in Heq. lia.
Qed.

(** ** The range of [main] *)

Lemma ltb_irrefl (a : datetime.t) : datetime.ltb a a = false.
Proof. destruct a. unfold datetime.ltb. cbn. lia. Qed.

Lemma toordinal_ltb (a b : datetime.t) :
  datetime.valid a = true -> datetime.valid b = true ->
  datetime.toordinal a < datetime.toordinal b -> datetime.ltb a b = true.
Proof.
  intros Ha Hb Hlt. destruct (datetime.ltb a b) eqn:Hab; [done|].
  destruct (datetime.ltb b a) eqn:Hba.
  - pose proof (toordinal_lt _ _ Hb Ha Hba). lia.
  - rewrite (ltb_trichotomy _ _ Hab Hba) in Hlt. lia.
Qed.

Lemma sub_days_ok (d d' : datetime.t) (days : Z) :
  sub_days d days = Ok d' ->
  datetime.valid d' = true /\ datetime.toordinal d' = datetime.toordinal d - days.
Proof.
  unfold sub_days.
  destruct ((0 <? _) && (_ <=? last_ordinal)) eqn:Hrange; [|discriminate].
  intros [= <-]. apply ord2ymd_toordinal. lia.
Qed.

Lemma new_valid (year month day : Z) (d : datetime.t) :
  datetime.new year month day = Ok d -> datetime.valid d = true.
Proof.
  unfold datetime.new. destruct (datetime.valid _) eqn:Hv; [|discriminate].
  by intros [= <-].
Qed.

(** X15.  The range [main] makes of its arguments never has its end date
    before its start date, so the error of line 77 is never reported.
    When there is a start date, both dates are dates, and the range has
    as many days as the units asked for hold; with [--exclude] one day
    fewer, but never less than one.  There is no start date exactly when
    [--all] is given or no unit is asked for. *)
Theorem main_range_well_formed (args : range_args) :
  main_range args <> EndPrecedesStart
  /\ (forall start_date end_date,
        main_range args = Range (Some start_date) end_date ->
        datetime.valid start_date = true /\ datetime.valid end_date = true
        /\ datetime.ltb end_date start_date = false
        /\ datetime.days_between start_date end_date + 1 = days_asked args)
  /\ (forall end_date,
        main_range args = Range None end_date ->
        all args || (Z.abs (units_past args) =? 0) = true).
Proof.
  unfold main_range, days_asked, datetime.days_between.
  destruct (datetime.new (end_year args) (end_month args) (end_day args))
    as [end_date|e] eqn:Hnew; [|repeat split; intros; discriminate].
  apply new_valid in Hnew.
  set (unit_size := Z.max 1 (years args + months args + weeks args)).
  assert (Hunit : 1 <= unit_size) by (unfold unit_size; lia).
  destruct (all args || (Z.abs (units_past args) =? 0)) eqn:Hall.
  { repeat split; intros; discriminate. }
  assert (Hunits : 1 <= Z.abs (units_past args)).
  { apply orb_false_iff in Hall as [_ Hzero%Z.eqb_neq]. lia. }
  destruct (sub_days end_date (unit_size * Z.abs (units_past args) - 1))
    as [start|e] eqn:Hstart; cbn [mbind result_bind];
    [|repeat split; intros; discriminate].
  destruct (sub_days_ok _ _ _ Hstart) as [Hvs Hos].
  assert (Hdays : 0 <= unit_size * Z.abs (units_past args) - 1) by nia.
  set (n := unit_size * Z.abs (units_past args)) in *. clearbody n.
  destruct (exclude args).
  - destruct (sub_days end_date 1) as [end'|e] eqn:Hend; cbn [mbind result_bind];
      [|repeat split; discriminate].
    destruct (sub_days_ok _ _ _ Hend) as [Hve Hoe].
    destruct (datetime.ltb end' start) eqn:Hlt.
    + rewrite ltb_irrefl. pose proof (toordinal_lt _ _ Hve Hvs Hlt).
      split; [discriminate|]. split; [|intros e'; discriminate].
      intros s e' [= <- <-]. repeat split; try done; try apply ltb_irrefl; lia.
    + rewrite Hlt.
      assert (datetime.toordinal start <= datetime.toordinal end').
      { destruct (Z.le_gt_cases (datetime.toordinal start) (datetime.toordinal end'))
          as [|Hgt]; [done|].
        rewrite (toordinal_ltb _ _ Hve Hvs) in Hlt by lia. discriminate. }
      split; [discriminate|]. split; [|intros e'; discriminate].
      intros s e' [= <- <-]. repeat split; try done; try apply ltb_irrefl; lia.
  - assert (Hlt : datetime.ltb end_date start = false).
    { destruct (datetime.ltb end_date start) eqn:Hlt; [|done].
      pose proof (toordinal_lt _ _ Hnew Hvs Hlt). lia. }
    rewrite Hlt.
    split; [discriminate|]. split; [|intros e'; discriminate].
    intros s e' [= <- <-]. repeat split; try done; lia.
Qed.

Lemma main_range_well_formed_witness :
  datetime.days_between (datetime.mk 2017 10 20) (datetime.mk 2017 11 1) + 1
  = days_asked {| units_past := -2; all := false; exclude := true;
                  end_year := 2017; end_month := 11; end_day := 2;
                  years := 0; months := 0; weeks := 7 |}.
Proof.
  apply (proj1 (proj2 (main_range_well_formed _))). reflexivity.
Defined.

(** ** The table of [print_database] *)

Lemma digits_loop_length (fuel : nat) : forall (n : Z) (acc : list ascii) (k : nat),
  0 <= n < Z.of_nat fuel -> n < 10 ^ Z.of_nat k -> (1 <= k)%nat ->
  (length acc + 1 <= length (digits_loop fuel n acc) <= length acc + k)%nat.
Proof.
  induction fuel as [|fuel IH]; intros n acc k Hn Hk Hk1; [lia|].
  cbn [digits_loop]. destruct (n <? 10) eqn:Hlt.
  - cbn [length]. lia.
  - apply Z.ltb_ge in Hlt.
    destruct k as [|[|k]]; [lia|change (10 ^ Z.of_nat 1) with 10 in Hk; lia|].
    assert (Hdiv : n / 10 < 10 ^ Z.of_nat (S k)).
    { apply Z.div_lt_upper_bound; [lia|].
      replace (Z.of_nat (S (S k))) with (Z.succ (Z.of_nat (S k))) in Hk by lia.
      rewrite Z.pow_succ_r in Hk by lia. lia. }
    assert (Hfuel : 0 <= n / 10 < Z.of_nat fuel).
    { split; [apply Z.div_pos; lia|].
      apply Z.div_lt_upper_bound; lia. }
    specialize (IH (n / 10) (datetime.digit n :: acc) (S k) Hfuel Hdiv ltac:(lia)).
    cbn [length] in IH. lia.
Qed.

Lemma str_length (n : Z) (k : nat) :
  0 <= n < 10 ^ Z.of_nat k -> (1 <= k)%nat -> (1 <= length (str n) <= k)%nat.
Proof.
  intros Hn Hk. unfold str.
  destruct (n <? 0) eqn:Hneg; [apply Z.ltb_lt in Hneg; lia|].
  pose proof (digits_loop_length (S (Z.to_nat n)) n [] k ltac:(lia) ltac:(lia) Hk) as H.
  cbn [length] in H. lia.
Qed.

Lemma length_spaces (n : Z) : length (spaces n) = Z.to_nat n.
Proof. apply length_replicate. Qed.

Lemma format_right_6_length (n : Z) :
  0 <= n < 1000000 -> length (format_right_6 n) = 6%nat.
Proof.
  intros Hn. unfold format_right_6.
  pose proof (str_length n 6 ltac:(change (10 ^ Z.of_nat 6) with 1000000; lia) ltac:(lia)).
  rewrite length_app, length_spaces. lia.
Qed.

Lemma format_02_length (n : Z) : 0 <= n < 60 -> length (format_02 n) = 2%nat.
Proof.
  intros Hn. unfold format_02.
  destruct (n <? 10) eqn:Hlt.
  - apply Z.ltb_lt in Hlt. replace (0 <=? n) with true by (symmetry; apply Z.leb_le; lia).
    cbn [andb length].
    pose proof (str_length n 1 ltac:(change (10 ^ Z.of_nat 1) with 10; lia) ltac:(lia)). lia.
  - apply Z.ltb_ge in Hlt. rewrite andb_false_r.
    pose proof (str_length n 2 ltac:(change (10 ^ Z.of_nat 2) with 100; lia) ltac:(lia)) as Hle.
    assert (Hge : (length (str n) <> 1)%nat).
    { unfold str. replace (n <? 0) with false by (symmetry; apply Z.ltb_ge; lia).
      cbn [digits_loop]. replace (n <? 10) with false by (symmetry; apply Z.ltb_ge; lia).
      destruct (Z.to_nat n) as [|fuel] eqn:Hfuel; [lia|].
      pose proof (digits_loop_length (S fuel) (n / 10) [datetime.digit n] 1
                    ltac:(split; [apply Z.div_pos; lia|apply Z.div_lt_upper_bound; lia])
                    ltac:(change (10 ^ Z.of_nat 1) with 10;
                          apply Z.div_lt_upper_bound; lia) ltac:(lia)) as H.
      cbn [length] in H. lia. }
    lia.
Qed.

(** A row is its padding, its key and sixteen columns of time. *)
Lemma len_app (s1 s2 : list ascii) : len (s1 ++ s2) = (len s1 + len s2)%nat.
Proof.
  induction s1 as [|c s1 IH]; cbn [app len]; [done|].
  destruct (is_continuation c); lia.
Qed.

(** Text without continuation bytes has one character for each byte. *)
Lemma len_length (s : list ascii) :
  Forall (fun c => is_continuation c = false) s -> len s = length s.
Proof.
  induction 1 as [|c s Hc _ IH]; cbn [len length]; [done|]. rewrite Hc. lia.
Qed.

Lemma len_spaces (n : Z) : len (spaces n) = Z.to_nat n.
Proof.
  rewrite len_length, length_spaces; [done|]. by apply Forall_replicate.
Qed.

Lemma digit_one_byte (n : Z) : is_continuation (datetime.digit n) = false.
Proof. unfold datetime.digit. repeat case_match; reflexivity. Qed.

Lemma digits_loop_one_byte (fuel : nat) : forall (n : Z) (acc : list ascii),
  Forall (fun c => is_continuation c = false) acc ->
  Forall (fun c => is_continuation c = false) (digits_loop fuel n acc).
Proof.
  induction fuel as [|fuel IH]; intros n acc Hacc; cbn [datetime.digits_loop]; [done|].
  destruct (n <? 10); [|apply IH]; constructor; auto using digit_one_byte.
Qed.

Lemma str_one_byte (n : Z) : Forall (fun c => is_continuation c = false) (str n).
Proof.
  unfold datetime.str. destruct (n <? 0); [constructor; [done|]|];
    by apply digits_loop_one_byte.
Qed.

Lemma format_row_time (padding filetitle : list ascii) (raw_seconds : Z) :
  0 <= raw_seconds < 3600000000 ->
  exists time, format_row padding filetitle raw_seconds = padding ++ filetitle ++ time
               /\ len time = 16%nat.
Proof.
  intros Hs. unfold format_row, _seconds_to_hms.
  eexists. split; [reflexivity|].
  rewrite len_length.
  - cbn [length]. rewrite !length_app, format_right_6_length, !format_02_length.
    + reflexivity.
    + apply Z.mod_pos_bound. lia.
    + apply Z.mod_pos_bound. lia.
    + split; [apply Z.div_pos; [apply Z.div_pos|]; lia|].
      apply Z.div_lt_upper_bound; [lia|]. apply Z.div_lt_upper_bound; lia.
  - unfold format_right_6, format_02, spaces.
    repeat first [apply Forall_cons; split; [reflexivity|]
                 |apply Forall_app; split
                 |apply Forall_replicate; reflexivity
                 |apply str_one_byte
                 |case_match
                 |apply Forall_nil_2].
Qed.

Lemma overall_seconds_from (database : list (string * Z)) : forall start,
  foldl (fun overall_seconds row => overall_seconds + row.2) start database
  = start + overall_seconds database.
Proof.
  unfold overall_seconds.
  induction database as [|row database IH]; intros start; cbn [foldl]; [lia|].
  rewrite IH, (IH (0 + row.2)). lia.
Qed.

Lemma overall_seconds_bounds_rows (database : list (string * Z)) :
  Forall (fun row => 0 <= row.2) database ->
  0 <= overall_seconds database
  /\ Forall (fun row => row.2 <= overall_seconds database) database.
Proof.
  induction 1 as [|row database Hrow _ [IH0 IH]].
  - split; [done|constructor].
  - unfold overall_seconds. cbn [foldl]. rewrite overall_seconds_from.
    split; [lia|]. constructor; [lia|].
    eapply Forall_impl; [exact IH|]. intros row' Hrow'. cbn beta in *. lia.
Qed.

Lemma longest_from (database : list (string * Z)) : forall start,
  let longest :=
    foldl (fun longest row' => Z.max longest (Z.of_nat (len (chars row'.1))))
          start database in
  start <= longest
  /\ Forall (fun row => Z.of_nat (len (chars row.1)) <= longest) database.
Proof.
  induction database as [|row database IH]; intros start; cbn [foldl].
  - split; [lia|constructor].
  - destruct (IH (Z.max start (Z.of_nat (len (chars row.1))))) as [Hstart Hall].
    cbn zeta. split; [lia|]. constructor; [lia|exact Hall].
Qed.

Lemma longest_filetitle_longest (database : list (string * Z)) :
  Forall (fun row => Z.of_nat (len (chars row.1)) <= longest_filetitle database)
         database.
Proof.
  destruct database as [|row database]; [constructor|].
  cbn [longest_filetitle].
  destruct (longest_from database (Z.of_nat (len (chars row.1)))) as [Hstart Hall].
  constructor; assumption.
Qed.

(** X16.  The table of [print_database] for seconds that are not negative
    and sum to less than a million hours: after the title and a rule come
    one row for each entry, a rule as wide as the first, the row of the
    sum and an empty line.  Widths are counted in characters, as [len]
    counts them.  Every row and the row of the sum have the same width,
    which is at most that of the rules, and each ends with its key and
    sixteen columns of time, so the keys are aligned on the right and the
    times stand below each other.  The title stands between margins that
    differ by at most one column. *)
Theorem print_database_layout (today : datetime.t) (database : list (string * Z))
    (start_date end_date : option datetime.t) (lines : list string) :
  print_database today database start_date end_date = Ok lines ->
  Forall (fun row => 0 <= row.2) database ->
  overall_seconds database < 3600000000 ->
  exists title left width rows foot,
    _get_title today start_date end_date = Ok title
    /\ lines = text (spaces left ++ chars title)
               :: text (replicate (Z.to_nat width) "="%char)
               :: rows ++ [text (replicate (Z.to_nat width) "-"%char); foot; ""]
    /\ 0 <= left
    /\ -1 <= (width - left - text_len title) - left <= 1
    /\ text_len foot <= width
    /\ Forall2 (fun (row : string * Z) line =>
                  text_len line = text_len foot
                  /\ exists padding time,
                       chars line = spaces padding ++ chars row.1 ++ time
                       /\ len time = 16%nat)
               (database ++ [("SUM", overall_seconds database)]) (rows ++ [foot]).
Proof.
  intros Hprint Hrows Hsum. unfold print_database in Hprint.
  destruct (_get_title today start_date end_date) as [title|e]; [|discriminate].
  cbn [mbind result_bind] in Hprint.
  destruct (overall_seconds_bounds_rows _ Hrows) as [Hsum0 Hle].
  pose proof (longest_filetitle_longest database) as Hlongest.
  set (longest := longest_filetitle database) in *. clearbody longest.
  set (T := Z.of_nat (len (chars title))) in *.
  assert (HT : 0 <= T) by (unfold T; lia).
  set (M := Z.max longest (Z.of_nat (len (chars "SUM")))) in *.
  assert (HM : 3 <= M /\ longest <= M) by (unfold M; cbn; lia).
  clearbody M.
  set (W0 := Z.max T (M + 16)) in *.
  assert (HW0 : T <= W0 /\ M + 16 <= W0) by (unfold W0; lia).
  clearbody W0.
  rewrite len_spaces in Hprint.
  set (P0 := (W0 - T) / 2) in *.
  assert (HP0 : 0 <= P0 /\ 2 * P0 <= W0 - T <= 2 * P0 + 1).
  { unfold P0. pose proof (Z.div_mod (W0 - T) 2 ltac:(lia)).
    pose proof (Z.mod_pos_bound (W0 - T) 2 ltac:(lia)). split; [apply Z.div_pos; lia|lia]. }
  clearbody P0.
  set (odd := negb (Z.of_nat (Z.to_nat P0) mod 2 =? 0)) in *. clearbody odd.
  set (W := if odd then W0 + 1 else W0).
  set (P := if odd then P0 + 1 else P0).
  set (C := M + (W - (M + 16)) / 2).
  assert (HC : M <= C /\ C + 16 <= W).
  { unfold C. assert (0 <= W - (M + 16)) by (unfold W; destruct odd; lia).
    pose proof (Z.div_mod (W - (M + 16)) 2 ltac:(lia)).
    pose proof (Z.mod_pos_bound (W - (M + 16)) 2 ltac:(lia)).
    split; [|lia]. assert (0 <= (W - (M + 16)) / 2) by (apply Z.div_pos; lia). lia. }
  destruct (format_row_time (spaces (C - Z.of_nat (len (chars "SUM")))) (chars "SUM")
              (overall_seconds database) ltac:(lia)) as (foot_time & Hfoot & Hfoot_len).
  assert (Hshape :
    lines = text (spaces P ++ chars title)
            :: text (replicate (Z.to_nat W) "="%char)
            :: (text <$> ((fun row : string * Z =>
                   format_row (spaces (C - Z.of_nat (len (chars row.1))))
                              (chars row.1) row.2) <$> database))
            ++ [text (replicate (Z.to_nat W) "-"%char);
                text (format_row (spaces (C - Z.of_nat (len (chars "SUM"))))
                                 (chars "SUM") (overall_seconds database));
                ""]).
  { unfold W, P, C. destruct odd; injection Hprint as <-.
    - rewrite !fmap_app. cbn [fmap list_fmap app]. do 2 f_equal.
      unfold spaces. replace (Z.to_nat (P0 + 1)) with (Z.to_nat P0 + 1)%nat by lia.
      rewrite replicate_add. reflexivity.
    - rewrite !fmap_app. reflexivity. }
  clear Hprint.
  assert (Hfoot_width :
    text_len (text (format_row (spaces (C - Z.of_nat (len (chars "SUM"))))
                               (chars "SUM") (overall_seconds database))) = C + 16).
  { unfold text_len. rewrite String.list_ascii_of_string_of_list_ascii, Hfoot.
    rewrite !len_app, len_spaces, Hfoot_len. cbn in HM |- *. lia. }
  exists title, P, W, (text <$> ((fun row : string * Z =>
                   format_row (spaces (C - Z.of_nat (len (chars row.1))))
                              (chars row.1) row.2) <$> database)),
    (text (format_row (spaces (C - Z.of_nat (len (chars "SUM"))))
                      (chars "SUM") (overall_seconds database))).
  split; [reflexivity|]. split; [exact Hshape|].
  split; [unfold P; destruct odd; lia|].
  split; [unfold W, P, text_len; fold T; destruct odd; lia|].
  split; [rewrite Hfoot_width; lia|].
  apply Forall2_app.
  - rewrite <- list_fmap_compose. apply Forall2_fmap_r, Forall_Forall2_diag.
    rewrite Forall_forall. intros row Hin.
    rewrite Forall_forall in Hlongest, Hle, Hrows.
    specialize (Hlongest row Hin). specialize (Hle row Hin). specialize (Hrows row Hin).
    cbn beta in *.
    destruct (format_row_time (spaces (C - Z.of_nat (len (chars row.1)))) (chars row.1)
                (row.2) ltac:(lia)) as (time & Hrow & Htime).
    split.
    + rewrite Hfoot_width. unfold text_len. cbn [compose].
      rewrite String.list_ascii_of_string_of_list_ascii, Hrow.
      rewrite !len_app, len_spaces, Htime. lia.
    + exists (C - Z.of_nat (len (chars row.1))), time. cbn [compose].
      rewrite String.list_ascii_of_string_of_list_ascii. split; assumption.
  - constructor; [|constructor]. split; [reflexivity|].
    exists (C - Z.of_nat (len (chars "SUM"))), foot_time.
    rewrite String.list_ascii_of_string_of_list_ascii. split; assumption.
Qed.

Lemma print_database_layout_witness :
  exists title left width rows foot,
    _get_title (datetime.mk 2017 11 2) None None = Ok title
    /\ ["          All Time"; "===========================";
        "/tmp/éé.py      0h 01m 00s"; "    /tmp/a      0h 00m 05s";
        "---------------------------"; "       SUM      0h 01m 05s"; ""]
       = text (spaces left ++ chars title)
         :: text (replicate (Z.to_nat width) "="%char)
         :: rows ++ [text (replicate (Z.to_nat width) "-"%char); foot; ""]
    /\ 0 <= left
    /\ -1 <= (width - left - text_len title) - left <= 1
    /\ text_len foot <= width
    /\ Forall2 (fun (row : string * Z) line =>
                  text_len line = text_len foot
                  /\ exists padding time,
                       chars line = spaces padding ++ chars row.1 ++ time
                       /\ len time = 16%nat)
               ([("/tmp/éé.py", 60); ("/tmp/a", 5)]
                ++ [("SUM", overall_seconds [("/tmp/éé.py", 60); ("/tmp/a", 5)])])
               (rows ++ [foot]).
Proof.
  apply (print_database_layout (datetime.mk 2017 11 2)
           [("/tmp/éé.py", 60); ("/tmp/a", 5)] None None).
  - vm_compute. reflexivity.
  - repeat constructor; cbn; lia.
  - vm_compute. reflexivity.
Defined.

(** ** The tree of [_print_database_as_tree] *)

Lemma digits_loop_lower (fuel : nat) : forall (n : Z) (acc : list ascii),
  (length acc + 1 <= length (digits_loop (S fuel) n acc))%nat.
Proof.
  induction fuel as [|fuel IH]; intros n acc; cbn [digits_loop] in *.
  - destruct (n <? 10); cbn [length]; lia.
  - destruct (n <? 10); [cbn [length]; lia|].
    specialize (IH (n / 10) (datetime.digit n :: acc)). cbn [length] in IH. lia.
Qed.

Lemma digits_loop_mono (fuel_a : nat) : forall (fuel_b : nat) (a b : Z) (acc_a acc_b : list ascii),
  0 <= a <= b -> a < Z.of_nat fuel_a -> b < Z.of_nat fuel_b ->
  (length acc_a <= length acc_b)%nat ->
  (length (digits_loop fuel_a a acc_a) <= length (digits_loop fuel_b b acc_b))%nat.
Proof.
  induction fuel_a as [|fuel_a IH]; intros fuel_b a b acc_a acc_b Hab Ha Hb Hacc; [lia|].
  destruct fuel_b as [|fuel_b]; [lia|].
  cbn [digits_loop]. destruct (a <? 10) eqn:Ha10.
  - pose proof (digits_loop_lower fuel_b b acc_b) as Hlow.
    cbn [digits_loop] in Hlow. cbn [length]. lia.
  - apply Z.ltb_ge in Ha10.
    replace (b <? 10) with false by (symmetry; apply Z.ltb_ge; lia).
    apply IH; cbn [length]; try lia.
    + split; [apply Z.div_pos; lia|apply Z.div_le_mono; lia].
    + apply Z.div_lt_upper_bound; lia.
    + apply Z.div_lt_upper_bound; lia.
Qed.

Lemma str_length_mono (a b : Z) :
  0 <= a <= b -> (length (str a) <= length (str b))%nat.
Proof.
  intros Hab. unfold str.
  replace (a <? 0) with false by (symmetry; apply Z.ltb_ge; lia).
  replace (b <? 0) with false by (symmetry; apply Z.ltb_ge; lia).
  apply digits_loop_mono; cbn [length]; lia.
Qed.

Lemma format_tree_time_length (seconds : Z) :
  length (format_tree_time seconds) = (length (str (seconds / 60 / 60)) + 10)%nat.
Proof.
  unfold format_tree_time, _seconds_to_hms.
  rewrite !length_app, !format_02_length by (apply Z.mod_pos_bound; lia).
  cbn [length chars]. cbn. lia.
Qed.

Lemma format_tree_time_mono (a b : Z) :
  0 <= a <= b ->
  (length (format_tree_time a) <= length (format_tree_time b))%nat.
Proof.
  intros Hab. rewrite !format_tree_time_length.
  assert (0 <= a / 60 / 60 <= b / 60 / 60).
  { split; [apply Z.div_pos; [apply Z.div_pos|]; lia|].
    apply Z.div_le_mono; [lia|]. apply Z.div_le_mono; lia. }
  pose proof (str_length_mono _ _ H). lia.
Qed.

Lemma directories_loop_length (fuel : nat) : forall head tail directories directories' head',
  directories_loop fuel head tail directories = Some (directories', head') ->
  (length directories' <= length directories + fuel)%nat.
Proof.
  induction fuel as [|fuel IH]; intros head tail directories directories' head' Hloop;
    destruct tail as [|c tail]; cbn [directories_loop] in Hloop; try discriminate.
  - injection Hloop as <- <-. lia.
  - injection Hloop as <- <-. lia.
  - destruct (posixpath.split head) as [head1 tail1].
    apply IH in Hloop. rewrite length_app in Hloop. cbn [length] in Hloop. lia.
Qed.

Lemma directories_in_path_length (path : string) (directories : list string) :
  _directories_in_path path = Some directories ->
  (length directories <= S (length (chars path)))%nat.
Proof.
  unfold _directories_in_path.
  destruct (posixpath.split (chars path)) as [head tail].
  destruct (directories_loop (length (chars path)) head tail []) as [[ds head']|] eqn:Hloop;
    [|discriminate].
  cbn [mbind option_bind]. intros [= <-].
  apply directories_loop_length in Hloop.
  rewrite length_reverse, length_app. cbn [length] in *. lia.
Qed.

Lemma tree_height_longest (database : list (string * Z)) (entry : string * Z) :
  entry ∈ database -> (S (length (chars entry.1)) <= tree_height database)%nat.
Proof.
  unfold tree_height. induction 1 as [entry database|entry entry' database _ IH];
    cbn [foldr]; lia.
Qed.

(** A node of the path tree lies on the path of an entry. *)
Lemma path_trie_height database path_trie directories node :
  build_path_trie database = Some path_trie ->
  node_at path_trie directories = Some node ->
  (length directories <= tree_height database)%nat.
Proof.
  unfold build_path_trie. intros Hbuild Hnode.
  destruct (insert_entries_value database (mkTrieNode 0 ∅)) as (t & Ht & Hvalue).
  rewrite Hbuild in Ht. injection Ht as <-.
  specialize (Hvalue directories). rewrite Hnode in Hvalue.
  destruct directories as [|directory directories]; [cbn [length]; lia|].
  cbn [node_at goto] in Hvalue. rewrite lookup_empty in Hvalue.
  cbn in Hvalue. unfold total_after in Hvalue.
  destruct (seconds_through (directory :: directories) database) as [|z secs] eqn:Hsecs;
    [discriminate|].
  unfold seconds_through in Hsecs.
  destruct (filter _ database) as [|entry entries] eqn:Hfilter; [discriminate|].
  assert (Hin : entry ∈ filter (fun entry : string * Z =>
                                  passes_through (directory :: directories) entry.1)
                               database) by (rewrite Hfilter; left).
  apply list_elem_of_filter in Hin as [Hpass Hin].
  unfold passes_through in Hpass.
  destruct (_directories_in_path entry.1) as [path_directories|] eqn:Hpath; [|done].
  apply bool_decide_unpack in Hpass. apply prefix_length in Hpass.
  apply directories_in_path_length in Hpath.
  pose proof (tree_height_longest _ _ Hin). lia.
Qed.

Lemma node_line_below (width : Z) (depth : nat) (directory : string)
    (path : list string) (seconds : Z) (is_directory : bool) (entry : string) :
  node_line width (S depth) path seconds is_directory entry ->
  node_line width depth (directory :: path) seconds is_directory entry.
Proof.
  intros (ds & directory' & -> & Hline).
  exists (directory :: ds), directory'. split; [reflexivity|].
  rewrite Hline. cbn [length].
  by replace (depth + S (length ds))%nat with (S depth + length ds)%nat by lia.
Qed.

(** The lines that a call adds are those of the nodes below its node,
    each once, a node before the nodes below it and the children of a
    node by name. *)
Lemma populate_tree_entries_spec (width : Z) (fuel : nat) :
  forall (database_trie : TrieNode) (entries : list string) (depth : nat),
  width <> 0 ->
  (forall path n, node_at database_trie path = Some n -> (length path < fuel)%nat) ->
  exists paths new,
    _populate_database_tree_entries fuel database_trie entries (2 * Z.of_nat depth) width
    = Some (entries ++ new)
    /\ Forall2 (fun path entry =>
                  exists n, node_at database_trie path = Some n
                            /\ node_line width depth path (value n)
                                         (negb (size (goto n) =? 0)%nat) entry)
               paths new
    /\ StronglySorted path_lt paths
    /\ (forall path,
          path ∈ paths <-> path <> [] /\ is_Some (node_at database_trie path)).
Proof.
  induction fuel as [|fuel IH]; intros database_trie entries depth Hwidth Hheight.
  { specialize (Hheight [] database_trie eq_refl). cbn in Hheight. lia. }
  cbn [_populate_database_tree_entries].
  destruct (size (goto database_trie) =? 0)%nat eqn:Hsize.
  { exists [], []. rewrite app_nil_r. split; [done|]. split; [constructor|].
    split; [constructor|]. intros path. split; [by intros ?%elem_of_nil|].
    intros [Hpath [n Hn]]. destruct path as [|directory path]; [done|].
    apply Nat.eqb_eq, map_size_empty_iff in Hsize.
    cbn [node_at] in Hn. rewrite Hsize, lookup_empty in Hn. discriminate. }
  assert (Hkeys : forall k, k ∈ merge_sort String.le (map_to_list (goto database_trie)).*1 <->
                            is_Some (goto database_trie !! k)).
  { intros k. rewrite merge_sort_Permutation. split.
    - intros ([k' child] & -> & Hk)%list_elem_of_fmap.
      apply elem_of_map_to_list in Hk. by eexists.
    - intros [child Hk]. apply list_elem_of_fmap. exists (k, child).
      split; [done|]. by apply elem_of_map_to_list. }
  assert (Hsorted : StronglySorted String.le
                      (merge_sort String.le (map_to_list (goto database_trie)).*1))
    by (apply StronglySorted_merge_sort; apply _).
  assert (Hnodup : NoDup (merge_sort String.le (map_to_list (goto database_trie)).*1))
    by (rewrite merge_sort_Permutation; apply NoDup_fst_map_to_list).
  assert (Hall : forall k, is_Some (goto database_trie !! k) ->
                   k ∈ merge_sort String.le (map_to_list (goto database_trie)).*1)
    by (intros k; apply Hkeys).
  assert (Hsome : forall k, k ∈ merge_sort String.le (map_to_list (goto database_trie)).*1 ->
                    is_Some (goto database_trie !! k))
    by (intros k; apply Hkeys).
  clear Hkeys. revert Hall Hsome Hsorted Hnodup.
  generalize (merge_sort String.le (map_to_list (goto database_trie)).*1).
  intros keys Hall Hkeys Hsorted Hnodup.
  match goal with |- context [foldl ?f _ _] => set (turn := f) end.
  assert (Hfold : forall entries,
    exists paths new,
      foldl turn (Some (entries, width)) keys = Some (entries ++ new, width)
      /\ Forall2 (fun path entry =>
                    exists n, node_at database_trie path = Some n
                              /\ node_line width depth path (value n)
                                           (negb (size (goto n) =? 0)%nat) entry)
                 paths new
      /\ StronglySorted path_lt paths
      /\ (forall path,
            path ∈ paths <->
            exists directory below,
              path = directory :: below /\ directory ∈ keys
              /\ is_Some (node_at database_trie path))).
  { clear entries Hall. induction keys as [|directory keys IHkeys]; intros entries.
    { exists [], []. rewrite app_nil_r. split; [done|]. split; [constructor|].
      split; [constructor|]. intros path. split; [by intros ?%elem_of_nil|].
      intros (directory & below & _ & Hin & _). by apply elem_of_nil in Hin. }
    apply StronglySorted_cons in Hsorted as [Hfirst Hsorted].
    apply NoDup_cons in Hnodup as [Hfresh Hnodup].
    destruct (Hkeys directory ltac:(left)) as [child Hchild].
    set (slash := if negb (size (goto child) =? 0)%nat && negb (depth + 0 =? 0)%nat
                  then ["/"%char] else []).
    set (entry := spaces (width - Z.of_nat (length (format_tree_time (value child))))
                  ++ format_tree_time (value child)
                  ++ leader_of (Z.of_nat (depth + 0))
                  ++ chars directory ++ slash).
    assert (Hentry : node_line width depth [directory] (value child)
                               (negb (size (goto child) =? 0)%nat) (text entry)).
    { exists [], directory. split; [reflexivity|]. by rewrite chars_text. }
    destruct (IH child (entries ++ [text entry]) (S depth) Hwidth)
      as (child_paths & below & Hbelow & Hlines & Hchild_sorted & Hchild_paths).
    { intros path n Hn. specialize (Hheight (directory :: path) n).
      cbn [node_at length] in Hheight. rewrite Hchild in Hheight.
      specialize (Hheight Hn). lia. }
    assert (Hturn : turn (Some (entries, width)) directory
                    = Some ((entries ++ [text entry]) ++ below, width)).
    { unfold turn. cbn [mbind option_bind]. rewrite Hchild. cbn [mbind option_bind].
      replace (width =? 0) with false by (symmetry; by apply Z.eqb_neq).
      replace (2 * Z.of_nat depth + 2) with (2 * Z.of_nat (S depth)) by lia.
      replace (2 * Z.of_nat depth / 2) with (Z.of_nat (depth + 0))
        by (rewrite Z.mul_comm, Z.div_mul by lia; lia).
      replace (2 * Z.of_nat depth =? 0) with (depth + 0 =? 0)%nat by (by destruct depth).
      replace (text (if negb (size (goto child) =? 0)%nat && negb (depth + 0 =? 0)%nat
                     then (((spaces (width - Z.of_nat (length (format_tree_time (value child))))
                            ++ format_tree_time (value child))
                            ++ leader_of (Z.of_nat (depth + 0)))
                            ++ chars directory) ++ ["/"%char]
                     else ((spaces (width - Z.of_nat (length (format_tree_time (value child))))
                            ++ format_tree_time (value child))
                            ++ leader_of (Z.of_nat (depth + 0)))
                            ++ chars directory))
        with (text entry).
      - rewrite Hbelow. reflexivity.
      - unfold entry, slash. f_equal.
        destruct (negb (size (goto child) =? 0)%nat && negb (depth + 0 =? 0)%nat);
          rewrite <- ?app_assoc, ?app_nil_r; reflexivity. }
    destruct (IHkeys ltac:(intros k Hk; apply Hkeys; by right) Hsorted Hnodup
                     ((entries ++ [text entry]) ++ below))
      as (rest_paths & rest & Hrest & Hrest_lines & Hrest_sorted & Hrest_paths).
    exists (([directory] :: (cons directory <$> child_paths)) ++ rest_paths),
           (([text entry] ++ below) ++ rest).
    split; [|split; [|split]].
    - cbn [foldl]. rewrite Hturn, Hrest. by rewrite <- !app_assoc.
    - apply Forall2_app; [|exact Hrest_lines]. constructor.
      + exists child. split; [cbn [node_at]; by rewrite Hchild|exact Hentry].
      + apply Forall2_fmap_l. eapply Forall2_impl; [exact Hlines|].
        intros path line (n & Hn & Hline). exists n.
        split; [cbn [node_at]; by rewrite Hchild|by apply node_line_below].
    - apply StronglySorted_app_2; [|constructor|exact Hrest_sorted].
      + intros path1 path2 Hin1 Hin2.
        apply Hrest_paths in Hin2 as (directory2 & below2 & -> & Hin2 & _).
        assert (Hhead : exists below1, path1 = directory :: below1).
        { apply elem_of_cons in Hin1 as [->|Hin1]; [by eexists|].
          apply list_elem_of_fmap in Hin1 as (below1 & -> & _). by eexists. }
        destruct Hhead as [below1 ->]. apply path_lt_name.
        * rewrite Forall_forall in Hfirst. by apply Hfirst.
        * by intros ->.
      + eapply StronglySorted_fmap; [|exact Hchild_sorted].
        intros path1 path2. apply path_lt_below.
      + apply Forall_fmap, Forall_forall. intros path Hin.
        apply Hchild_paths in Hin as [Hpath _].
        destruct path as [|directory' path]; [done|].
        cbn [compose]. apply path_lt_below, path_lt_above.
    - intros path. rewrite elem_of_app, elem_of_cons, list_elem_of_fmap. split.
      + intros [[->|(below' & -> & Hin)]|Hin].
        * exists directory, []. split; [done|]. split; [left|].
          cbn [node_at]. rewrite Hchild. by eexists.
        * apply Hchild_paths in Hin as [_ Hnode].
          exists directory, below'. split; [done|]. split; [left|].
          cbn [node_at]. by rewrite Hchild.
        * apply Hrest_paths in Hin as (directory' & below' & -> & Hin & Hnode).
          exists directory', below'. split; [done|]. split; [by right|done].
      + intros (directory' & below' & -> & Hin & Hnode).
        apply elem_of_cons in Hin as [->|Hin].
        * left. cbn [node_at] in Hnode. rewrite Hchild in Hnode.
          cbn [mbind option_bind] in Hnode.
          destruct below' as [|directory' below']; [by left|].
          right. exists (directory' :: below'). split; [done|].
          apply Hchild_paths. by split.
        * right. apply Hrest_paths. exists directory', below'. by repeat split. }
  destruct (Hfold entries) as (paths & new & -> & Hnew & Hpaths_sorted & Hpaths).
  exists paths, new. split; [reflexivity|]. split; [exact Hnew|].
  split; [exact Hpaths_sorted|].
  intros path. rewrite Hpaths. split.
  - intros (directory & below & -> & _ & Hnode). by split.
  - intros [Hpath Hnode]. destruct path as [|directory below]; [done|].
    exists directory, below. split; [done|]. split; [|exact Hnode].
    apply Hall. destruct Hnode as [n Hn]. cbn [node_at] in Hn.
    destruct (goto database_trie !! directory); [by eexists|discriminate].
Qed.

Lemma path_trie_root_only (database : list (string * Z)) (path_trie : TrieNode) :
  Forall (fun entry => is_absolute_path entry.1) database ->
  build_path_trie database = Some path_trie ->
  database <> [] ->
  exists root, goto path_trie = {["/" := root]}
               /\ value root = overall_seconds database.
Proof.
  intros Habs Hbuild Hdb.
  assert (Hthrough : forall directory,
            seconds_through [directory] database
            = if bool_decide (directory = "/") then database.*2 else []).
  { clear Hbuild Hdb. intros directory. unfold seconds_through.
    destruct (decide (directory = "/")) as [->|Hne].
    - rewrite bool_decide_eq_true_2 by done. f_equal.
      induction Habs as [|[file_path raw_seconds] l Hentry _ IH]; [done|].
      rewrite filter_cons_True; [by rewrite IH|].
      cbn [fst]. rewrite passes_through_absolute by done.
      by rewrite bool_decide_eq_true_2.
    - rewrite bool_decide_eq_false_2 by done.
      replace (filter (fun entry : string * Z => passes_through [directory] entry.1)
                      database) with (@nil (string * Z)); [done|].
      induction Habs as [|[file_path raw_seconds] l Hentry _ IH]; [done|].
      rewrite filter_cons_False; [done|].
      cbn [fst]. rewrite passes_through_absolute by done.
      rewrite bool_decide_eq_false_2 by done. tauto. }
  destruct (insert_entries_value database (mkTrieNode 0 ∅)) as (t & Ht & Hvalue).
  unfold build_path_trie in Hbuild. rewrite Hbuild in Ht. injection Ht as <-.
  pose proof (Hvalue ["/"]) as Hroot.
  rewrite Hthrough, bool_decide_eq_true_2 in Hroot by done.
  cbn in Hroot. rewrite lookup_empty in Hroot. cbn in Hroot.
  unfold total_after in Hroot.
  destruct (database.*2) as [|z secs] eqn:Hsecs; [by destruct database|].
  destruct (goto path_trie !! "/") as [root|] eqn:Hgoto; [|done].
  exists root. split.
  - apply map_eq. intros directory.
    destruct (decide (directory = "/")) as [->|Hne].
    + by rewrite lookup_singleton_eq.
    + rewrite lookup_singleton_ne by done.
      specialize (Hvalue [directory]).
      rewrite Hthrough, bool_decide_eq_false_2 in Hvalue by done.
      cbn in Hvalue. rewrite lookup_empty in Hvalue. cbn in Hvalue.
      by destruct (goto path_trie !! directory).
  - rewrite overall_seconds_sum, Hsecs. cbn in Hroot. injection Hroot as ->.
    unfold sum_Z. cbn. lia.
Qed.

(** A path leads to a node of the path tree when an entry passes through
    it. *)
Lemma path_trie_node_iff database path_trie path :
  build_path_trie database = Some path_trie ->
  path <> [] ->
  is_Some (node_at path_trie path)
  <-> exists entry, entry ∈ database /\ passes_through path entry.1 = true.
Proof.
  intros Hbuild Hpath.
  destruct (insert_entries_value database (mkTrieNode 0 ∅)) as (t & Ht & Hvalue).
  fold (build_path_trie database) in Ht. rewrite Hbuild in Ht. injection Ht as <-.
  specialize (Hvalue path).
  assert (Hempty : value <$> node_at (mkTrieNode 0 ∅) path = None).
  { destruct path as [|directory below]; [done|].
    cbn [node_at goto]. by rewrite lookup_empty. }
  rewrite Hempty in Hvalue. unfold total_after, seconds_through in Hvalue.
  split.
  - intros [n Hn]. rewrite Hn in Hvalue.
    destruct (filter _ database) as [|entry entries] eqn:Hfilter; [discriminate|].
    assert (Hin : entry ∈ filter (fun entry : string * Z => passes_through path entry.1)
                                 database) by (rewrite Hfilter; left).
    apply list_elem_of_filter in Hin as [Hpass Hin].
    exists entry. split; [done|]. by destruct (passes_through path entry.1).
  - intros (entry & Hin & Hpass).
    assert (Hin' : entry ∈ filter (fun entry : string * Z => passes_through path entry.1)
                                  database)
      by (apply list_elem_of_filter; split; [by rewrite Hpass|done]).
    destruct (filter _ database) as [|entry' entries];
      [by apply elem_of_nil in Hin'|].
    destruct (node_at path_trie path); [by eexists|discriminate].
Qed.

Lemma node_at_app (path1 path2 : list string) : forall node,
  node_at node (path1 ++ path2) = node_at node path1 ≫= fun n => node_at n path2.
Proof.
  induction path1 as [|directory path1 IH]; intros node; [done|].
  cbn [app node_at]. destruct (goto node !! directory); [apply IH|done].
Qed.

Lemma passes_below_iff (path : list string) (file_path : string) :
  passes_below path file_path = true
  <-> exists directory, passes_through (path ++ [directory]) file_path = true.
Proof.
  unfold passes_below, passes_through.
  destruct (_directories_in_path file_path) as [path_directories|];
    [|split; [done|by intros [? ?]]].
  rewrite andb_true_iff, negb_true_iff, bool_decide_eq_true, bool_decide_eq_false.
  split.
  - intros [[rest ->] Hne]. destruct rest as [|directory rest].
    + by rewrite app_nil_r in Hne.
    + exists directory. apply bool_decide_eq_true. exists rest.
      by rewrite <- app_assoc.
  - intros [directory [rest ->]%bool_decide_eq_true]. split.
    + exists (directory :: rest). by rewrite <- app_assoc.
    + intros Heq. apply (f_equal length) in Heq.
      rewrite !length_app in Heq. cbn [length] in Heq. lia.
Qed.

(** A node of the path tree has children when an entry lies below it. *)
Lemma path_trie_is_directory database path_trie path n :
  build_path_trie database = Some path_trie ->
  node_at path_trie path = Some n ->
  negb (size (goto n) =? 0)%nat = is_directory database path.
Proof.
  intros Hbuild Hn. apply Bool.eq_iff_eq_true.
  rewrite negb_true_iff, Nat.eqb_neq, map_size_ne_0_lookup.
  unfold is_directory. rewrite existsb_exists. split.
  - intros [directory Hchild].
    assert (Hnode : is_Some (node_at path_trie (path ++ [directory]))).
    { rewrite node_at_app, Hn. cbn [mbind option_bind node_at].
      destruct Hchild as [child ->]. by eexists. }
    apply (path_trie_node_iff _ _ _ Hbuild) in Hnode as (entry & Hin & Hpass);
      [|by destruct path].
    exists entry. split; [by apply list_elem_of_In|].
    apply passes_below_iff. by exists directory.
  - intros (entry & Hin%list_elem_of_In & [directory Hpass]%passes_below_iff).
    exists directory.
    assert (Hnode : is_Some (node_at path_trie (path ++ [directory]))).
    { apply (path_trie_node_iff _ _ _ Hbuild); [by destruct path|by exists entry]. }
    rewrite node_at_app, Hn in Hnode. cbn [mbind option_bind node_at] in Hnode.
    destruct (goto n !! directory); [by eexists|by destruct Hnode].
Qed.

(** The lines of the tree of entries with absolute paths: the line of the
    root directory with the time of all entries, and the lines of the
    nodes below it. *)
Lemma tree_entries_of_absolute_paths (database : list (string * Z)) :
  Forall (fun entry => is_absolute_path entry.1) database ->
  database <> [] ->
  let width := Z.of_nat (length (format_tree_time (overall_seconds database))) in
  let first := text (format_tree_time (overall_seconds database) ++ chars "/") in
  exists path_trie paths rest,
    build_path_trie database = Some path_trie
    /\ _populate_database_tree_entries (S (tree_height database)) path_trie [] 0 0
       = Some (first :: rest)
    /\ Forall2 (fun path entry =>
                  node_line width 0 path (sum_Z (seconds_through path database))
                            (is_directory database path) entry)
               (["/"] :: paths) (first :: rest)
    /\ StronglySorted path_lt (["/"] :: paths)
    /\ (forall path,
          path ∈ ["/"] :: paths
          <-> path <> []
              /\ exists entry, entry ∈ database /\ passes_through path entry.1 = true).
Proof.
  intros Habs Hdb width first.
  destruct (insert_entries_value database (mkTrieNode 0 ∅)) as (path_trie & Hbuild & _).
  fold (build_path_trie database) in Hbuild.
  destruct (path_trie_root_only _ _ Habs Hbuild Hdb) as (root & Hgoto & Hroot).
  assert (Hroot_at : node_at path_trie ["/"] = Some root).
  { cbn [node_at]. rewrite Hgoto, lookup_singleton_eq. reflexivity. }
  assert (Hbelow : forall path, node_at path_trie ("/" :: path) = node_at root path).
  { intros path. cbn [node_at]. rewrite Hgoto, lookup_singleton_eq. reflexivity. }
  destruct (populate_tree_entries_spec width (tree_height database) root [first] 1)
    as (paths & rest & Hrest & Hlines & Hsorted & Hpaths).
  { unfold width. rewrite format_tree_time_length. lia. }
  { intros path n Hn. rewrite <- Hbelow in Hn.
    pose proof (path_trie_height _ _ _ _ Hbuild Hn) as Hheight.
    cbn [length] in Hheight. lia. }
  exists path_trie, (cons "/" <$> paths), rest.
  split; [exact Hbuild|]. split; [|split; [|split]].
  - cbn [_populate_database_tree_entries]. rewrite Hgoto, map_size_singleton.
    cbn [Nat.eqb]. rewrite map_to_list_singleton.
    change (merge_sort String.le [("/", root)].*1) with ["/"].
    cbn [foldl mbind option_bind]. rewrite lookup_singleton_eq. cbn [mbind option_bind].
    change (0 =? 0) with true. rewrite andb_false_r.
    change (0 + 2) with (2 * Z.of_nat 1).
    rewrite Hroot. fold width. rewrite Z.sub_diag.
    change (0 / 2) with 0.
    change (text (((spaces 0 ++ format_tree_time (overall_seconds database))
                   ++ leader_of 0) ++ chars "/"))
      with (text ((format_tree_time (overall_seconds database) ++ []) ++ chars "/")).
    rewrite app_nil_r. fold first. cbn [app].
    rewrite Hrest. reflexivity.
  - constructor.
    + rewrite <- (path_trie_node_value _ _ _ _ Hbuild Hroot_at), Hroot.
      exists [], "/". split; [reflexivity|].
      unfold first, width. rewrite chars_text, Z.sub_diag.
      cbn [length Nat.add Nat.eqb negb]. rewrite andb_false_r, app_nil_r. reflexivity.
    + apply Forall2_fmap_l. eapply Forall2_impl; [exact Hlines|].
      intros path line (n & Hn & Hline). cbn [compose].
      rewrite <- Hbelow in Hn.
      rewrite <- (path_trie_node_value _ _ _ _ Hbuild Hn).
      rewrite <- (path_trie_is_directory _ _ _ _ Hbuild Hn).
      by apply node_line_below.
  - constructor.
    + eapply StronglySorted_fmap; [|exact Hsorted].
      intros path1 path2. apply path_lt_below.
    + apply Forall_fmap, Forall_forall. intros path Hin.
      apply Hpaths in Hin as [Hpath _].
      destruct path as [|directory path]; [done|].
      cbn [compose]. apply path_lt_below, path_lt_above.
  - intros path. rewrite elem_of_cons, list_elem_of_fmap. split.
    + intros [->|(below & -> & Hin)].
      * split; [done|]. apply (path_trie_node_iff _ _ _ Hbuild); [done|by eexists].
      * split; [done|]. apply (path_trie_node_iff _ _ _ Hbuild); [done|].
        rewrite Hbelow. by apply Hpaths.
    + intros [Hpath Hnode]. apply (path_trie_node_iff _ _ _ Hbuild Hpath) in Hnode.
      destruct path as [|directory below]; [done|].
      destruct (decide (directory = "/")) as [->|Hne].
      * rewrite Hbelow in Hnode.
        destruct below as [|directory below]; [by left|].
        right. exists (directory :: below). split; [done|]. by apply Hpaths.
      * destruct Hnode as [n Hn]. cbn [node_at] in Hn.
        by rewrite Hgoto, lookup_singleton_ne in Hn.
Qed.

(** X17.  The tree view of entries with absolute paths and times that are
    not negative, under a title that [_get_title] gives: after the title
    and an empty line come the lines of the tree and an empty line.  The
    first line of the tree is the time of all entries at [/], also when
    there is no entry.  Every line shows the time of the entries that pass
    through one node, flush right in a column as wide as the time of the
    first line, then a leader for each directory above the node and the
    name of the node: the times stand below each other. *)
Theorem tree_view_aligned (today : datetime.t) (database : list (string * Z))
    (start_date end_date : option datetime.t) (title : string) :
  Forall (fun entry => is_absolute_path entry.1) database ->
  Forall (fun entry => 0 <= entry.2) database ->
  _get_title today start_date end_date = Ok title ->
  exists first rest,
    _print_database_as_tree today database start_date end_date
    = Some (Ok ([title; ""] ++ (first :: rest) ++ [""]))
    /\ first = text (format_tree_time (overall_seconds database) ++ chars "/")
    /\ Forall (tree_line database
                 (Z.of_nat (length (format_tree_time (overall_seconds database)))))
              (first :: rest).
Proof.
  intros Habs Hnonneg Htitle. unfold _print_database_as_tree.
  destruct (decide (database = [])) as [->|Hdb].
  { exists "0h 00m 00s /", []. rewrite Htitle. split; [reflexivity|].
    split; [reflexivity|]. constructor; [|constructor].
    exists ["/"]. split; [|by cbv].
    exists [], "/". split; reflexivity. }
  destruct (tree_entries_of_absolute_paths database Habs Hdb)
    as (path_trie & paths & rest & Hbuild & Hentries & Hlines & _ & _).
  rewrite Hbuild. cbn [mbind option_bind]. rewrite Hentries. cbn [mbind option_bind].
  rewrite Htitle.
  assert (Hfit : forall path,
            Z.of_nat (length (format_tree_time (sum_Z (seconds_through path database))))
            <= Z.of_nat (length (format_tree_time (overall_seconds database)))).
  { intros path. rewrite overall_seconds_sum.
    rewrite <- (seconds_through_root database). unfold seconds_through.
    apply inj_le, format_tree_time_mono.
    apply (sum_filter_mono (fun entry : string * Z => passes_through path entry.1)
                           (fun entry : string * Z => passes_through [] entry.1));
      [|exact Hnonneg].
    intros entry Hpass. unfold passes_through in *.
    destruct (_directories_in_path entry.1); [|done].
    apply bool_decide_pack, prefix_nil. }
  eexists _, rest. split; [reflexivity|]. split; [reflexivity|].
  eapply Forall2_Forall_r; [exact Hlines|].
  apply Forall_forall. intros path _ line Hline.
  exists path. split; [exact Hline|apply Hfit].
Qed.

Lemma tree_view_aligned_witness :
  exists first rest,
    _print_database_as_tree (datetime.mk 2017 11 2)
      [("/home/u/a.py", 10875); ("/etc/crontab", 400000); ("/home/u/src/b.c", 59)]
      None None
    = Some (Ok (["All Time"; ""] ++ (first :: rest) ++ [""]))
    /\ first = text (format_tree_time
                       (overall_seconds [("/home/u/a.py", 10875); ("/etc/crontab", 400000);
                                         ("/home/u/src/b.c", 59)]) ++ chars "/")
    /\ Forall (tree_line [("/home/u/a.py", 10875); ("/etc/crontab", 400000);
                          ("/home/u/src/b.c", 59)]
                 (Z.of_nat (length (format_tree_time
                    (overall_seconds [("/home/u/a.py", 10875); ("/etc/crontab", 400000);
                                      ("/home/u/src/b.c", 59)])))))
              (first :: rest).
Proof.
  apply tree_view_aligned.
  - repeat constructor.
    + exists [chars "home"; chars "u"; chars "a.py"]. split; [|reflexivity].
      repeat constructor; try discriminate; apply (bool_decide_unpack _); vm_compute; exact I.
    + exists [chars "etc"; chars "crontab"]. split; [|reflexivity].
      repeat constructor; try discriminate; apply (bool_decide_unpack _); vm_compute; exact I.
    + exists [chars "home"; chars "u"; chars "src"; chars "b.c"]. split; [|reflexivity].
      repeat constructor; try discriminate; apply (bool_decide_unpack _); vm_compute; exact I.
  - repeat constructor; cbn; lia.
  - reflexivity.
Defined.

(** X18.  The tree view of one entry or more with absolute paths has one
    line for each node, in order: its lines are, one for one, those of a
    list of paths in which every path comes before the ones after it (a
    directory before what is in it, and what is in one directory by name,
    so no path comes twice), and the paths of the list are the root
    directory, the files and every directory above a file.  The line of a
    path carries the time of the entries that pass through it, and a slash
    after the name when an entry lies below it and it is not the root
    directory. *)
Theorem tree_view_one_line_per_node (today : datetime.t) (database : list (string * Z))
    (start_date end_date : option datetime.t) (title : string) :
  Forall (fun entry => is_absolute_path entry.1) database ->
  database <> [] ->
  _get_title today start_date end_date = Ok title ->
  exists paths tree_entries,
    _print_database_as_tree today database start_date end_date
    = Some (Ok ([title; ""] ++ tree_entries ++ [""]))
    /\ Forall2 (fun path line =>
                  node_line
                    (Z.of_nat (length (format_tree_time (overall_seconds database)))) 0
                    path (sum_Z (seconds_through path database))
                    (is_directory database path) line)
               paths tree_entries
    /\ StronglySorted path_lt paths
    /\ (forall path,
          path ∈ paths
          <-> path <> []
              /\ exists entry, entry ∈ database /\ passes_through path entry.1 = true).
Proof.
  intros Habs Hdb Htitle. unfold _print_database_as_tree.
  destruct (tree_entries_of_absolute_paths database Habs Hdb)
    as (path_trie & paths & rest & Hbuild & Hentries & Hlines & Hsorted & Hpaths).
  rewrite Hbuild. cbn [mbind option_bind]. rewrite Hentries. cbn [mbind option_bind].
  rewrite Htitle.
  eexists (["/"] :: paths), _. split; [reflexivity|].
  split; [exact Hlines|]. split; [exact Hsorted|exact Hpaths].
Qed.

Lemma tree_view_one_line_per_node_witness :
  exists paths tree_entries,
    _print_database_as_tree (datetime.mk 2017 11 2)
      [("/home/u/a.py", 10875); ("/home/u/src/b.c", 59)] None None
    = Some (Ok (["All Time"; ""] ++ tree_entries ++ [""]))
    /\ Forall2 (fun path line =>
                  node_line
                    (Z.of_nat (length (format_tree_time
                       (overall_seconds [("/home/u/a.py", 10875); ("/home/u/src/b.c", 59)]))))
                    0 path
                    (sum_Z (seconds_through path
                              [("/home/u/a.py", 10875); ("/home/u/src/b.c", 59)]))
                    (is_directory [("/home/u/a.py", 10875); ("/home/u/src/b.c", 59)] path)
                    line)
               paths tree_entries
    /\ StronglySorted path_lt paths
    /\ (forall path,
          path ∈ paths
          <-> path <> []
              /\ exists entry,
                   entry ∈ [("/home/u/a.py", 10875); ("/home/u/src/b.c", 59)]
                   /\ passes_through path entry.1 = true).
Proof.
  apply (tree_view_one_line_per_node (datetime.mk 2017 11 2)
           [("/home/u/a.py", 10875); ("/home/u/src/b.c", 59)] None None "All Time").
  - repeat constructor.
    + exists [chars "home"; chars "u"; chars "a.py"]. split; [|reflexivity].
      repeat constructor; try discriminate; apply (bool_decide_unpack _); vm_compute; exact I.
    + exists [chars "home"; chars "u"; chars "src"; chars "b.c"]. split; [|reflexivity].
      repeat constructor; try discriminate; apply (bool_decide_unpack _); vm_compute; exact I.
  - discriminate.
  - reflexivity.
Defined.

(** ** The tree and the order of the entries *)

Lemma path_lt_asym (path1 path2 : list string) :
  path_lt path1 path2 -> path_lt path2 path1 -> False.
Proof.
  induction 1 as [directory path|directory1 directory2 path1 path2 Hle Hne
                  |directory path1 path2 _ IH]; inversion 1; subst.
  - apply Hne. by apply (anti_symm String.le).
  - done.
  - done.
  - by apply IH.
Qed.

Lemma path_lt_sorted_NoDup (paths : list (list string)) :
  StronglySorted path_lt paths -> NoDup paths.
Proof.
  induction 1 as [|path paths _ IH Hall]; constructor; [|exact IH].
  intros Hin. rewrite Forall_forall in Hall.
  by apply (path_lt_asym path path); apply Hall.
Qed.

Lemma node_line_unique (width : Z) (depth : nat) (path : list string) (seconds : Z)
    (is_directory : bool) (entry1 entry2 : string) :
  node_line width depth path seconds is_directory entry1 ->
  node_line width depth path seconds is_directory entry2 ->
  entry1 = entry2.
Proof.
  intros (ds1 & d1 & -> & H1) (ds2 & d2 & [-> ->]%app_inj_tail & H2).
  rewrite <- H2 in H1. apply (f_equal text) in H1.
  by rewrite !String.string_of_list_ascii_of_string in H1.
Qed.

Lemma is_directory_Permutation (database database' : list (string * Z))
    (path : list string) :
  database ≡ₚ database' -> is_directory database path = is_directory database' path.
Proof.
  intros Hperm. apply Bool.eq_iff_eq_true. unfold is_directory.
  rewrite !existsb_exists. setoid_rewrite <- list_elem_of_In.
  by setoid_rewrite Hperm.
Qed.

Lemma seconds_through_Permutation (database database' : list (string * Z))
    (path : list string) :
  database ≡ₚ database' ->
  sum_Z (seconds_through path database) = sum_Z (seconds_through path database').
Proof.
  intros Hperm. apply sum_Z_Permutation. unfold seconds_through. by rewrite Hperm.
Qed.

(** X19.  The tree view of entries with absolute paths does not depend on
    the order of the entries: the same entries in another order give the
    same lines. *)
Theorem tree_view_any_order (today : datetime.t) (database database' : list (string * Z))
    (start_date end_date : option datetime.t) :
  Forall (fun entry => is_absolute_path entry.1) database ->
  database ≡ₚ database' ->
  _print_database_as_tree today database start_date end_date
  = _print_database_as_tree today database' start_date end_date.
Proof.
  intros Habs Hperm.
  destruct (decide (database = [])) as [->|Hdb].
  { by apply Permutation_nil_l in Hperm as ->. }
  assert (Hdb' : database' <> []).
  { intros ->. by apply Permutation_nil_r in Hperm. }
  assert (Habs' : Forall (fun entry => is_absolute_path entry.1) database')
    by (by rewrite <- Hperm).
  destruct (tree_entries_of_absolute_paths database Habs Hdb)
    as (path_trie & paths & rest & Hbuild & Hentries & Hlines & Hsorted & Hpaths).
  destruct (tree_entries_of_absolute_paths database' Habs' Hdb')
    as (path_trie' & paths' & rest' & Hbuild' & Hentries' & Hlines' & Hsorted' & Hpaths').
  assert (Hoverall : overall_seconds database' = overall_seconds database).
  { rewrite !overall_seconds_sum. apply sum_Z_Permutation. by rewrite Hperm. }
  rewrite Hoverall in Hentries', Hlines'.
  assert (Hsame : ["/"] :: paths = ["/"] :: paths').
  { apply (StronglySorted_unique_strong path_lt); try done.
    - intros path1 path2 _ _ H12 H21. destruct (path_lt_asym _ _ H12 H21).
    - apply NoDup_Permutation; try by apply path_lt_sorted_NoDup.
      intros path. rewrite Hpaths, Hpaths'. by setoid_rewrite Hperm. }
  assert (Hrest : rest = rest').
  { assert (Hall : text (format_tree_time (overall_seconds database) ++ chars "/") :: rest
                   = text (format_tree_time (overall_seconds database) ++ chars "/") :: rest');
      [|by injection Hall].
    eapply Forall2_unique; [exact Hlines| |].
    - rewrite Hsame. eapply Forall2_impl; [exact Hlines'|].
      intros path line Hline. cbn beta in *.
      by rewrite (seconds_through_Permutation _ _ _ Hperm),
                 (is_directory_Permutation _ _ _ Hperm).
    - intros path line1 line2. cbn beta. apply node_line_unique. }
  unfold _print_database_as_tree.
  rewrite Hbuild, Hbuild'. cbn [mbind option_bind].
  rewrite Hentries, Hentries', Hrest. reflexivity.
Qed.

Lemma tree_view_any_order_witness :
  _print_database_as_tree (datetime.mk 2017 11 2)
    [("/home/u/a.py", 10875); ("/home/u/src/b.c", 59)] None None
  = _print_database_as_tree (datetime.mk 2017 11 2)
      [("/home/u/src/b.c", 59); ("/home/u/a.py", 10875)] None None.
Proof.
  apply tree_view_any_order.
  - repeat constructor.
    + exists [chars "home"; chars "u"; chars "a.py"]. split; [|reflexivity].
      repeat constructor; try discriminate; apply (bool_decide_unpack _); vm_compute; exact I.
    + exists [chars "home"; chars "u"; chars "src"; chars "b.c"]. split; [|reflexivity].
      repeat constructor; try discriminate; apply (bool_decide_unpack _); vm_compute; exact I.
  - apply perm_swap.
Defined.

(** ** The title of one day *)

Lemma equal_dates_refl (d : datetime.t) : _equal_dates d d = true.
Proof. unfold _equal_dates. by apply bool_decide_eq_true_2. Qed.

(** [_equal_dates] tells a day from the next one. *)
Lemma equal_dates_next_day (a b : datetime.t) :
  datetime.valid a = true -> datetime.valid b = true ->
  datetime.toordinal b = datetime.toordinal a + 1 ->
  _equal_dates a b = false.
Proof.
  intros Ha Hb Hnext. destruct (_equal_dates a b) eqn:Hequal; [|done].
  destruct (equal_dates_true _ _ Ha Hb Hequal) as (Hmonth & Hday & Hyear).
  pose proof (Z.div_mod (datetime.year a) 100 ltac:(lia)) as Hqa.
  pose proof (Z.div_mod (datetime.year b) 100 ltac:(lia)) as Hqb.
  destruct (Z.lt_trichotomy (datetime.year a / 100) (datetime.year b / 100))
    as [Hlt|[Heq|Hgt]].
  - pose proof (toordinal_century a b Hmonth Hday ltac:(lia)). lia.
  - assert (Hsame : datetime.year a = datetime.year b) by lia.
    unfold datetime.toordinal in Hnext. rewrite Hsame, Hmonth, Hday in Hnext. lia.
  - pose proof (toordinal_century b a (eq_sym Hmonth) (eq_sym Hday) ltac:(lia)). lia.
Qed.

Lemma sub_days_0 (d : datetime.t) : datetime.valid d = true -> sub_days d 0 = Ok d.
Proof.
  intros Hd. pose proof (toordinal_bound d Hd) as Hbound. unfold sub_days.
  rewrite Z.sub_0_r.
  replace (0 <? datetime.toordinal d) with true by (symmetry; apply Z.ltb_lt; lia).
  replace (datetime.toordinal d <=? last_ordinal) with true
    by (symmetry; apply Z.leb_le; lia).
  cbn [andb]. f_equal.
  destruct (ord2ymd_toordinal (datetime.toordinal d) Hbound) as [Hvalid Hord].
  by apply toordinal_inj.
Qed.

Lemma sub_days_1 (d : datetime.t) :
  datetime.valid d = true -> 1 < datetime.toordinal d ->
  exists yesterday,
    sub_days d 1 = Ok yesterday /\ datetime.valid yesterday = true
    /\ datetime.toordinal yesterday = datetime.toordinal d - 1.
Proof.
  intros Hd Hfirst. pose proof (toordinal_bound d Hd) as Hbound.
  destruct (sub_days d 1) as [yesterday|e] eqn:Hsub.
  - exists yesterday. split; [done|]. by apply sub_days_ok.
  - unfold sub_days in Hsub.
    replace (0 <? datetime.toordinal d - 1) with true in Hsub
      by (symmetry; apply Z.ltb_lt; lia).
    replace (datetime.toordinal d - 1 <=? last_ordinal) with true in Hsub
      by (symmetry; apply Z.leb_le; lia).
    discriminate.
Qed.

(** X20.  Run on a day [today] after 0001-01-01 with the end date left
    at today, the unit left at days and one day asked for, [main] has the
    range of one day: today, and then the title is [Today]; with
    [--exclude] the day before, and then the title is [Yesterday]. *)
Theorem one_day_title (today : datetime.t) (args : range_args) :
  datetime.valid today = true ->
  1 < datetime.toordinal today ->
  end_year args = datetime.year today ->
  end_month args = datetime.month today ->
  end_day args = datetime.day today ->
  years args = 0 -> months args = 0 -> weeks args = 0 ->
  all args = false ->
  Z.abs (units_past args) = 1 ->
  exists day,
    main_range args = Range (Some day) day
    /\ datetime.toordinal day
       = datetime.toordinal today - (if exclude args then 1 else 0)
    /\ _get_title today (Some day) (Some day)
       = Ok (if exclude args then "Yesterday" else "Today").
Proof.
  intros Hvalid Hfirst Hyear Hmonth Hday Hyears Hmonths Hweeks Hall Hunits.
  destruct (sub_days_1 today Hvalid Hfirst) as (yesterday & Hsub & Hvalid' & Hord).
  assert (Hnew : datetime.new (end_year args) (end_month args) (end_day args) = Ok today).
  { rewrite Hyear, Hmonth, Hday. unfold datetime.new.
    destruct today as [y m d]. cbn [datetime.year datetime.month datetime.day].
    by rewrite Hvalid. }
  unfold main_range. rewrite Hnew, Hall, Hunits, Hyears, Hmonths, Hweeks.
  change (false || (1 =? 0)) with false.
  change (Z.max 1 (0 + 0 + 0) * 1 - 1) with 0.
  rewrite (sub_days_0 today Hvalid). cbn [mbind result_bind].
  destruct (exclude args).
  - exists yesterday. rewrite Hsub. cbn [mbind result_bind].
    rewrite (toordinal_ltb yesterday today) by (try done; lia).
    rewrite ltb_irrefl. split; [done|]. split; [lia|].
    unfold _get_title. rewrite equal_dates_refl, Hsub. cbn [mbind result_bind].
    rewrite (equal_dates_next_day yesterday today) by (try done; lia).
    by rewrite equal_dates_refl.
  - exists today. rewrite ltb_irrefl. split; [done|]. split; [lia|].
    unfold _get_title. rewrite equal_dates_refl, Hsub. reflexivity.
Qed.

Lemma one_day_title_witness :
  exists day,
    main_range {| units_past := 1; all := false; exclude := true;
                  end_year := 2017; end_month := 11; end_day := 1;
                  years := 0; months := 0; weeks := 0 |}
    = Range (Some day) day
    /\ datetime.toordinal day = datetime.toordinal (datetime.mk 2017 11 1) - 1
    /\ _get_title (datetime.mk 2017 11 1) (Some day) (Some day) = Ok "Yesterday".
Proof.
  apply (one_day_title (datetime.mk 2017 11 1)
           {| units_past := 1; all := false; exclude := true;
              end_year := 2017; end_month := 11; end_day := 1;
              years := 0; months := 0; weeks := 0 |}); reflexivity.
Defined.
